(** * flent/misc: the fixed-interval samplers file_iterate, tc_iterate and
      wifistats_iterate

    A shallow embedding of the three C programs under [misc/] and the
    properties of their sampling loop, snapshot emitter, station handling and
    buffered output.

    The programs talk to the kernel all the time, so the embedding has three
    layers:
    - [Fmt]: the bytes [sprintf] produces for the formats the programs use;
    - [Sys]: a small model of the process' world (descriptor table, scratch
      file, standard streams, the files and directories it can see) and of the
      system calls the programs make, as a state and exit monad;
    - [FileIterate], [TcIterate], [WifiStats]: the C functions, one Rocq
      definition per C function, with the same names and the same order of
      calls. *)

From Stdlib Require Import ZArith List Strings.String Strings.Ascii Strings.Byte Lia.
From stdpp Require Import base option list gmap strings.
Import ListNotations.
Open Scope Z_scope.

(** ** Bytes and [printf] conversions *)

Module Fmt.

Abbreviation bytes := (list byte).

(** A C string literal, without its terminating NUL. *)
Definition lit (s : string) : bytes := list_byte_of_string s.

Definition NL : byte := x0a.
Definition NUL : byte := x00.

Definition digit_byte (d : Z) : byte :=
  match d with
  | 0 => "0" | 1 => "1" | 2 => "2" | 3 => "3" | 4 => "4"
  | 5 => "5" | 6 => "6" | 7 => "7" | 8 => "8" | _ => "9"
  end%byte.

Definition is_digit (b : byte) : bool :=
  match b with
  | "0" | "1" | "2" | "3" | "4" | "5" | "6" | "7" | "8" | "9" => true
  | _ => false
  end%byte.

(** The decimal digits of [n >= 0], most significant first.  [fuel] bounds
    the number of digits; [udec] gives one unit of fuel per binary digit,
    which is always enough. *)
Fixpoint udec_aux (fuel : nat) (n : Z) (acc : bytes) : bytes :=
  match fuel with
  | O => acc
  | S fuel' =>
      let acc' := digit_byte (n mod 10) :: acc in
      if n <? 10 then acc' else udec_aux fuel' (n / 10) acc'
  end.

Definition udec (n : Z) : bytes := udec_aux (S (Z.to_nat (Z.log2 n))) n [].

(** The number a string of decimal digits denotes. *)
Definition digit_val (b : byte) : Z := Z.of_N (Byte.to_N b) - 48.

Definition undec (ds : bytes) : Z :=
  fold_left (fun acc b => 10 * acc + digit_val b) ds 0.

(** [%ld] and [%i]. *)
Definition fmt_ld (n : Z) : bytes :=
  if n <? 0 then "-"%byte :: udec (- n) else udec n.

(** [%0<width>ld]: the sign first, then zeros up to [width], then the
    digits; a value wider than [width] is printed in full. *)
Definition fmt_0ld (width : nat) (n : Z) : bytes :=
  let sign := if n <? 0 then ["-"%byte] else [] in
  let ds := udec (Z.abs n) in
  sign ++ repeat "0"%byte (width - length sign - length ds) ++ ds.

(** Storing [data] at offset [off] of a buffer.  A buffer is the list of
    its bytes that have been written so far, from offset 0; bytes between
    the end of that list and [off] would be indeterminate in C and are
    given as NUL (no run of the programs writes past a gap). *)
Definition poke (buf : bytes) (off : nat) (data : bytes) : bytes :=
  take off buf ++ repeat NUL (off - length buf) ++ data
    ++ drop (off + length data) buf.

(** [struct timespec] *)
Record timespec := { tv_sec : Z; tv_nsec : Z }.

(** ["Time: %ld.%09ld\n"] *)
Definition time_line (t : timespec) : bytes :=
  lit "Time: " ++ fmt_ld (tv_sec t) ++ lit "." ++ fmt_0ld 9 (tv_nsec t) ++ [NL].

(** ["---\n"] *)
Definition separator : bytes := lit "---" ++ [NL].

End Fmt.
Export Fmt.

(** ** The process' world and its system calls *)

Module Sys.

(** What reaches the error channel: a [perror] line (the text after the
    message depends on [errno] and is left out) or raw bytes. *)
Inductive diag :=
| DPerror (msg : string)
| DBytes (data : bytes).

(** What an open descriptor refers to. *)
Inductive target :=
| TStdin
| TStdout
| TStderr
| TTimer                                  (* a timerfd *)
| TScratch                                (* the scratch file of buffered mode *)
| TFile (path : string) (data : bytes)    (* a file opened read-only *)
| TPipeR                                  (* read end: the tool's output *)
| TPipeW.                                 (* write end: the tool's input *)

(** An open file description: [of_serial] numbers the descriptions in the
    order the kernel created them, so two descriptions are the same one
    exactly when their serials agree. *)
Record ofile := { of_serial : nat; of_target : target; of_pos : nat }.

(** The descriptor table is the kernel's array of slots: slot [fd] is
    [Some] while descriptor [fd] is open. *)
Abbreviation fdtable := (list (option ofile)).

Record world := {
  (* the process *)
  w_fds : fdtable;
  w_serial : nat;             (* serial of the next open file description *)
  w_names : gset string;      (* scratch paths visible in the file system *)
  w_scratch : bytes;          (* contents of the scratch file *)
  w_stdout : bytes;           (* everything delivered to standard output *)
  w_stderr : list diag;       (* everything delivered to the error channel *)
  (* its environment *)
  w_files : gmap string bytes;          (* readable files and their bytes *)
  w_dirs : gmap string (list string);   (* directories and what readdir lists *)
  w_clock : timespec;                   (* what CLOCK_REALTIME reads *)
  w_tmpname : option string;            (* mkstemp's six characters, if it can succeed *)
  w_pipe : option bytes;                (* what a read from the tool's pipe returns *)
}.

Definition set_fds (f : fdtable) (n : nat) (w : world) : world :=
  {| w_fds := f; w_serial := n; w_names := w_names w; w_scratch := w_scratch w;
     w_stdout := w_stdout w; w_stderr := w_stderr w; w_files := w_files w;
     w_dirs := w_dirs w; w_clock := w_clock w; w_tmpname := w_tmpname w;
     w_pipe := w_pipe w |}.

Definition set_names (s : gset string) (w : world) : world :=
  {| w_fds := w_fds w; w_serial := w_serial w; w_names := s; w_scratch := w_scratch w;
     w_stdout := w_stdout w; w_stderr := w_stderr w; w_files := w_files w;
     w_dirs := w_dirs w; w_clock := w_clock w; w_tmpname := w_tmpname w;
     w_pipe := w_pipe w |}.

Definition set_scratch (b : bytes) (w : world) : world :=
  {| w_fds := w_fds w; w_serial := w_serial w; w_names := w_names w; w_scratch := b;
     w_stdout := w_stdout w; w_stderr := w_stderr w; w_files := w_files w;
     w_dirs := w_dirs w; w_clock := w_clock w; w_tmpname := w_tmpname w;
     w_pipe := w_pipe w |}.

Definition set_stdout (b : bytes) (w : world) : world :=
  {| w_fds := w_fds w; w_serial := w_serial w; w_names := w_names w;
     w_scratch := w_scratch w; w_stdout := b; w_stderr := w_stderr w;
     w_files := w_files w; w_dirs := w_dirs w; w_clock := w_clock w;
     w_tmpname := w_tmpname w; w_pipe := w_pipe w |}.

Definition set_stderr (d : list diag) (w : world) : world :=
  {| w_fds := w_fds w; w_serial := w_serial w; w_names := w_names w;
     w_scratch := w_scratch w; w_stdout := w_stdout w; w_stderr := d;
     w_files := w_files w; w_dirs := w_dirs w; w_clock := w_clock w;
     w_tmpname := w_tmpname w; w_pipe := w_pipe w |}.

(** One iteration's worth of environment: what the timer read delivers and
    what the outside world looks like while the iteration runs. *)
Record tick := {
  tk_timer : option Z;     (* [Some n]: an 8-byte notification, n periods elapsed;
                              [None]: the read fails or is short *)
  tk_junk : Z;             (* what the uninitialised local [fired] holds when the
                              read did not fill it *)
  tk_files : gmap string bytes;
  tk_clock : timespec;
  tk_pipe : option bytes;
}.

Definition env_step (ev : tick) (w : world) : world :=
  {| w_fds := w_fds w; w_serial := w_serial w; w_names := w_names w;
     w_scratch := w_scratch w; w_stdout := w_stdout w; w_stderr := w_stderr w;
     w_files := tk_files ev; w_dirs := w_dirs w; w_clock := tk_clock ev;
     w_tmpname := w_tmpname w; w_pipe := tk_pipe ev |}.

(** *** The monad: state, [exit], and the two ways a model run can stop
    short of the program's end *)

Inductive res (A : Type) :=
| Ret (a : A) (w : world)        (* returned [a] *)
| Exit (status : Z) (w : world)  (* called [exit status] *)
| Blocked (w : world)            (* waiting for a timer event the environment never sends *)
| Stuck.                         (* a loop of the model ran out of unrolling *)
Arguments Ret {A} a w.
Arguments Exit {A} status w.
Arguments Blocked {A} w.
Arguments Stuck {A}.

Definition io (A : Type) := world -> res A.

Definition ret {A} (a : A) : io A := fun w => Ret a w.

Definition bind {A B} (c : io A) (k : A -> io B) : io B := fun w =>
  match c w with
  | Ret a w' => k a w'
  | Exit s w' => Exit s w'
  | Blocked w' => Blocked w'
  | Stuck => Stuck
  end.

Definition exit {A} (status : Z) : io A := fun w => Exit status w.

Declare Scope io_scope.
Delimit Scope io_scope with io.
Notation "'let*' x ':=' c 'in' k" := (bind c (fun x => k))
  (at level 10, x pattern, c at level 200, k at level 200) : io_scope.
Notation "c ;; k" := (bind c (fun _ => k))
  (at level 100, right associativity) : io_scope.
Open Scope io_scope.

(** [do { body } while (cond);] where every pass starts by waiting for
    the timer: one [tick] of the environment per pass.  When the
    environment sends no further tick the process stays blocked. *)
Fixpoint do_while {S : Type} (body : tick -> S -> io S) (cond : S -> bool)
    (evs : list tick) (s : S) : io S :=
  match evs with
  | [] => fun w => Blocked w
  | ev :: evs' =>
      let* s' := body ev s in
      if cond s' then do_while body cond evs' s' else ret s'
  end.

(** *** The descriptor table *)

Definition fd_get (w : world) (fd : Z) : option ofile :=
  if fd <? 0 then None
  else match w_fds w !! Z.to_nat fd with
       | Some (Some o) => Some o
       | _ => None
       end.

(** A new description goes into the lowest free slot. *)
Fixpoint fd_install (o : ofile) (t : fdtable) : nat * fdtable :=
  match t with
  | [] => (0%nat, [Some o])
  | None :: t' => (0%nat, Some o :: t')
  | Some x :: t' => let '(n, t'') := fd_install o t' in (S n, Some x :: t'')
  end.

Definition fd_open (tg : target) : io Z := fun w =>
  let '(n, t) := fd_install {| of_serial := w_serial w; of_target := tg; of_pos := 0 |}
                            (w_fds w) in
  Ret (Z.of_nat n) (set_fds t (S (w_serial w)) w).

Definition fd_seek (fd : Z) (o : ofile) (pos : nat) (w : world) : world :=
  set_fds (<[Z.to_nat fd := Some {| of_serial := of_serial o;
                                    of_target := of_target o;
                                    of_pos := pos |}]> (w_fds w))
          (w_serial w) w.

(** *** System and library calls *)

Definition STDOUT_FILENO : Z := 1.

(** [open(path, O_RDONLY)] *)
Definition sys_open (path : string) : io Z := fun w =>
  match w_files w !! path with
  | Some data => fd_open (TFile path data) w
  | None => Ret (-1) w
  end.

(** [close(fd)] *)
Definition sys_close (fd : Z) : io Z := fun w =>
  match fd_get w fd with
  | Some _ => Ret 0 (set_fds (<[Z.to_nat fd := None]> (w_fds w)) (w_serial w) w)
  | None => Ret (-1) w
  end.

(** [read(fd, buf, count)]: the return value and the bytes stored at [buf].
    A file delivers all the bytes it has left, up to [count]. *)
Definition sys_read (fd : Z) (count : Z) : io (Z * bytes) := fun w =>
  match fd_get w fd with
  | Some o =>
      match of_target o with
      | TFile _ data =>
          let chunk := take (Z.to_nat count) (drop (of_pos o) data) in
          Ret (Z.of_nat (length chunk), chunk)
              (fd_seek fd o (of_pos o + length chunk) w)
      | TScratch =>
          let chunk := take (Z.to_nat count) (drop (of_pos o) (w_scratch w)) in
          Ret (Z.of_nat (length chunk), chunk)
              (fd_seek fd o (of_pos o + length chunk) w)
      | TPipeR =>
          match w_pipe w with
          | Some data =>
              let chunk := take (Z.to_nat count) data in
              Ret (Z.of_nat (length chunk), chunk) w
          | None => Ret (-1, []) w
          end
      | _ => Ret (-1, []) w
      end
  | None => Ret (-1, []) w
  end.

(** [write(fd, buf, count)] with [data] the [count] bytes at [buf]; every
    write to a writable descriptor is complete. *)
Definition sys_write (fd : Z) (data : bytes) : io Z := fun w =>
  match fd_get w fd with
  | Some o =>
      match of_target o with
      | TStdout => Ret (Z.of_nat (length data)) (set_stdout (w_stdout w ++ data) w)
      | TStderr => Ret (Z.of_nat (length data)) (set_stderr (w_stderr w ++ [DBytes data]) w)
      | TScratch =>
          Ret (Z.of_nat (length data))
              (fd_seek fd o (of_pos o + length data)
                       (set_scratch (poke (w_scratch w) (of_pos o) data) w))
      | TPipeW => Ret (Z.of_nat (length data)) w
      | _ => Ret (-1) w
      end
  | None => Ret (-1) w
  end.

(** [lseek(fd, 0, SEEK_SET)] *)
Definition sys_rewind (fd : Z) : io Z := fun w =>
  match fd_get w fd with
  | Some o =>
      match of_target o with
      | TFile _ _ | TScratch => Ret 0 (fd_seek fd o 0 w)
      | _ => Ret (-1) w
      end
  | None => Ret (-1) w
  end.

(** [mkstemp(template)]: the descriptor and the array [template] afterwards. *)
Definition mkstemp (template : string) : io (Z * string) := fun w =>
  match w_tmpname w with
  | Some six =>
      let name := (substring 0 (String.length template - 6) template ++ six)%string in
      (let* fd := fd_open TScratch in ret (fd, name))
        (set_scratch [] (set_names ({[ name ]} ∪ w_names w) w))
  | None => Ret (-1, template) w
  end.

(** [unlink(path)] *)
Definition unlink (path : string) : io Z := fun w =>
  if bool_decide (path ∈ w_names w)
  then Ret 0 (set_names (w_names w ∖ {[ path ]}) w)
  else Ret (-1) w.

(** [timerfd_create(CLOCK_REALTIME, 0)] *)
Definition timerfd_create : io Z := fd_open TTimer.

(** [clock_gettime(CLOCK_REALTIME, &t)] *)
Definition clock_gettime : io timespec := fun w => Ret (w_clock w) w.

(** [perror(msg)]: a line on the standard error stream. *)
Definition perror (msg : string) : io unit := fun w =>
  match fd_get w 2 with
  | Some {| of_target := TStderr |} => Ret tt (set_stderr (w_stderr w ++ [DPerror msg]) w)
  | _ => Ret tt w
  end.

(** [printf] and [fprintf(stderr, ...)] of already formatted bytes. *)
Definition print_stdout (data : bytes) : io unit := sys_write STDOUT_FILENO data ;; ret tt.
Definition print_stderr (data : bytes) : io unit := sys_write 2 data ;; ret tt.

(** Eight bytes read into a [long long], little endian. *)
Definition le64 (data : bytes) : Z :=
  let u := fold_right (fun b acc => Z.of_N (Byte.to_N b) + 256 * acc) 0 data in
  if u <? 2 ^ 63 then u else u - 2 ^ 64.

(** [read(timer, &fired, sizeof(fired))]: the return value and what [fired]
    holds afterwards.  A timerfd delivers what the environment's event
    says; any other descriptor is read like a file. *)
Definition read_timer (timer : Z) (ev : tick) : io (Z * Z) := fun w =>
  match fd_get w timer with
  | Some {| of_target := TTimer |} =>
      match tk_timer ev with
      | Some n => Ret (8, n) w
      | None => Ret (-1, tk_junk ev) w
      end
  | _ =>
      (let* (r, data) := sys_read timer 8 in
       ret (r, if r =? 8 then le64 data else tk_junk ev)) w
  end.

(** [int] arithmetic: the result of storing a wider sum into an [int]. *)
Definition wrap_int (z : Z) : Z := (z + 2 ^ 31) mod 2 ^ 32 - 2 ^ 31.

(** The world a program starts in: the three standard streams are open. *)
Definition init_world (files : gmap string bytes) (dirs : gmap string (list string))
    (clock : timespec) (tmpname : option string) : world :=
  {| w_fds := [Some {| of_serial := 0; of_target := TStdin; of_pos := 0 |};
               Some {| of_serial := 1; of_target := TStdout; of_pos := 0 |};
               Some {| of_serial := 2; of_target := TStderr; of_pos := 0 |}];
     w_serial := 3; w_names := ∅; w_scratch := []; w_stdout := []; w_stderr := [];
     w_files := files; w_dirs := dirs; w_clock := clock; w_tmpname := tmpname;
     w_pipe := None |}.

End Sys.
Export Sys.

(** ** file_iterate.c *)

Module FileIterate.

Definition BUFFERSIZE : Z := 1024 * 1024.

(** [struct arg].  The interval only arms the timer, whose firings are the
    environment's [tick]s, so it is left out. *)
Record args := {
  count : Z;
  filename : option string;   (* [None] is the NULL pointer *)
  buffer : bool;
}.

(** The option list [usage] prints. *)
Definition usage_options : bytes :=
  x09 :: lit "-h --help " ++ [NL]
  ++ x09 :: lit "-b --buffer " ++ [NL]
  ++ x09 :: lit "-c --count     [number of iterations]" ++ [NL]
  ++ x09 :: lit "-I --interval  [fractional number of seconds]" ++ [NL]
  ++ x09 :: lit "-f --filename  [filename]" ++ [NL].

Definition usage {A} (err : option string) : io A :=
  (match err with
   | Some e => print_stderr (lit e ++ [NL])
   | None => ret tt
   end) ;;
  print_stdout (lit "file_iterate [options]" ++ [NL]) ;;
  print_stdout usage_options ;;
  exit (-1).

(** The loop [while((r = read(fp, buffer, bufsize-len)) > 0) len += r;]:
    every read stores at the start of [buffer]. *)
Fixpoint read_loop (fuel : nat) (fp : Z) (buffer : bytes) (bufsize len : Z)
    : io (Z * bytes) :=
  match fuel with
  | O => fun _ => Stuck
  | S fuel' =>
      let* (r, data) := sys_read fp (bufsize - len) in
      if 0 <? r
      then read_loop fuel' fp (poke buffer 0 data) bufsize (len + r)
      else ret (len, buffer)
  end.

(** [read_once]: the value returned and the buffer afterwards.  The test
    [!fp] is on the descriptor being 0; a failed [open] gives -1 and goes
    on to the reads, which fail.  The descriptor is not closed. *)
Definition read_once (filename : string) (buffer : bytes) (bufsize : Z)
    : io (Z * bytes) :=
  let* fp := sys_open filename in
  if fp =? 0
  then perror "Unable to open file" ;; ret (-1, buffer)
  else read_loop (S (S (Z.to_nat bufsize))) fp buffer bufsize 0.

(** [result]: returns the buffer afterwards. *)
Definition result (out : Z) (size bufsize : Z) (buffer : bytes) : io bytes :=
  if 40 <? bufsize - size then
    let* cur_time := clock_gettime in
    let text := time_line cur_time ++ separator in
    let added := Z.of_nat (length text) in
    let buffer' := poke buffer (Z.to_nat size) (text ++ [NUL]) in
    sys_write out (take (Z.to_nat (size + added)) buffer') ;;
    ret buffer'
  else
    sys_write 2 (lit "Buffer Overrun" ++ [NL; NUL]) ;;
    ret buffer.

(** One pass through the body of the [do ... while] of [run]: the process
    sleeps in the timer read and wakes up in the world of [ev]. *)
Definition loop_body (fname : string) (out timer : Z) (ev : tick)
    (buffer : bytes) (ctr : Z) : io (bytes * Z) :=
  (fun w => Ret tt (env_step ev w)) ;;
  let* (r, fired) := read_timer timer ev in
  (if r =? 8 then ret tt else perror "reading timer") ;;
  let ctr := wrap_int (ctr + fired) in
  let* (size, buffer) := read_once fname buffer BUFFERSIZE in
  if 0 <? size then
    let* buffer := result out size BUFFERSIZE buffer in
    ret (buffer, ctr)
  else
    let* buffer := result out 0 BUFFERSIZE buffer in
    perror "reading file" ;;
    ret (buffer, ctr).

(** The [do ... while (ctr < a->count)] loop; it returns the buffer and
    the counter it ends with. *)
Definition sample_loop (cnt : Z) (fname : string) (out timer : Z)
    (evs : list tick) (buffer : bytes) (ctr : Z) : io (bytes * Z) :=
  do_while (fun ev '(buffer, ctr) => loop_body fname out timer ev buffer ctr)
           (fun '(_, ctr) => ctr <? cnt)
           evs (buffer, ctr).

(** [while((size = read(out, buffer, sizeof(buffer))) > 0)
      write(STDOUT_FILENO,buffer,size);] *)
Fixpoint copy_loop (fuel : nat) (out : Z) (buffer : bytes) : io bytes :=
  match fuel with
  | O => fun _ => Stuck
  | S fuel' =>
      let* (size, data) := sys_read out BUFFERSIZE in
      if 0 <? size then
        let buffer := poke buffer 0 data in
        sys_write STDOUT_FILENO (take (Z.to_nat size) buffer) ;;
        copy_loop fuel' out buffer
      else ret buffer
  end.

(** Every pass of [copy_loop] but the last takes at least one byte off the
    scratch file, so one pass per byte and one more are enough. *)
Definition copy_back (out : Z) (buffer : bytes) : io bytes := fun w =>
  copy_loop (S (length (w_scratch w))) out buffer w.

(** The part of [run] before the loop: the output descriptor, the array
    [tmpfile], the timer and the buffer after the first [read_once]. *)
Definition setup (a : args) : io (Z * string * Z * string * bytes) :=
  let tmpfile := "/tmp/file_iterateXXXXXX"%string in
  let* (out, tmpfile) :=
    (if buffer a then mkstemp tmpfile else ret (STDOUT_FILENO, tmpfile)) in
  (if buffer a && (out =? 0)
   then perror "Unable to create tmpfile" ;; exit (-1)
   else ret tt) ;;
  let* fname :=
    (match filename a with
     | Some f => ret f
     | None => usage (Some "Must specify filename"%string)
     end) in
  let* timer := timerfd_create in
  let* (r, buffer) := read_once fname [] BUFFERSIZE in
  (if r <=? 0 then perror "Unable to read file" ;; exit (-1) else ret tt) ;;
  ret (out, tmpfile, timer, fname, buffer).

(** The part of [run] after the loop. *)
Definition finish (a : args) (out : Z) (tmpfile : string) (buf : bytes) : io Z :=
  (if buffer a then
     sys_rewind out ;;
     copy_back out buf ;;
     unlink tmpfile ;;
     ret tt
   else ret tt) ;;
  sys_close out ;;
  ret 0.

Definition run (a : args) (evs : list tick) : io Z :=
  let* (out, tmpfile, timer, fname, buffer) := setup a in
  let* (buffer, ctr) := sample_loop (count a) fname out timer evs buffer 0 in
  finish a out tmpfile buffer.

End FileIterate.

(** ** tc_iterate.c *)

Module TcIterate.

Definition BUFFERSIZE : Z := 1024 * 1024.

Record args := {
  count : Z;
  interface : string;
  command : string;
  buffer : bool;
}.

(** [result] is the same C text as in file_iterate.c. *)
Definition result := FileIterate.result.

(** [pipe(filedes)]: the read end, then the write end. *)
Definition sys_pipe : io (Z * Z) :=
  let* r := fd_open TPipeR in
  let* w := fd_open TPipeW in
  ret (r, w).

(** One pass through the body of the [do ... while] of [forkit]. *)
Definition loop_body (tool inp out timer : Z) (cmd : bytes) (ev : tick)
    (buffer : bytes) (ctr : Z) : io (bytes * Z) :=
  let* wr := sys_write tool cmd in
  (if wr =? -1 then perror "writing cmd" else ret tt) ;;
  (fun w => Ret tt (env_step ev w)) ;;
  let* (r, fired) := read_timer timer ev in
  (if r =? 8 then ret tt else perror "reading timer") ;;
  let ctr := wrap_int (ctr + fired) in
  let* (size, data) := sys_read inp BUFFERSIZE in
  if 0 <? size then
    let* buffer := result out size BUFFERSIZE (poke buffer 0 data) in
    ret (buffer, ctr)
  else
    let* buffer := result out 0 BUFFERSIZE buffer in
    perror "reading cmd output" ;;
    ret (buffer, ctr).

Definition sample_loop (cnt : Z) (tool inp out timer : Z) (cmd : bytes)
    (evs : list tick) (buffer : bytes) (ctr : Z) : io (bytes * Z) :=
  do_while (fun ev '(buffer, ctr) =>
              loop_body tool inp out timer cmd ev buffer ctr)
           (fun '(_, ctr) => ctr <? cnt)
           evs (buffer, ctr).

(** The part of [forkit] before the loop, in the parent: the two pipe
    ends kept, the output descriptor, the array [tmpfile] and the timer.
    The child that runs [tc] is part of the environment and shows only
    through what the pipe delivers. *)
Definition setup (a : args) : io (Z * Z * Z * string * Z) :=
  let* (filedes0, filedes1) := sys_pipe in
  let* (filedes20, filedes21) := sys_pipe in
  let tool := filedes1 in
  let inp := filedes20 in
  let tmpfile := "/tmp/tc_iterateXXXXXX"%string in
  let* (out, tmpfile) :=
    (if buffer a then mkstemp tmpfile else ret (STDOUT_FILENO, tmpfile)) in
  (if buffer a && (out =? 0)
   then perror "Unable to create tmpfile" ;; exit (-1)
   else ret tt) ;;
  sys_close filedes21 ;;
  sys_close filedes0 ;;
  let* timer := timerfd_create in
  ret (tool, inp, out, tmpfile, timer).

(** The part of [forkit] after the loop. *)
Definition finish (a : args) (tool inp out : Z) (tmpfile : string) (buf : bytes)
    : io Z :=
  sys_close tool ;;
  sys_close inp ;;
  (if buffer a then
     sys_rewind out ;;
     FileIterate.copy_back out buf ;;
     unlink tmpfile ;;
     ret tt
   else ret tt) ;;
  sys_close out ;;
  ret 0.

Definition forkit (a : args) (evs : list tick) : io Z :=
  let* (tool, inp, out, tmpfile, timer) := setup a in
  let cmd := lit (command a) ++ lit " show dev " ++ lit (interface a) ++ [NL] in
  let* (buf, ctr) := sample_loop (count a) tool inp out timer cmd evs [] 0 in
  finish a tool inp out tmpfile buf.

End TcIterate.

(** ** wifistats_iterate.c *)

Module WifiStats.

Definition BUFFERSIZE : Z := 1024 * 1024.
Definition STABUF : Z := 8192.

(** [station_stats].  The three character arrays are modelled by the
    strings they hold; names and paths are taken to fit. *)
Record station_stats := {
  rc_stats : Z;
  airtime : Z;
  macaddr : string;
  airtime_file : string;
  rc_stats_file : string;
}.

Record args := {
  count : Z;
  dev : option string;        (* [None] is the NULL pointer *)
  buffer : bool;
}.

(** The option list [usage] prints. *)
Definition usage_options : bytes :=
  x09 :: lit "-h --help " ++ [NL]
  ++ x09 :: lit "-b --buffer    [buffer up the output locally]" ++ [NL]
  ++ x09 :: lit "-c --count     [number of iterations]" ++ [NL]
  ++ x09 :: lit "-I --interval  [fractional number of seconds]" ++ [NL]
  ++ x09 :: lit "-i --interface [wifi interface]" ++ [NL].

Definition usage {A} (err : option string) : io A :=
  (match err with
   | Some e => print_stderr (lit e ++ [NL])
   | None => ret tt
   end) ;;
  print_stdout (lit "wifistats_iterate [options]" ++ [NL]) ;;
  print_stdout usage_options ;;
  exit (-1).

Definition set_handles (rc air : Z) (s : station_stats) : station_stats :=
  {| rc_stats := rc; airtime := air; macaddr := macaddr s;
     airtime_file := airtime_file s; rc_stats_file := rc_stats_file s |}.

(** The body of the [for] loop of [stations_reset], on [stations[i]]. *)
Definition reset_one (s : station_stats) : io station_stats :=
  (if rc_stats s =? 0 then ret 0 else sys_close (rc_stats s)) ;;
  (if airtime s =? 0 then ret 0 else sys_close (airtime s)) ;;
  let* rc := sys_open (rc_stats_file s) in
  let* air := sys_open (airtime_file s) in
  ret (set_handles rc air s).

(** [for(int i = 0; i < cnt; i++)] over the array, from its first entry. *)
Fixpoint reset_loop (cnt : nat) (stations : list station_stats)
    : io (list station_stats) :=
  match cnt, stations with
  | S cnt', s :: rest =>
      let* s' := reset_one s in
      let* rest' := reset_loop cnt' rest in
      ret (s' :: rest')
  | _, _ => ret stations
  end.

(** [stations_reset]: the value returned and the array afterwards. *)
Definition stations_reset (stations : list station_stats) (cnt : Z)
    : io (Z * list station_stats) :=
  let* stations := reset_loop (Z.to_nat cnt) stations in
  ret (0, stations).

(** [dir_exists]: the directory stream, as the entries [readdir] will
    deliver, or [None] for NULL. *)
Definition dir_exists (dir : string) : io (option (list string)) := fun w =>
  match w_dirs w !! dir with
  | Some entries => Ret (Some entries) w
  | None =>
      (perror "Error : Failed to open stations directory" ;; ret None) w
  end.

(** ["/sys/kernel/debug/ieee80211/phy%i/netdev:%s/stations"] *)
Definition stations_dir (phy : Z) (dev : string) : string :=
  ("/sys/kernel/debug/ieee80211/phy" ++ string_of_list_byte (fmt_ld phy)
   ++ "/netdev:" ++ dev ++ "/stations")%string.

(** [wifi_where]: [for(int i = 0; i < 10; i++)], with [n] passes left. *)
Fixpoint wifi_where_from (n : nat) (i : Z) (dev : string) : io Z :=
  match n with
  | O => ret (-1)
  | S n' =>
      let* fd := dir_exists (stations_dir i dev) in
      match fd with
      | Some _ => ret i
      | None => wifi_where_from n' (i + 1) dev
      end
  end.

Definition wifi_where (dev : string) : io Z := wifi_where_from 10 0 dev.

(** The [while ((in = readdir(fd)))] loop of [count_stations]. *)
Fixpoint count_loop (entries : list string) (cnt : Z) : Z :=
  match entries with
  | [] => cnt
  | d_name :: rest =>
      if String.eqb d_name "." then count_loop rest cnt
      else if String.eqb d_name ".." then count_loop rest cnt
      else count_loop rest (cnt + 1)
  end.

Definition count_stations (dev : string) : io Z :=
  let* phy := wifi_where dev in
  let* fd := dir_exists (stations_dir phy dev) in
  match fd with
  | None => ret (-1)
  | Some entries => ret (count_loop entries 0)
  end.

(** The three [sprintf]s that fill [stations[cnt]]; the handles stay as
    they are. *)
Definition set_names_of (dir d_name : string) (s : station_stats) : station_stats :=
  {| rc_stats := rc_stats s; airtime := airtime s;
     macaddr := d_name;
     airtime_file := (dir ++ "/" ++ d_name ++ "/" ++ "airtime")%string;
     rc_stats_file := (dir ++ "/" ++ d_name ++ "/" ++ "rc_stats_csv")%string |}.

(** The [while ((in = readdir(fd)))] loop of [stations_open]. *)
Fixpoint open_loop (dir : string) (limit : Z) (entries : list string)
    (stations : list station_stats) (cnt : Z) : io (list station_stats * Z) :=
  match entries with
  | [] => ret (stations, cnt)
  | d_name :: rest =>
      if String.eqb d_name "." then open_loop dir limit rest stations cnt
      else if String.eqb d_name ".." then open_loop dir limit rest stations cnt
      else
        let stations := alter (set_names_of dir d_name) (Z.to_nat cnt) stations in
        let cnt := cnt + 1 in
        if limit <? cnt then
          perror ("Error : Too many stations to process" ++ String "010" "") ;;
          ret (stations, cnt)
        else open_loop dir limit rest stations cnt
  end.

(** [stations_open]: the value returned and the array afterwards. *)
Definition stations_open (dev : string) (stations : list station_stats) (limit : Z)
    : io (Z * list station_stats) :=
  let cnt := 0 in
  let stations := alter (set_handles (-1) (-1)) (Z.to_nat cnt) stations in
  let limit := Z.quot limit 2 in
  let* phy := wifi_where dev in
  let dir := stations_dir phy dev in
  let* fd := dir_exists dir in
  match fd with
  | None => ret (-1, stations)
  | Some entries =>
      let* (stations, cnt) := open_loop dir limit entries stations cnt in
      let stations := alter (set_handles (-1) (-1)) (Z.to_nat cnt) stations in
      ret (cnt, stations)
  end.

(** [stations_close] *)
Fixpoint close_loop (cnt : nat) (stations : list station_stats) : io unit :=
  match cnt, stations with
  | S cnt', s :: rest =>
      sys_close (rc_stats s) ;;
      sys_close (airtime s) ;;
      close_loop cnt' rest
  | _, _ => ret tt
  end.

Definition stations_close (stations : list station_stats) (cnt : Z) : io Z :=
  close_loop (Z.to_nat cnt) stations ;; ret 0.

(** One stream of one station in [stations_read]: the label, then one
    read of at most 8192 bytes stored right behind it. *)
Definition read_stream (handle : Z) (label : string) (buf : bytes) (size : Z)
    : io (Z * bytes) :=
  if 0 <? handle then
    let text := lit label ++ [NL] in
    let buf := poke buf (Z.to_nat size) (text ++ [NUL]) in
    let size := size + Z.of_nat (length text) in
    let* (t, data) := sys_read handle 8192 in
    if 0 <? t
    then ret (size + t, poke buf (Z.to_nat size) data)
    else ret (size, buf)
  else ret (size, buf).

(** The [while(i < cnt)] loop of [stations_read], from entry [i] on. *)
Fixpoint read_loop (cnt : nat) (s : list station_stats) (buf : bytes) (size : Z)
    : io (Z * bytes) :=
  match cnt, s with
  | S cnt', st :: rest =>
      let text := lit "Station: " ++ lit (macaddr st) ++ [NL] in
      let buf := poke buf (Z.to_nat size) (text ++ [NUL]) in
      let size := size + Z.of_nat (length text) in
      let* (size, buf) := read_stream (airtime st) "Airtime:" buf size in
      let* (size, buf) := read_stream (rc_stats st) "RC stats:" buf size in
      read_loop cnt' rest buf size
  | _, _ => ret (size, buf)
  end.

(** [stations_read]: the size returned and the buffer afterwards. *)
Definition stations_read (s : list station_stats) (buf : bytes) (cnt : Z)
    : io (Z * bytes) :=
  read_loop (Z.to_nat cnt) s buf 0.

(** [writev(out, iov, 3)]: one write of the segments, in order. *)
Definition sys_writev (out : Z) (iov : list bytes) : io Z :=
  sys_write out (concat iov).

(** [result]: the value of [err] returned. *)
Definition result (out : Z) (size bufsize : Z) (buffer : bytes) : io Z :=
  let* cur_time := clock_gettime in
  let mtime := time_line cur_time in
  let iov := [mtime; take (Z.to_nat size) buffer; separator] in
  if 40 <? bufsize - size then
    let* r := sys_writev out iov in
    if r =? -1
    then perror "Write failed - out of disk?" ;; ret 1
    else ret 0
  else
    sys_write 2 (lit "Buffer Overrun" ++ [NL; NUL]) ;;
    ret 0.

(** One pass through the body of the [do ... while] of [run]; the last
    component is [err]. *)
Definition loop_body (out timer : Z) (c : Z) (ev : tick)
    (stations : list station_stats) (buffer : bytes) (ctr : Z)
    : io (list station_stats * bytes * Z * Z) :=
  (fun w => Ret tt (env_step ev w)) ;;
  let* (r, fired) := read_timer timer ev in
  (if r =? 8 then ret tt else perror "reading timer") ;;
  let ctr := wrap_int (ctr + fired) in
  let* (_, stations) := stations_reset stations c in
  let* (size, buffer) := stations_read stations buffer c in
  if 0 <? size then
    let* err := result out size BUFFERSIZE buffer in
    ret (stations, buffer, ctr, err)
  else
    let* err := result out 0 BUFFERSIZE buffer in
    perror "reading file" ;;
    ret (stations, buffer, ctr, err).

(** [do { ...; if(err<0) break; } while (ctr < a->count);] *)
Definition sample_loop (cnt : Z) (out timer : Z) (c : Z) (evs : list tick)
    (stations : list station_stats) (buffer : bytes) (ctr : Z)
    : io (list station_stats * bytes * Z * Z) :=
  do_while (fun ev '(stations, buffer, ctr, _) =>
              loop_body out timer c ev stations buffer ctr)
           (fun '(_, _, ctr, err) => negb (err <? 0) && (ctr <? cnt))
           evs (stations, buffer, ctr, 0).

(** [run] up to the test of [a->dev]: the output descriptor. *)
Definition open_sink (staged : bool) : io Z :=
  let tmpfile := "/tmp/wifistats_iterateXXXXXX"%string in
  let* (out, tmpfile) :=
    (if staged then mkstemp tmpfile else ret (STDOUT_FILENO, tmpfile)) in
  (if staged && (out =? 0)
   then perror "Unable to create tmpfile" ;; exit (-1)
   else unlink tmpfile ;; ret tt) ;;
  ret out.

(** [run] from there to the timer: the number of stations and the array.
    [mem] is what the block returned by [malloc] for the station array
    holds: C leaves it indeterminate. *)
Definition discover (dev : option string) (mem : list station_stats)
    : io (Z * list station_stats) :=
  let* dev :=
    (match dev with
     | Some d => ret d
     | None => usage (Some "Must specify wifi device"%string)
     end) in
  let* c := count_stations dev in
  let* stations :=
    (if 0 <? c then ret (take (Z.to_nat (2 * c)) mem)
     else usage (Some "No stations found"%string)) in
  let* (c, stations) := stations_open dev stations 512 in
  (if c <? 1 then usage (Some "No stations found"%string) else ret tt) ;;
  ret (c, stations).

(** The part of [run] before the loop. *)
Definition setup (a : args) (mem : list station_stats)
    : io (Z * Z * Z * list station_stats) :=
  let* out := open_sink (buffer a) in
  let* (c, stations) := discover (dev a) mem in
  let* timer := timerfd_create in
  ret (out, timer, c, stations).

Definition run (a : args) (mem : list station_stats) (evs : list tick) : io Z :=
  let* (out, timer, c, stations) := setup a mem in
  let* (stations, buf, ctr, _) :=
    sample_loop (count a) out timer c evs stations [] 0 in
  (if buffer a then
     sys_rewind out ;;
     FileIterate.copy_back out buf ;;
     ret tt
   else ret tt) ;;
  sys_close out ;;
  sys_close timer ;;
  stations_close stations c ;;
  ret 0.

End WifiStats.

(** ** What a run shows *)

Module Obs.

(** [out] is a descriptor the emitter can append to: standard output, or
    the scratch file with its offset at the end. *)
Definition sink_ok (w : world) (out : Z) : bool :=
  match fd_get w out with
  | Some o =>
      match of_target o with
      | TStdout => true
      | TScratch => Nat.eqb (of_pos o) (length (w_scratch w))
      | _ => false
      end
  | None => false
  end.

(** The bytes delivered so far to what [out] refers to. *)
Definition sink_bytes (w : world) (out : Z) : bytes :=
  match fd_get w out with
  | Some o =>
      match of_target o with
      | TStdout => w_stdout w
      | TScratch => w_scratch w
      | _ => []
      end
  | None => []
  end.

(** Descriptor 2 is the error channel. *)
Definition stderr_ok (w : world) : bool :=
  match fd_get w 2 with
  | Some o => match of_target o with TStderr => true | _ => false end
  | None => false
  end.

(** A wall clock as [clock_gettime] gives it: a 64-bit count of seconds
    since the epoch and a nanosecond part below one second. *)
Definition sane_clock (t : timespec) : Prop :=
  0 <= tv_sec t < 2 ^ 63 /\ 0 <= tv_nsec t < 10 ^ 9.

(** ["Buffer Overrun\n"] as [write(2, ..., sizeof(...))] sends it: the
    line and the NUL that ends the string literal. *)
Definition overrun_warning : bytes := lit "Buffer Overrun" ++ [NL; NUL].

End Obs.
Export Obs.

(** ** Small concrete worlds *)

Module Demo.

(** A process with its three standard streams and nothing to read. *)
Definition w_demo : world :=
  init_world ∅ ∅ {| tv_sec := 100; tv_nsec := 5 |} None.

Definition buf_demo : bytes := lit "42" ++ [NL].

End Demo.
Export Demo.

(** ** The specification's words, where a claim is compared with the code *)

Module Spec.

(** The record layout the specification gives for every variant: time
    line, payload, separator. *)
Definition spec_record (t : timespec) (payload : bytes) : bytes :=
  time_line t ++ payload ++ separator.

End Spec.
Export Spec.

(** ** The diagnostics of station discovery *)

Module Discovery.

(** The line [dir_exists] leaves for a directory it cannot open. *)
Definition failed_open : diag :=
  DPerror "Error : Failed to open stations directory".

(** The line [stations_open] leaves when it stops early. *)
Definition too_many : diag :=
  DPerror ("Error : Too many stations to process" ++ String "010" "").

(** A directory of [n] stations named 0, 1, ..., as [readdir] lists it. *)
Definition crowd (n : nat) : list string :=
  "."%string :: ".."%string
    :: map (fun i => string_of_list_byte (fmt_ld (Z.of_nat i))) (seq 0 n).

End Discovery.
Export Discovery.

Module DemoStations.

Import WifiStats.

(** A block of station records as [malloc] may hand it out. *)
Definition blank : station_stats :=
  {| rc_stats := 0; airtime := 0; macaddr := ""; airtime_file := "";
     rc_stats_file := "" |}.

(** A world whose interface wlan0 (on phy1) has 300 stations. *)
Definition w_crowd : world :=
  init_world ∅ (<[stations_dir 1 "wlan0" := crowd 300]> ∅)
             {| tv_sec := 100; tv_nsec := 5 |} None.

End DemoStations.
Export DemoStations.

(** ** What one pass of a sampling loop is expected to do *)

Module Tick.

(** Descriptor [timer] is a timerfd. *)
Definition timer_ok (w : world) (timer : Z) : bool :=
  match fd_get w timer with
  | Some o => match of_target o with TTimer => true | _ => false end
  | None => false
  end.

(** Descriptor 0 is in use, so no [open] returns 0. *)
Definition stdin_ok (w : world) : bool :=
  match fd_get w 0 with Some _ => true | None => false end.

(** The state a sampling loop runs in. *)
Definition loop_ok (w : world) (out timer : Z) : bool :=
  stdin_ok w && stderr_ok w && sink_ok w out && timer_ok w timer.

(** Everything of the world but the descriptor table. *)
Definition rest (w : world) :=
  (w_names w, w_scratch w, w_stdout w, w_stderr w,
   w_files w, w_dirs w, w_clock w, w_tmpname w, w_pipe w).

(** What ends up in [fired]. *)
Definition fired_of (ev : tick) : Z :=
  match tk_timer ev with Some n => n | None => tk_junk ev end.

(** The line a failed timer read leaves. *)
Definition timer_diag (ev : tick) : list diag :=
  match tk_timer ev with Some _ => [] | None => [DPerror "reading timer"] end.

(** StaticFile capture: what [read_once] finds in the buffer. *)
Definition fi_payload (ev : tick) (fname : string) : bytes :=
  match tk_files ev !! fname with
  | Some data => take (Z.to_nat FileIterate.BUFFERSIZE) data
  | None => []
  end.

(** The bytes one pass of file_iterate's loop appends to its output. *)
Definition fi_record (ev : tick) (fname : string) : bytes :=
  let p := fi_payload ev fname in
  if 40 <? FileIterate.BUFFERSIZE - Z.of_nat (length p)
  then p ++ time_line (tk_clock ev) ++ separator
  else [].

(** The lines one pass of file_iterate's loop leaves on the error channel. *)
Definition fi_diag (ev : tick) (fname : string) : list diag :=
  let p := fi_payload ev fname in
  timer_diag ev
    ++ (if 40 <? FileIterate.BUFFERSIZE - Z.of_nat (length p) then []
        else [DBytes overrun_warning])
    ++ (if 0 <? Z.of_nat (length p) then [] else [DPerror "reading file"]).

End Tick.
Export Tick.

Module Table.

(** The description in slot [n] of a descriptor table, if the slot is in
    use. *)
Definition slot (t : fdtable) (n : nat) : option ofile :=
  match t !! n with Some (Some o) => Some o | _ => None end.

End Table.
Export Table.

(** ** Loop control, as a function of the timer's reports *)

Module Control.


(** The counter after the passes [done], starting from [ctr]. *)
Definition ctr_after (done : list tick) (ctr : Z) : Z :=
  fold_left (fun c ev => wrap_int (c + fired_of ev)) done ctr.

(** The passes a loop with target [N] makes when the environment sends
    [evs], and whether it gets to its end. *)
Fixpoint passes (N : Z) (evs : list tick) (ctr : Z) : list tick * bool :=
  match evs with
  | [] => ([], false)
  | ev :: evs' =>
      let c := wrap_int (ctr + fired_of ev) in
      if c <? N
      then let '(l, fin) := passes N evs' c in (ev :: l, fin)
      else ([ev], true)
  end.

(** The bytes of the sink that [out] does not refer to. *)
Definition off_sink (w : world) (out : Z) : bytes :=
  match fd_get w out with
  | Some o =>
      match of_target o with
      | TStdout => w_scratch w
      | TScratch => w_stdout w
      | _ => []
      end
  | None => []
  end.


End Control.
Export Control.

Module DemoLoop.

(** [w_demo] with a timer on descriptor 3 and the pipes of tc_iterate on
    4 and 5. *)
Definition w_timer : world :=
  set_fds (w_fds w_demo
             ++ [Some {| of_serial := 3; of_target := TTimer; of_pos := 0 |};
                 Some {| of_serial := 4; of_target := TPipeW; of_pos := 0 |};
                 Some {| of_serial := 5; of_target := TPipeR; of_pos := 0 |}])
          6 w_demo.

(** A pass in which the timer reports [n] elapsed periods. *)
Definition ev_fired (n : Z) : tick :=
  {| tk_timer := Some n; tk_junk := 0; tk_files := ∅;
     tk_clock := {| tv_sec := 100; tv_nsec := 5 |}; tk_pipe := None |}.

(** A pass in which the timer read fails while [fired] holds [junk]. *)
Definition ev_failed (junk : Z) : tick :=
  {| tk_timer := None; tk_junk := junk; tk_files := ∅;
     tk_clock := {| tv_sec := 100; tv_nsec := 5 |}; tk_pipe := None |}.

End DemoLoop.
Export DemoLoop.

Module TickTc.




End TickTc.
Export TickTc.

Module Keep.

(** Every descriptor of [w] is, in [w'], still the same description, and
    at the same offset unless it is [out]. *)
Definition keeps (w w' : world) (out : Z) : Prop :=
  forall fd o, fd_get w fd = Some o ->
    exists o', fd_get w' fd = Some o'
      /\ of_target o' = of_target o /\ of_serial o' = of_serial o
      /\ (fd <> out -> of_pos o' = of_pos o).

End Keep.
Export Keep.

(** ** What a whole run shows *)

Module Behaviour.

(** Descriptor 1 is standard output. *)
Definition stdout_ok (w : world) : bool :=
  match fd_get w 1 with
  | Some o => match of_target o with TStdout => true | _ => false end
  | None => false
  end.

Inductive verdict :=
| Returned (status : Z)     (* the program's function returned *)
| Exited (status : Z)       (* it called exit *)
| Waiting                   (* it is blocked in the timer read *)
| Broken.                   (* the model ran out of unrolling *)

(** How a run ended, and what reached standard output and the error
    channel. *)
Definition observe (r : res Z) : verdict * bytes * list diag :=
  match r with
  | Ret a w => (Returned a, w_stdout w, w_stderr w)
  | Exit s w => (Exited s, w_stdout w, w_stderr w)
  | Blocked w => (Waiting, w_stdout w, w_stderr w)
  | Stuck => (Broken, [], [])
  end.

(** file_iterate, as a function of its environment: [b] is the buffered
    flag, [files] what can be read before the first tick. *)
Definition fi_behaviour (b : bool) (files : gmap string bytes) (cnt : Z)
    (fname : option string) (evs : list tick) : verdict * bytes * list diag :=
  match fname with
  | None =>
      (Exited (-1),
       lit "file_iterate [options]" ++ [NL] ++ FileIterate.usage_options,
       [DBytes (lit "Must specify filename" ++ [NL])])
  | Some f =>
      match files !! f with
      | Some (_ :: _) =>
          let l := fst (passes cnt evs 0) in
          let recs := concat (map (fun ev => fi_record ev f) l) in
          let diags := concat (map (fun ev => fi_diag ev f) l) in
          if snd (passes cnt evs 0) then (Returned 0, recs, diags)
          else (Waiting, if b then [] else recs, diags)
      | _ => (Exited (-1), [], [DPerror "Unable to read file"])
      end
  end.

End Behaviour.
Export Behaviour.

Module DemoRuns.

(** A world in which /x holds "42\n", mkstemp picks "abcdef", and wlan0 on
    phy0 has the two stations of the specification's scenario, each with an
    airtime file holding [content] and no rc_stats_csv file. *)
Definition scenario_files (content : bytes) : gmap string bytes :=
  <["/x"%string := lit "42" ++ [NL]]>
    (<[(WifiStats.stations_dir 0 "wlan0" ++ "/AA:BB/airtime")%string := content]>
       (<[(WifiStats.stations_dir 0 "wlan0" ++ "/CC:DD/airtime")%string := content]> ∅)).

Definition scenario_dirs : gmap string (list string) :=
  <[WifiStats.stations_dir 0 "wlan0" := ["."; ".."; "AA:BB"; "CC:DD"]%string]> ∅.

Definition w_scenario (content : bytes) : world :=
  init_world (scenario_files content) scenario_dirs
             {| tv_sec := 100; tv_nsec := 5 |} (Some "abcdef"%string).

(** A tick in which the timer reports one period and the files are those
    of the scenario. *)
Definition ev_scenario (content : bytes) : tick :=
  {| tk_timer := Some 1; tk_junk := 0; tk_files := scenario_files content;
     tk_clock := {| tv_sec := 101; tv_nsec := 7 |}; tk_pipe := None |}.

(** The names visible in the file system when a run stops, however it
    stops. *)
Definition names_of {A} (r : res A) : option (gset string) :=
  match r with
  | Ret _ w | Exit _ w | Blocked w => Some (w_names w)
  | Stuck => None
  end.

End DemoRuns.
Export DemoRuns.

(** ** Station handles *)

Module Handles.

Import WifiStats.

(** The handles a record holds that [stations_read] will read from and
    [stations_reset] will close: the positive ones. *)
Definition own1 (h : Z) : list Z := if 0 <? h then [h] else [].

Definition owned_by (s : station_stats) : list Z :=
  own1 (rc_stats s) ++ own1 (airtime s).

Fixpoint owned (ss : list station_stats) : list Z :=
  match ss with
  | [] => []
  | s :: rest => owned_by s ++ owned rest
  end.

(** Descriptor [h] is open on a file. *)
Definition is_file (w : world) (h : Z) : Prop :=
  exists o path data, fd_get w h = Some o /\ of_target o = TFile path data.

(** The handles of the records are in order: no descriptor is held twice,
    and each one held is open on a file. *)
Definition stations_ok (w : world) (ss : list station_stats) : Prop :=
  NoDup (owned ss) /\ forall h, h ∈ owned ss -> is_file w h.

(** Serials number the descriptions created so far. *)
Definition serials_ok (w : world) : Prop :=
  forall fd o, fd_get w fd = Some o -> (of_serial o < w_serial w)%nat.

(** [h] is what [open(path)] gave in a reset that started in [w] and ended
    in [w']: -1 when there is no such file, otherwise a positive
    descriptor, open in [w'] on that file at offset 0, whose description
    was created after [w]. *)
Definition handle_fresh (w w' : world) (path : string) (h : Z) : Prop :=
  match w_files w !! path with
  | None => h = -1
  | Some data =>
      0 < h
      /\ exists n, (w_serial w <= n)%nat
           /\ fd_get w' h = Some {| of_serial := n; of_target := TFile path data;
                                    of_pos := 0 |}
  end.

(** What persists of a record across ticks. *)
Definition locators (s : station_stats) : string * string * string :=
  (macaddr s, airtime_file s, rc_stats_file s).

(** What one read of at most 8192 bytes from [h] stores, in [w]. *)
Definition peek (w : world) (h : Z) : bytes :=
  match sys_read h 8192 w with
  | Ret (t, data) _ => if 0 <? t then data else []
  | _ => []
  end.

(** The part of a station's block for one stream, by the handle. *)
Definition stream_of (w : world) (label : string) (h : Z) : bytes :=
  if 0 <? h then lit label ++ [NL] ++ peek w h else [].

Definition block_of (w : world) (s : station_stats) : bytes :=
  lit "Station: " ++ lit (macaddr s) ++ [NL]
    ++ stream_of w "Airtime:" (airtime s)
    ++ stream_of w "RC stats:" (rc_stats s).

(** The same, by what the files hold. *)
Definition stream_block (files : gmap string bytes) (label path : string) : bytes :=
  match files !! path with
  | Some data => lit label ++ [NL] ++ take (Z.to_nat 8192) data
  | None => []
  end.

Definition station_block (files : gmap string bytes) (s : station_stats) : bytes :=
  lit "Station: " ++ lit (macaddr s) ++ [NL]
    ++ stream_block files "Airtime:" (airtime_file s)
    ++ stream_block files "RC stats:" (rc_stats_file s).

(** DynamicStationSet capture: the payload of one tick. *)
Definition ws_payload (files : gmap string bytes) (ss : list station_stats) : bytes :=
  concat (map (station_block files) ss).

(** One tick's capture as the loop does it: reset, then read. *)
Definition capture (stations : list station_stats) (buffer : bytes) (c : Z)
    : io (list station_stats * Z * bytes) :=
  let* (_, stations) := stations_reset stations c in
  let* (size, buffer) := stations_read stations buffer c in
  ret (stations, size, buffer).

End Handles.
Export Handles.

Module HandlesRel.

Import WifiStats.

(** A record before and after a reset that started in [w] and ended in
    [w']. *)
Definition reset_rel (w w' : world) (s s' : station_stats) : Prop :=
  locators s' = locators s
  /\ handle_fresh w w' (rc_stats_file s) (rc_stats s')
  /\ handle_fresh w w' (airtime_file s) (airtime s').

(** [w'] has the descriptors of [w], each still the same description on
    the same target, and no others. *)
Definition same_table (w w' : world) : Prop :=
  forall fd,
    match fd_get w fd, fd_get w' fd with
    | Some o, Some o' => of_serial o' = of_serial o /\ of_target o' = of_target o
    | None, None => True
    | _, _ => False
    end.

End HandlesRel.
Export HandlesRel.
(** ** Checking the handles of a concrete state *)

Module HandlesCheck.

Import WifiStats.

(** What [open(path)] returns where descriptor 0 is in use: a positive
    descriptor when the file is there, -1 when it is not. *)
Definition opened (files : gmap string bytes) (path : string) (h : Z) : Prop :=
  match files !! path with
  | Some _ => 0 < h
  | None => h = -1
  end.

(** The handles of [s'] are those a reset gives for the locators of [s]. *)
Definition handles_for (files : gmap string bytes) (s s' : station_stats) : Prop :=
  opened files (airtime_file s) (airtime s')
  /\ opened files (rc_stats_file s) (rc_stats s').

Definition serials_okb (w : world) : bool :=
  forallb (fun slot =>
             match slot with
             | Some o => (of_serial o <? w_serial w)%nat
             | None => true
             end) (w_fds w).

Definition is_fileb (w : world) (h : Z) : bool :=
  match fd_get w h with
  | Some o => match of_target o with TFile _ _ => true | _ => false end
  | None => false
  end.

Definition stations_okb (w : world) (ss : list station_stats) : bool :=
  bool_decide (NoDup (owned ss)) && forallb (is_fileb w) (owned ss).

End HandlesCheck.
Export HandlesCheck.

(** ** The scenario of two stations, run *)

Module DemoTicks.

Import WifiStats.

Definition scenario_args (staged : bool) : args :=
  {| count := 1; dev := Some "wlan0"%string; buffer := staged |}.

(** Four records of zeroed memory. *)
Definition scenario_mem : list station_stats := repeat blank 4.

(** The records, their number and the world at the first tick: after
    [setup], when the first timer event has arrived. *)
Definition scenario_start (content : bytes) : list station_stats * Z * world :=
  match setup (scenario_args false) scenario_mem (w_scenario content) with
  | Ret (_, _, c, stations) w => (stations, c, env_step (ev_scenario content) w)
  | _ => ([], 0, w_scenario content)
  end.

(** The same at the second tick: the handles the first tick opened are
    still in the records. *)
Definition scenario_next (content : bytes) : list station_stats * Z * world :=
  let '(stations, c, w) := scenario_start content in
  match capture stations [] c w with
  | Ret (stations', _, _) w' => (stations', c, env_step (ev_scenario content) w')
  | _ => (stations, c, w)
  end.

(** The payload of the first tick. *)
Definition scenario_payload (content : bytes) : option bytes :=
  let '(stations, c, w) := scenario_start content in
  match capture stations [] c w with
  | Ret (_, size, buf) _ => Some (take (Z.to_nat size) buf)
  | _ => None
  end.

(** What a run shows on standard output, if it returns. *)
Definition stdout_of {A} (r : res A) : option bytes :=
  match r with
  | Ret _ w => Some (w_stdout w)
  | _ => None
  end.

End DemoTicks.
Export DemoTicks.

(** ** A whole run of wifistats_iterate *)

Module TickWs.

Import WifiStats.

(** The bytes one pass of the loop appends to its output, for [c] records
    with the locators of [ss]. *)
Definition ws_record (ev : tick) (c : Z) (ss : list station_stats) : bytes :=
  let p := ws_payload (tk_files ev) (take (Z.to_nat c) ss) in
  if 40 <? BUFFERSIZE - Z.of_nat (length p)
  then time_line (tk_clock ev) ++ p ++ separator
  else [].

(** The lines one pass leaves on the error channel. *)
Definition ws_diag (ev : tick) (c : Z) (ss : list station_stats) : list diag :=
  let p := ws_payload (tk_files ev) (take (Z.to_nat c) ss) in
  timer_diag ev
    ++ (if 40 <? BUFFERSIZE - Z.of_nat (length p) then []
        else [DBytes overrun_warning])
    ++ (if 0 <? Z.of_nat (length p) then [] else [DPerror "reading file"]).

(** A record that holds no descriptor. *)
Definition idle (s : station_stats) : Prop := rc_stats s <= 0 /\ airtime s <= 0.

(** The state the loop of [run] is in between two passes. *)
Definition ws_inv (w : world) (out timer : Z) (ss : list station_stats) (c : Z)
    : Prop :=
  loop_ok w out timer = true /\ serials_ok w
  /\ stations_ok w (take (Z.to_nat c) ss).

(** [w] with [so] more on standard output and [se] more on the error
    channel. *)
Definition emit (so : bytes) (se : list diag) (w : world) : world :=
  set_stderr (w_stderr w ++ se) (set_stdout (w_stdout w ++ so) w).

(** A computation that looks at the directories only and does nothing but
    print: given the directories, it always ends the same way, with a
    value that satisfies [P] or with [exit]. *)
Definition quiet {A} (P : A -> Prop) (c : io A) : Prop :=
  forall dirs, exists (r : sum A Z) so se,
    match r with inl a => P a | inr _ => True end
    /\ forall w, w_dirs w = dirs -> stderr_ok w = true -> stdout_ok w = true ->
         c w = match r with
               | inl a => Ret a (emit so se w)
               | inr s => Exit s (emit so se w)
               end.

End TickWs.
Export TickWs.

Module Streams.

(** The descriptors of [w] that are not open on a file are still there in
    [w'], on the same target. *)
Definition streams_kept (w w' : world) : Prop :=
  forall fd o, fd_get w fd = Some o ->
    match of_target o with TFile _ _ => False | _ => True end ->
    exists o', fd_get w' fd = Some o' /\ of_target o' = of_target o.

End Streams.
Export Streams.

Module Modes.

(** wifistats_iterate, as a function of how discovery ends ([r], with
    [so] printed on standard output and [se] on the error channel) and of
    the ticks; [b] is the buffered flag. *)
Definition ws_behaviour (b : bool) (r : sum (Z * list WifiStats.station_stats) Z)
    (so : bytes) (se : list diag) (cnt : Z) (evs : list tick)
    : verdict * bytes * list diag :=
  match r with
  | inr s => (Exited s, so, se)
  | inl (c, ss) =>
      let l := fst (passes cnt evs 0) in
      let recs := concat (map (fun ev => ws_record ev c ss) l) in
      let diags := concat (map (fun ev => ws_diag ev c ss) l) in
      if snd (passes cnt evs 0) then (Returned 0, so ++ recs, se ++ diags)
      else (Waiting, if b then so else so ++ recs, se ++ diags)
  end.


End Modes.
Export Modes.

Module ModesTc.


End ModesTc.
Export ModesTc.


(** * Properties *)

(** ** Formatting *)

Section FmtFacts.

Lemma digit_byte_is_digit d : is_digit (digit_byte d) = true.
Proof.
  unfold digit_byte.
  destruct d as [|p|p]; try reflexivity;
    do 4 (try destruct p as [p|p|]); reflexivity.
Qed.

Lemma udec_aux_digits fuel : forall n acc,
  Forall (fun b => is_digit b = true) acc ->
  Forall (fun b => is_digit b = true) (udec_aux fuel n acc).
Proof.
  induction fuel as [|fuel IH]; intros n acc Hacc; simpl; [assumption|].
  destruct (n <? 10).
  - constructor; [apply digit_byte_is_digit | assumption].
  - apply IH. constructor; [apply digit_byte_is_digit | assumption].
Qed.

Lemma udec_digits n : Forall (fun b => is_digit b = true) (udec n).
Proof. apply udec_aux_digits. constructor. Qed.

(** A number below [10 ^ k] has at most [k] digits. *)
Lemma udec_aux_length fuel : forall (k : nat) n acc,
  (1 <= k)%nat -> 0 <= n < 10 ^ Z.of_nat k ->
  (length (udec_aux fuel n acc) <= k + length acc)%nat.
Proof.
  induction fuel as [|fuel IH]; intros k n acc Hk Hn; simpl; [lia|].
  destruct (Z.ltb_spec n 10) as [Hlt|Hge]; simpl; [lia|].
  destruct k as [|[|k]]; [lia| change (10 ^ Z.of_nat 1) with 10 in Hn; lia |].
  specialize (IH (S k) (n / 10) (digit_byte (n mod 10) :: acc)).
  simpl length in IH. 
  assert (0 <= n / 10 < 10 ^ Z.of_nat (S k)).
  { split; [apply Z.div_pos; lia|].
    apply Z.div_lt_upper_bound; [lia|].
    replace (Z.of_nat (S (S k))) with (Z.succ (Z.of_nat (S k))) in Hn by lia.
    rewrite Z.pow_succ_r in Hn by lia. lia. }
  specialize (IH ltac:(lia) H). lia.
Qed.

Lemma udec_length (k : nat) n :
  (1 <= k)%nat -> 0 <= n < 10 ^ Z.of_nat k -> (length (udec n) <= k)%nat.
Proof.
  intros Hk Hn. unfold udec.
  pose proof (udec_aux_length (S (Z.to_nat (Z.log2 n))) k n [] Hk Hn) as H.
  cbn [length] in H. lia.
Qed.

Lemma udec_aux_nonempty fuel n acc :
  (0 < length acc)%nat \/ (0 < fuel)%nat -> (0 < length (udec_aux fuel n acc))%nat.
Proof.
  revert n acc. induction fuel as [|fuel IH]; intros n acc H; simpl.
  - lia.
  - destruct (n <? 10); simpl; [lia|]. apply IH. simpl. lia.
Qed.

(** [%09ld] of a nanosecond count is exactly nine digits. *)
Lemma fmt_09ld_length n :
  0 <= n < 10 ^ 9 -> length (fmt_0ld 9 n) = 9%nat.
Proof.
  intros Hn. unfold fmt_0ld.
  destruct (Z.ltb_spec n 0) as [?|_]; [lia|].
  rewrite Z.abs_eq by lia.
  pose proof (udec_length 9 n ltac:(lia) Hn) as Hlen.
  simpl. rewrite length_app, repeat_length. simpl in *. lia.
Qed.

Lemma fmt_09ld_digits n :
  0 <= n -> Forall (fun b => is_digit b = true) (fmt_0ld 9 n).
Proof.
  intros Hn. unfold fmt_0ld.
  destruct (Z.ltb_spec n 0) as [?|_]; [lia|].
  simpl. apply Forall_app. split.
  - induction (9 - length (udec (Z.abs n)))%nat; simpl; constructor; auto.
  - apply udec_digits.
Qed.

Lemma fmt_ld_length_nonneg (k : nat) n :
  (1 <= k)%nat -> 0 <= n < 10 ^ Z.of_nat k -> (length (fmt_ld n) <= k)%nat.
Proof.
  intros Hk Hn. unfold fmt_ld.
  destruct (Z.ltb_spec n 0) as [?|_]; [lia|]. now apply udec_length.
Qed.


Lemma digit_val_byte d : 0 <= d <= 9 -> digit_val (digit_byte d) = d.
Proof.
  intros Hd.
  assert (d = 0 \/ d = 1 \/ d = 2 \/ d = 3 \/ d = 4 \/ d = 5 \/ d = 6 \/ d = 7
          \/ d = 8 \/ d = 9) as Hc by lia.
  repeat (destruct Hc as [->|Hc]; [reflexivity|]). now subst.
Qed.

Lemma udec_aux_acc fuel : forall n acc,
  udec_aux fuel n acc = udec_aux fuel n [] ++ acc.
Proof.
  induction fuel as [|fuel IH]; intros n acc; simpl; [reflexivity|].
  destruct (n <? 10); [reflexivity|].
  rewrite (IH _ (_ :: acc)), (IH _ [_]), <- app_assoc. reflexivity.
Qed.

Lemma undec_snoc ds b : undec (ds ++ [b]) = 10 * undec ds + digit_val b.
Proof. unfold undec. rewrite fold_left_app. reflexivity. Qed.

Lemma undec_udec_aux fuel : forall n,
  0 <= n < 2 ^ Z.of_nat fuel -> undec (udec_aux fuel n []) = n.
Proof.
  induction fuel as [|fuel IH]; intros n Hn.
  - simpl in *. assert (n = 0) by lia. now subst.
  - cbn [udec_aux].
    assert (0 <= n mod 10 <= 9) by (pose proof (Z.mod_pos_bound n 10); lia).
    destruct (Z.ltb_spec n 10) as [Hlt|Hge].
    + unfold undec; simpl. rewrite digit_val_byte by assumption.
      rewrite Z.mod_small; lia.
    + rewrite udec_aux_acc, undec_snoc, digit_val_byte by assumption.
      rewrite IH.
      * pose proof (Z.div_mod n 10). lia.
      * rewrite Nat2Z.inj_succ, Z.pow_succ_r in Hn by lia.
        split; [apply Z.div_pos; lia|].
        apply Z.div_lt_upper_bound; lia.
Qed.

(** [udec] prints the number it is given. *)
Lemma undec_udec n : 0 <= n -> undec (udec n) = n.
Proof.
  intros Hn. unfold udec. apply undec_udec_aux. split; [assumption|].
  destruct (Z.eq_dec n 0) as [->|Hne]; [reflexivity|].
  rewrite Nat2Z.inj_succ, Z2Nat.id by apply Z.log2_nonneg.
  apply Z.log2_spec. lia.
Qed.

End FmtFacts.

(** ** The world *)

Section SysFacts.

Lemma poke_end (buf data : bytes) : poke buf (length buf) data = buf ++ data.
Proof.
  unfold poke. rewrite take_ge, Nat.sub_diag, drop_ge by lia.
  simpl. now rewrite app_nil_r.
Qed.

Lemma take_poke (buf data : bytes) (off : nat) :
  (off <= length buf)%nat ->
  take (off + length data) (poke buf off data) = take off buf ++ data.
Proof.
  intros Hoff. unfold poke.
  replace (off - length buf)%nat with 0%nat by lia. simpl.
  rewrite app_assoc.
  apply take_app_length'. rewrite length_app, length_take. lia.
Qed.

Lemma take_poke_snoc (buf data : bytes) (off : nat) (b : byte) :
  (off <= length buf)%nat ->
  take (off + length data) (poke buf off (data ++ [b])) = take off buf ++ data.
Proof.
  intros Hoff. unfold poke.
  replace (off - length buf)%nat with 0%nat by lia. simpl.
  rewrite <- !app_assoc, !app_assoc.
  rewrite <- (app_assoc _ [b]).
  apply take_app_length'. rewrite length_app, length_take. lia.
Qed.

Lemma poke_nil (buf : bytes) : poke buf 0 [] = buf.
Proof. unfold poke. simpl. now rewrite drop_0. Qed.

Lemma fd_get_nonneg w fd o : fd_get w fd = Some o -> 0 <= fd.
Proof. unfold fd_get. destruct (Z.ltb_spec fd 0); [discriminate | lia]. Qed.

Lemma fd_get_lookup w fd o :
  fd_get w fd = Some o <-> 0 <= fd /\ w_fds w !! Z.to_nat fd = Some (Some o).
Proof.
  unfold fd_get. destruct (Z.ltb_spec fd 0).
  - split; [discriminate | lia].
  - destruct (w_fds w !! Z.to_nat fd) as [[o'|]|]; split;
      try discriminate; try (intros [_ ?]; discriminate); try congruence.
    + intros [= ->]. auto with lia.
    + intros [_ [= ->]]. reflexivity.
Qed.

Lemma fd_get_seek_eq w fd o pos :
  fd_get w fd = Some o ->
  fd_get (fd_seek fd o pos w) fd
  = Some {| of_serial := of_serial o; of_target := of_target o; of_pos := pos |}.
Proof.
  intros H. apply fd_get_lookup in H as [Hfd Hl].
  apply fd_get_lookup. split; [assumption|]. simpl.
  apply list_lookup_insert_eq. eapply lookup_lt_Some; eauto.
Qed.

Lemma fd_get_seek_ne w fd fd' o pos :
  0 <= fd -> fd <> fd' -> fd_get (fd_seek fd o pos w) fd' = fd_get w fd'.
Proof.
  intros Hfd Hne. unfold fd_get. destruct (Z.ltb_spec fd' 0); [reflexivity|].
  unfold fd_seek, set_fds. cbn [w_fds].
  rewrite list_lookup_insert_ne by lia. reflexivity.
Qed.

Lemma keeps_refl w out : keeps w w out.
Proof. intros fd o H. exists o. auto. Qed.

Lemma keeps_trans w1 w2 w3 out : keeps w1 w2 out -> keeps w2 w3 out -> keeps w1 w3 out.
Proof.
  intros H12 H23 fd o H.
  destruct (H12 fd o H) as (o2 & H2 & Ht2 & Hs2 & Hp2).
  destruct (H23 fd o2 H2) as (o3 & H3 & Ht3 & Hs3 & Hp3).
  exists o3. split; [exact H3|]. split; [congruence|]. split; [congruence|].
  intros Hne. rewrite Hp3, Hp2; auto.
Qed.

Lemma keeps_same w w' out :
  (forall fd o, fd_get w fd = Some o -> fd_get w' fd = Some o) -> keeps w w' out.
Proof. intros H fd o Hget. exists o. auto. Qed.

Lemma keeps_other w w' out fd o :
  keeps w w' out -> fd <> out -> fd_get w fd = Some o -> fd_get w' fd = Some o.
Proof.
  intros H Hne Hget. destruct (H fd o Hget) as ([s t p] & H' & Ht & Hs & Hp).
  rewrite H'. destruct o as [s0 t0 p0]. simpl in *. rewrite Ht, Hs, Hp; auto.
Qed.

(** Appending to a sink. *)
Lemma sys_write_sink w out data :
  sink_ok w out = true ->
  exists w', sys_write out data w = Ret (Z.of_nat (length data)) w'
    /\ sink_bytes w' out = sink_bytes w out ++ data
    /\ sink_ok w' out = true
    /\ w_stderr w' = w_stderr w
    /\ w_names w' = w_names w
    /\ w_clock w' = w_clock w
    /\ w_files w' = w_files w
    /\ (forall fd, fd <> out -> fd_get w' fd = fd_get w fd)
    /\ off_sink w' out = off_sink w out
    /\ keeps w w' out.
Proof.
  unfold sink_ok, sink_bytes, off_sink, sys_write.
  destruct (fd_get w out) as [o|] eqn:Hget; [|discriminate].
  destruct (of_target o) eqn:Htg; try discriminate; intros Hok.
  - eexists; split; [reflexivity|].
    change (fd_get (set_stdout _ w) out) with (fd_get w out).
    rewrite Hget, Htg. simpl.
    split; [reflexivity|]. split; [reflexivity|]. split; [reflexivity|].
    split; [reflexivity|]. split; [reflexivity|]. split; [reflexivity|].
    split; [reflexivity|]. split; [reflexivity|].
    apply keeps_same. auto.
  - apply Nat.eqb_eq in Hok.
    pose proof (fd_get_nonneg _ _ _ Hget) as Hnn.
    eexists; split; [reflexivity|].
    rewrite fd_get_seek_eq by exact Hget. simpl. rewrite Htg.
    rewrite Hok, poke_end, length_app, Nat.eqb_refl.
    split; [reflexivity|]. split; [reflexivity|]. split; [reflexivity|].
    split; [reflexivity|]. split; [reflexivity|]. split; [reflexivity|].
    split; [|split; [reflexivity|]].
    + intros fd Hne. rewrite fd_get_seek_ne; auto.
    + intros fd o' Hget'. destruct (Z.eq_dec fd out) as [->|Hne].
      * rewrite fd_get_seek_eq by exact Hget.
        assert (o' = o) as -> by congruence.
        eexists. split; [reflexivity|]. simpl. tauto.
      * rewrite fd_get_seek_ne by auto.
        change (fd_get (set_scratch (w_scratch w ++ data) w) fd) with (fd_get w fd).
        exists o'. auto.
Qed.

(** A raw write to the error channel. *)
Lemma sys_write_stderr w data :
  stderr_ok w = true ->
  sys_write 2 data w
  = Ret (Z.of_nat (length data)) (set_stderr (w_stderr w ++ [DBytes data]) w).
Proof.
  unfold stderr_ok, sys_write.
  destruct (fd_get w 2) as [o|]; [|discriminate].
  destruct (of_target o); try discriminate. reflexivity.
Qed.

Lemma perror_stderr w msg :
  stderr_ok w = true ->
  perror msg w = Ret tt (set_stderr (w_stderr w ++ [DPerror msg]) w).
Proof.
  unfold stderr_ok, perror.
  destruct (fd_get w 2) as [[s t p]|]; [|discriminate].
  simpl. destruct t; try discriminate. reflexivity.
Qed.

End SysFacts.

(** ** The emitter *)

Section ResultFacts.

Lemma time_line_length t :
  sane_clock t -> (length (time_line t) <= 36)%nat.
Proof.
  intros [Hs Hn]. unfold time_line.
  rewrite !length_app, (fmt_09ld_length _ Hn).
  assert (length (fmt_ld (tv_sec t)) <= 19)%nat.
  { apply fmt_ld_length_nonneg; [lia|]. 
    change (10 ^ Z.of_nat 19) with 10000000000000000000.
    change (2 ^ 63) with 9223372036854775808 in Hs. lia. }
  change (length (lit "Time: ")) with 6%nat.
  change (length (lit ".")) with 1%nat.
  simpl length. lia.
Qed.

Lemma separator_length : length separator = 4%nat.
Proof. reflexivity. Qed.

(** file_iterate.c, tc_iterate.c: with room for the reserve, one write of
    payload, time line and separator. *)
Lemma fi_result_emit w out size bufsize buffer :
  sink_ok w out = true ->
  0 <= size -> (Z.to_nat size <= length buffer)%nat ->
  40 < bufsize - size ->
  exists b' w',
    FileIterate.result out size bufsize buffer w = Ret b' w'
    /\ sink_bytes w' out
       = sink_bytes w out
           ++ take (Z.to_nat size) buffer ++ time_line (w_clock w) ++ separator
    /\ sink_ok w' out = true
    /\ w_stderr w' = w_stderr w
    /\ w_names w' = w_names w
    /\ (forall fd, fd <> out -> fd_get w' fd = fd_get w fd)
    /\ off_sink w' out = off_sink w out
    /\ keeps w w' out.
Proof.
  intros Hsink Hsize Hlen Hroom.
  unfold FileIterate.result.
  destruct (Z.ltb_spec 40 (bufsize - size)) as [_|?]; [|lia].
  unfold bind, clock_gettime, ret.
  set (text := time_line (w_clock w) ++ separator).
  replace (Z.to_nat (size + Z.of_nat (length text)))
    with (Z.to_nat size + length text)%nat by lia.
  rewrite take_poke_snoc by assumption.
  destruct (sys_write_sink w out (take (Z.to_nat size) buffer ++ text) Hsink)
    as (w' & -> & Hb & Hok & He & Hn & _ & _ & Hfd & Hoff & Hkeeps).
  eauto 12.
Qed.

(** Without room, nothing goes to [out] and the warning goes to
    descriptor 2. *)
Lemma fi_result_overrun w out size bufsize buffer :
  stderr_ok w = true ->
  bufsize - size <= 40 ->
  FileIterate.result out size bufsize buffer w
  = Ret buffer (set_stderr (w_stderr w ++ [DBytes overrun_warning]) w).
Proof.
  intros Herr Hroom. unfold FileIterate.result.
  destruct (Z.ltb_spec 40 (bufsize - size)) as [?|_]; [lia|].
  unfold bind. rewrite sys_write_stderr by assumption. reflexivity.
Qed.

(** wifistats_iterate.c: with room, one vectored write of time line,
    payload and separator. *)
Lemma ws_result_emit w out size bufsize buffer :
  sink_ok w out = true ->
  40 < bufsize - size ->
  exists w',
    WifiStats.result out size bufsize buffer w = Ret 0 w'
    /\ sink_bytes w' out
       = sink_bytes w out
           ++ time_line (w_clock w) ++ take (Z.to_nat size) buffer ++ separator
    /\ sink_ok w' out = true
    /\ w_stderr w' = w_stderr w
    /\ w_names w' = w_names w
    /\ (forall fd, fd <> out -> fd_get w' fd = fd_get w fd)
    /\ off_sink w' out = off_sink w out
    /\ keeps w w' out.
Proof.
  intros Hsink Hroom. unfold WifiStats.result.
  unfold bind at 1. unfold clock_gettime.
  destruct (Z.ltb_spec 40 (bufsize - size)) as [_|?]; [|lia].
  unfold bind, WifiStats.sys_writev.
  replace (concat [time_line (w_clock w); take (Z.to_nat size) buffer; separator])
    with (time_line (w_clock w) ++ take (Z.to_nat size) buffer ++ separator)
    by (cbn [concat]; now rewrite app_nil_r).
  set (rec := time_line (w_clock w) ++ take (Z.to_nat size) buffer ++ separator).
  destruct (sys_write_sink w out rec Hsink)
    as (w' & -> & Hb & Hok & He & Hn & _ & _ & Hfd & Hoff & Hkeeps).
  destruct (Z.eqb_spec (Z.of_nat (length rec)) (-1)) as [?|_]; [lia|].
  exists w'. unfold ret. auto 12.
Qed.

Lemma ws_result_overrun w out size bufsize buffer :
  stderr_ok w = true ->
  bufsize - size <= 40 ->
  WifiStats.result out size bufsize buffer w
  = Ret 0 (set_stderr (w_stderr w ++ [DBytes overrun_warning]) w).
Proof.
  intros Herr Hroom. unfold WifiStats.result.
  unfold bind at 1. unfold clock_gettime.
  destruct (Z.ltb_spec 40 (bufsize - size)) as [?|_]; [lia|].
  unfold bind. rewrite sys_write_stderr by assumption. reflexivity.
Qed.

Lemma sink_not_stderr w out :
  sink_ok w out = true -> stderr_ok w = true -> out <> 2.
Proof.
  unfold sink_ok, stderr_ok. intros H1 H2 ->.
  destruct (fd_get w 2) as [o|]; [|discriminate].
  destruct (of_target o); discriminate.
Qed.

Lemma sink_bytes_set_stderr w d out :
  sink_bytes (set_stderr d w) out = sink_bytes w out.
Proof. reflexivity. Qed.

End ResultFacts.

(** ** The emitter's guard and record layout *)

Section EmitterTheorems.

(** C1.  [result] emits exactly when [bufsize - size] exceeds 40.  With
    the capacity 1048576 and a payload of [size] bytes at the start of the
    buffer: when there is room, the only effect is that the complete record
    is appended to what [out] refers to (payload, time line, separator in
    file_iterate.c and tc_iterate.c, where the record is assembled in the
    buffer and fits it together with its terminating NUL; time line, payload,
    separator in wifistats_iterate.c) and nothing goes to the error channel;
    otherwise nothing at all reaches [out], the bytes of the line
    "Buffer Overrun" (with the NUL that [sizeof] counts in) go to descriptor
    2, and [result] returns to the loop in both cases. *)
Theorem overrun_guard (w : world) (out size : Z) (buffer : bytes) :
  sink_ok w out = true -> stderr_ok w = true ->
  0 <= size -> (Z.to_nat size <= length buffer)%nat ->
  sane_clock (w_clock w) ->
  (40 < 1048576 - size ->
     (exists b' w',
        FileIterate.result out size FileIterate.BUFFERSIZE buffer w = Ret b' w'
        /\ sink_bytes w' out
           = sink_bytes w out
               ++ take (Z.to_nat size) buffer ++ time_line (w_clock w) ++ separator
        /\ w_stderr w' = w_stderr w)
     /\ size + Z.of_nat (length (time_line (w_clock w) ++ separator)) + 1
        <= FileIterate.BUFFERSIZE
     /\ (exists w',
        WifiStats.result out size WifiStats.BUFFERSIZE buffer w = Ret 0 w'
        /\ sink_bytes w' out
           = sink_bytes w out
               ++ time_line (w_clock w) ++ take (Z.to_nat size) buffer ++ separator
        /\ w_stderr w' = w_stderr w))
  /\ (1048576 - size <= 40 ->
     exists w',
       FileIterate.result out size FileIterate.BUFFERSIZE buffer w = Ret buffer w'
       /\ WifiStats.result out size WifiStats.BUFFERSIZE buffer w = Ret 0 w'
       /\ sink_bytes w' out = sink_bytes w out
       /\ w_stdout w' = w_stdout w /\ w_scratch w' = w_scratch w
       /\ w_stderr w' = w_stderr w ++ [DBytes overrun_warning]).
Proof.
  intros Hsink Herr Hsize Hlen Hclk. split.
  - intros Hroom. split; [|split].
    + destruct (fi_result_emit w out size FileIterate.BUFFERSIZE buffer)
        as (b' & w' & Hr & Hb & _ & He & _); auto.
      exists b', w'. auto.
    + pose proof (time_line_length _ Hclk).
      rewrite length_app, separator_length.
      unfold FileIterate.BUFFERSIZE. lia.
    + destruct (ws_result_emit w out size WifiStats.BUFFERSIZE buffer)
        as (w' & Hr & Hb & _ & He & _); auto.
      exists w'. auto.
  - intros Hroom. eexists. split; [|split].
    + apply fi_result_overrun; auto.
    + apply ws_result_overrun; auto.
    + auto.
Qed.

Lemma overrun_guard_witness :
  sink_ok w_demo 1 = true /\ stderr_ok w_demo = true
  /\ (Z.to_nat 3 <= length buf_demo)%nat /\ sane_clock (w_clock w_demo)
  /\ exists b' w',
       FileIterate.result 1 3 FileIterate.BUFFERSIZE buf_demo w_demo = Ret b' w'
       /\ sink_bytes w' 1
          = sink_bytes w_demo 1
              ++ take (Z.to_nat 3) buf_demo ++ time_line (w_clock w_demo) ++ separator
       /\ w_stderr w' = w_stderr w_demo.
Proof.
  assert (sane_clock (w_clock w_demo)) as Hclk by (vm_compute; intuition discriminate).
  assert (Z.to_nat 3 <= length buf_demo)%nat as Hlen by (vm_compute; lia).
  repeat split; try reflexivity; try assumption; try apply Hclk.
  apply (overrun_guard w_demo 1 3 buf_demo); try reflexivity; try assumption; lia.
Defined.

(** C3, as stated, fails: the emitter of file_iterate.c (and of
    tc_iterate.c, which has the same [result]) puts the payload first. *)
Lemma timestamp_first_fails :
  ~ (forall w out size buffer b' w',
       sink_ok w out = true ->
       0 <= size -> (Z.to_nat size <= length buffer)%nat ->
       FileIterate.result out size FileIterate.BUFFERSIZE buffer w = Ret b' w' ->
       sink_bytes w' out
       = sink_bytes w out ++ spec_record (w_clock w) (take (Z.to_nat size) buffer)).
Proof.
  intros H.
  specialize (H w_demo 1 3 buf_demo).
  destruct (FileIterate.result 1 3 FileIterate.BUFFERSIZE buf_demo w_demo)
    as [b' w'| | |] eqn:Hr; try (vm_compute in Hr; discriminate).
  specialize (H b' w' eq_refl ltac:(lia) ltac:(vm_compute; lia) eq_refl).
  vm_compute in Hr. injection Hr as _ <-.
  vm_compute in H. discriminate.
Qed.

Lemma undec_zeros k ds : undec (repeat "0"%byte k ++ ds) = undec ds.
Proof. induction k as [|k IH]; [reflexivity|]. exact IH. Qed.

(** C3, amended.  An emitted snapshot is made of the payload bytes as they
    are, the line "Time: <seconds>.<nanoseconds>" rendered from the clock
    read at the call of [result], with the seconds in decimal and the
    nanoseconds as exactly nine decimal digits, and the line "---"; in
    wifistats_iterate.c the order is time line, payload, separator; in
    file_iterate.c and tc_iterate.c it is payload, time line, separator. *)
Theorem record_layout (w : world) (out size : Z) (buffer : bytes) :
  sink_ok w out = true ->
  0 <= size -> (Z.to_nat size <= length buffer)%nat ->
  40 < 1048576 - size ->
  sane_clock (w_clock w) ->
  (exists w',
     WifiStats.result out size WifiStats.BUFFERSIZE buffer w = Ret 0 w'
     /\ sink_bytes w' out
        = sink_bytes w out
            ++ time_line (w_clock w) ++ take (Z.to_nat size) buffer ++ separator)
  /\ (exists b' w',
     FileIterate.result out size FileIterate.BUFFERSIZE buffer w = Ret b' w'
     /\ TcIterate.result out size TcIterate.BUFFERSIZE buffer w = Ret b' w'
     /\ sink_bytes w' out
        = sink_bytes w out
            ++ take (Z.to_nat size) buffer ++ time_line (w_clock w) ++ separator)
  /\ (exists secs nsecs,
     time_line (w_clock w) = lit "Time: " ++ secs ++ lit "." ++ nsecs ++ [NL]
     /\ Forall (fun b => is_digit b = true) secs
     /\ undec secs = tv_sec (w_clock w)
     /\ length nsecs = 9%nat
     /\ Forall (fun b => is_digit b = true) nsecs
     /\ undec nsecs = tv_nsec (w_clock w))
  /\ separator = lit "---" ++ [NL].
Proof.
  intros Hsink Hsize Hlen Hroom [Hs Hn]. split; [|split; [|split]].
  - destruct (ws_result_emit w out size WifiStats.BUFFERSIZE buffer)
      as (w' & Hr & Hb & _); auto.
    exists w'. auto.
  - destruct (fi_result_emit w out size FileIterate.BUFFERSIZE buffer)
      as (b' & w' & Hr & Hb & _); auto.
    exists b', w'. auto.
  - exists (fmt_ld (tv_sec (w_clock w))), (fmt_0ld 9 (tv_nsec (w_clock w))).
    split; [reflexivity|].
    assert (fmt_ld (tv_sec (w_clock w)) = udec (tv_sec (w_clock w))) as ->.
    { unfold fmt_ld. destruct (Z.ltb_spec (tv_sec (w_clock w)) 0); [lia|reflexivity]. }
    split; [apply udec_digits|].
    split; [apply undec_udec; lia|].
    split; [apply fmt_09ld_length; assumption|].
    split; [apply fmt_09ld_digits; lia|].
    unfold fmt_0ld. destruct (Z.ltb_spec (tv_nsec (w_clock w)) 0); [lia|].
    cbn [app]. rewrite undec_zeros, Z.abs_eq by lia. apply undec_udec; lia.
  - reflexivity.
Qed.

Lemma record_layout_witness :
  sink_ok w_demo 1 = true /\ (Z.to_nat 3 <= length buf_demo)%nat
  /\ sane_clock (w_clock w_demo)
  /\ exists w',
       WifiStats.result 1 3 WifiStats.BUFFERSIZE buf_demo w_demo = Ret 0 w'
       /\ sink_bytes w' 1
          = sink_bytes w_demo 1
              ++ time_line (w_clock w_demo) ++ take (Z.to_nat 3) buf_demo ++ separator.
Proof.
  assert (sane_clock (w_clock w_demo)) as Hclk by (vm_compute; intuition discriminate).
  assert (Z.to_nat 3 <= length buf_demo)%nat as Hlen by (vm_compute; lia).
  repeat split; try reflexivity; try assumption; try apply Hclk.
  apply (record_layout w_demo 1 3 buf_demo); try reflexivity; try assumption; lia.
Defined.

End EmitterTheorems.

(** ** Station discovery *)

Section DiscoveryFacts.

Import WifiStats.

Lemma stderr_ok_set_stderr w d : stderr_ok (set_stderr d w) = stderr_ok w.
Proof. reflexivity. Qed.

Lemma count_loop_acc entries : forall cnt,
  count_loop entries cnt = cnt + count_loop entries 0.
Proof.
  induction entries as [|e entries IH]; intros cnt; simpl; [lia|].
  destruct (String.eqb e "."); [apply IH|].
  destruct (String.eqb e ".."); [apply IH|].
  rewrite (IH (cnt + 1)), (IH (0 + 1)). lia.
Qed.

Lemma count_loop_nonneg entries : 0 <= count_loop entries 0.
Proof.
  induction entries as [|e entries IH]; simpl; [lia|].
  destruct (String.eqb e "."); [assumption|].
  destruct (String.eqb e ".."); [assumption|].
  rewrite count_loop_acc. lia.
Qed.

(** The loop of [stations_open] from a count within the limit: it counts
    the members until the count passes the limit, and writes only the
    entries from the starting count up to the final one. *)
Lemma open_loop_spec dir limit entries : forall stations cnt w,
  stderr_ok w = true -> 0 <= cnt <= limit ->
  exists stations' cnt' w',
    open_loop dir limit entries stations cnt w = Ret (stations', cnt') w'
    /\ (if cnt + count_loop entries 0 <=? limit
        then cnt' = cnt + count_loop entries 0 /\ w' = w
        else cnt' = limit + 1
             /\ w' = set_stderr (w_stderr w ++ [too_many]) w)
    /\ length stations' = length stations
    /\ (forall i : nat, (Z.of_nat i < cnt \/ cnt' <= Z.of_nat i) ->
          stations' !! i = stations !! i).
Proof.
  induction entries as [|e entries IH]; intros stations cnt w Herr Hcnt.
  - simpl. exists stations, cnt, w. rewrite Z.add_0_r.
    destruct (Z.leb_spec cnt limit); [|lia]. auto.
  - cbn [open_loop count_loop].
    destruct (String.eqb e "."); [apply IH; assumption|].
    destruct (String.eqb e ".."); [apply IH; assumption|].
    rewrite (count_loop_acc entries (0 + 1)).
    pose proof (count_loop_nonneg entries) as Hm.
    destruct (Z.ltb_spec limit (cnt + 1)) as [Hover|Hin].
    + unfold bind. rewrite perror_stderr by assumption. unfold ret.
      do 3 eexists. split; [reflexivity|].
      destruct (Z.leb_spec (cnt + (0 + 1 + count_loop entries 0)) limit); [lia|].
      split; [split; [lia | reflexivity]|].
      split; [apply length_alter|].
      intros i Hi. apply list_lookup_alter_ne. lia.
    + destruct (IH (alter (set_names_of dir e) (Z.to_nat cnt) stations) (cnt + 1) w
                  Herr ltac:(lia))
        as (stations' & cnt' & w' & Hrun & Hres & Hlen & Hframe).
      exists stations', cnt', w'. split; [exact Hrun|].
      replace (cnt + (0 + 1 + count_loop entries 0))
        with (cnt + 1 + count_loop entries 0) by lia.
      split; [exact Hres|].
      split; [now rewrite Hlen, length_alter|].
      intros i Hi.
      assert (cnt + 1 <= cnt') as Hmono.
      { destruct (cnt + 1 + count_loop entries 0 <=? limit); lia. }
      rewrite Hframe by lia. apply list_lookup_alter_ne. lia.
Qed.


End DiscoveryFacts.

Section DiscoveryTheorems.

Import WifiStats.




(** The same directory, evaluated: 300 stations give 257 and the warning,
    after the line for phy0, which does not carry the interface. *)
Example stations_open_crowd :
  match stations_open "wlan0" (repeat blank 600) 512 w_crowd with
  | Ret (r, _) w' => r = 257 /\ w_stderr w' = [failed_open; too_many]
  | _ => False
  end.
Proof. vm_compute. split; reflexivity. Qed.

End DiscoveryTheorems.

(** ** Descriptors *)

Section FdFacts.

Lemma fd_get_slot w fd : 0 <= fd -> fd_get w fd = slot (w_fds w) (Z.to_nat fd).
Proof. intros H. unfold fd_get, slot. destruct (Z.ltb_spec fd 0); [lia|reflexivity]. Qed.

Lemma fd_install_spec o : forall t n t',
  fd_install o t = (n, t') ->
  slot t n = None /\ slot t' n = Some o
  /\ forall i, i <> n -> slot t' i = slot t i.
Proof.
  induction t as [|[x|] t IH]; intros n t' H; simpl in H.
  - injection H as <- <-. split; [reflexivity|]. split; [reflexivity|].
    intros [|i] Hi; [lia|]. reflexivity.
  - destruct (fd_install o t) as [m t''] eqn:Hrec.
    injection H as <- <-. destruct (IH m t'' eq_refl) as (H1 & H2 & H3).
    split; [exact H1|]. split; [exact H2|].
    intros [|i] Hi; [reflexivity|]. apply H3. lia.
  - injection H as <- <-. split; [reflexivity|]. split; [reflexivity|].
    intros [|i] Hi; [lia|]. reflexivity.
Qed.

(** A new description: the descriptor is one that was free, it refers to
    the new description, and every other descriptor is as before. *)
Lemma fd_open_spec tg w :
  exists fd w',
    fd_open tg w = Ret fd w'
    /\ 0 <= fd
    /\ fd_get w fd = None
    /\ fd_get w' fd
       = Some {| of_serial := w_serial w; of_target := tg; of_pos := 0 |}
    /\ (forall fd', fd' <> fd -> fd_get w' fd' = fd_get w fd')
    /\ w_serial w' = S (w_serial w)
    /\ rest w' = rest w.
Proof.
  unfold fd_open.
  destruct (fd_install {| of_serial := w_serial w; of_target := tg; of_pos := 0 |}
              (w_fds w)) as [n t] eqn:Hi.
  destruct (fd_install_spec _ _ _ _ Hi) as (H1 & H2 & H3).
  exists (Z.of_nat n), (set_fds t (S (w_serial w)) w).
  split; [reflexivity|]. split; [lia|].
  rewrite !fd_get_slot by lia. rewrite Nat2Z.id.
  split; [exact H1|]. split; [exact H2|].
  split; [|split; reflexivity].
  intros fd' Hne. unfold fd_get. destruct (Z.ltb_spec fd' 0); [reflexivity|].
  apply (H3 (Z.to_nat fd')). lia.
Qed.

Lemma rest_fd_seek fd o pos w : rest (fd_seek fd o pos w) = rest w.
Proof. reflexivity. Qed.

Lemma rest_fields w w' :
  rest w' = rest w ->
  w_names w' = w_names w /\ w_scratch w' = w_scratch w /\ w_stdout w' = w_stdout w
  /\ w_stderr w' = w_stderr w /\ w_files w' = w_files w /\ w_clock w' = w_clock w.
Proof. unfold rest. intros [= -> -> -> -> -> _ -> _ _]. auto 10. Qed.

End FdFacts.

(** ** file_iterate.c: capture *)

Section FileIterateFacts.

Import FileIterate.

Lemma sys_read_closed w fd count :
  fd_get w fd = None -> sys_read fd count w = Ret (-1, []) w.
Proof. intros H. unfold sys_read. now rewrite H. Qed.

Lemma sys_read_file w fd o path data count :
  fd_get w fd = Some o -> of_target o = TFile path data ->
  sys_read fd count w
  = Ret (Z.of_nat (length (take (Z.to_nat count) (drop (of_pos o) data))),
         take (Z.to_nat count) (drop (of_pos o) data))
        (fd_seek fd o (of_pos o + length (take (Z.to_nat count) (drop (of_pos o) data))) w).
Proof. intros H Ht. unfold sys_read. now rewrite H, Ht. Qed.

(** The read loop on a file just opened: one read takes what fits, the
    next one ends the loop. *)
Lemma read_loop_file n w fp o path data buffer bufsize :
  fd_get w fp = Some o -> of_target o = TFile path data -> of_pos o = 0%nat ->
  0 <= bufsize ->
  exists w',
    read_loop (S (S n)) fp buffer bufsize 0 w
    = Ret (Z.of_nat (length (take (Z.to_nat bufsize) data)),
           poke buffer 0 (take (Z.to_nat bufsize) data)) w'
    /\ rest w' = rest w
    /\ (forall fd', fd' <> fp -> fd_get w' fd' = fd_get w fd').
Proof.
  intros Hget Htg Hpos Hsize.
  pose proof (fd_get_nonneg _ _ _ Hget) as Hfp.
  cbn [read_loop]. unfold bind at 1.
  rewrite (sys_read_file _ _ _ _ _ _ Hget Htg), Hpos, Z.sub_0_r, drop_0.
  set (chunk := take (Z.to_nat bufsize) data).
  set (w1 := fd_seek fp o (0 + length chunk) w).
  destruct (Z.ltb_spec 0 (Z.of_nat (length chunk))) as [Hpos1|Hzero].
  - unfold bind.
    assert (fd_get w1 fp = Some {| of_serial := of_serial o; of_target := of_target o;
                                   of_pos := 0 + length chunk |}) as Hget1
      by (apply fd_get_seek_eq; exact Hget).
    rewrite (sys_read_file _ _ _ path data _ Hget1 Htg). cbn [of_pos].
    assert (take (Z.to_nat (bufsize - (0 + Z.of_nat (length chunk))))
                 (drop (0 + length chunk) data) = []) as ->.
    { subst chunk. rewrite length_take.
      destruct (Nat.le_ge_cases (Z.to_nat bufsize) (length data)).
      - rewrite Nat.min_l by assumption.
        replace (Z.to_nat (bufsize - (0 + Z.of_nat (Z.to_nat bufsize)))) with 0%nat by lia.
        reflexivity.
      - rewrite Nat.min_r by assumption. rewrite drop_ge by lia. apply take_nil. }
    cbn [length]. simpl (0 <? Z.of_nat 0). unfold ret.
    eexists. split; [rewrite Z.add_0_l; reflexivity|].
    split; [reflexivity|].
    intros fd' Hne. rewrite fd_get_seek_ne by auto. subst w1.
    apply fd_get_seek_ne; auto.
  - assert (chunk = []) as -> by (destruct chunk; [reflexivity | simpl in Hzero; lia]).
    unfold ret. exists w1. rewrite poke_nil. split; [reflexivity|].
    split; [reflexivity|].
    intros fd' Hne. subst w1. apply fd_get_seek_ne; auto.
Qed.

Lemma stdin_ok_spec w : stdin_ok w = true <-> fd_get w 0 <> None.
Proof. unfold stdin_ok. destruct (fd_get w 0); split; congruence. Qed.

(** [read_once] with descriptor 0 in use: the payload is the file's first
    [bufsize] bytes (none when it cannot be opened), stored at the start of
    the buffer; nothing of the world changes but the descriptor table, which
    gains one descriptor. *)
Lemma read_once_spec w fname buffer bufsize :
  stdin_ok w = true -> 0 <= bufsize ->
  let p := match w_files w !! fname with
           | Some data => take (Z.to_nat bufsize) data
           | None => []
           end in
  exists w',
    read_once fname buffer bufsize w = Ret (Z.of_nat (length p), poke buffer 0 p) w'
    /\ rest w' = rest w
    /\ (forall fd o, fd_get w fd = Some o -> fd_get w' fd = Some o).
Proof.
  intros Hin Hsize p. apply stdin_ok_spec in Hin.
  unfold read_once, bind at 1, sys_open. subst p.
  destruct (w_files w !! fname) as [data|].
  - destruct (fd_open_spec (TFile fname data) w)
      as (fp & w1 & -> & Hfp & Hfree & Hnew & Hold & _ & Hrest).
    destruct (Z.eqb_spec fp 0) as [->|Hne]; [congruence|].
    destruct (read_loop_file (Z.to_nat bufsize) w1 fp _ fname data buffer bufsize
                Hnew eq_refl eq_refl Hsize) as (w' & -> & Hrest' & Hold').
    exists w'. split; [reflexivity|]. split; [congruence|].
    intros fd o Hget.
    assert (fd <> fp) by congruence.
    rewrite Hold', Hold; auto.
  - simpl (-1 =? 0). cbn [read_loop]. unfold bind.
    rewrite sys_read_closed by reflexivity. simpl (0 <? -1). unfold ret.
    exists w. rewrite poke_nil. auto.
Qed.

End FileIterateFacts.

(** ** Sampling loops *)

Section LoopFacts.

Lemma loop_ok_spec w out timer :
  loop_ok w out timer = true
  <-> stdin_ok w = true /\ stderr_ok w = true /\ sink_ok w out = true
      /\ timer_ok w timer = true.
Proof. unfold loop_ok. rewrite !andb_true_iff. tauto. Qed.

Lemma sink_not_timer w out timer :
  sink_ok w out = true -> timer_ok w timer = true -> out <> timer.
Proof.
  unfold sink_ok, timer_ok. intros H1 H2 ->.
  destruct (fd_get w timer) as [o|]; [|discriminate].
  destruct (of_target o); discriminate.
Qed.

(** The loop invariant survives a write to the sink. *)
Lemma loop_ok_frame w w' out timer :
  loop_ok w out timer = true ->
  sink_ok w' out = true ->
  (forall fd, fd <> out -> fd_get w' fd = fd_get w fd) ->
  loop_ok w' out timer = true.
Proof.
  intros H Hsink Hfd. apply loop_ok_spec in H as (H0 & H2 & Hs & Ht).
  apply loop_ok_spec. split; [|split; [|split]]; auto.
  - unfold stdin_ok in *. destruct (Z.eq_dec 0 out) as [<-|Hne].
    + unfold sink_ok in Hsink. destruct (fd_get w' 0); [reflexivity|discriminate].
    + rewrite Hfd by auto. exact H0.
  - pose proof (sink_not_stderr _ _ Hs H2). unfold stderr_ok in *.
    rewrite Hfd by auto. exact H2.
  - pose proof (sink_not_timer _ _ _ Hs Ht). unfold timer_ok in *.
    rewrite Hfd by auto. exact Ht.
Qed.

(** It also survives anything that only adds descriptors. *)
Lemma loop_ok_keep w w' out timer :
  loop_ok w out timer = true ->
  rest w' = rest w ->
  (forall fd o, fd_get w fd = Some o -> fd_get w' fd = Some o) ->
  loop_ok w' out timer = true.
Proof.
  intros H Hrest Hfd. apply loop_ok_spec in H as (H0 & H2 & Hs & Ht).
  apply rest_fields in Hrest as (_ & Hscr & _).
  apply loop_ok_spec.
  unfold stdin_ok, stderr_ok, sink_ok, timer_ok in *.
  destruct (fd_get w 0) as [o0|] eqn:E0; [|discriminate].
  destruct (fd_get w 2) as [o2|] eqn:E2; [|discriminate].
  destruct (fd_get w out) as [oo|] eqn:Eo; [|discriminate].
  destruct (fd_get w timer) as [ot|] eqn:Et; [|discriminate].
  rewrite (Hfd _ _ E0), (Hfd _ _ E2), (Hfd _ _ Eo), (Hfd _ _ Et), Hscr. auto.
Qed.

Lemma sink_bytes_keep w w' out :
  sink_ok w out = true ->
  rest w' = rest w ->
  (forall fd o, fd_get w fd = Some o -> fd_get w' fd = Some o) ->
  sink_bytes w' out = sink_bytes w out /\ off_sink w' out = off_sink w out.
Proof.
  intros Hs Hrest Hfd. apply rest_fields in Hrest as (_ & Hscr & Hout & _).
  unfold sink_ok, sink_bytes, off_sink in *.
  destruct (fd_get w out) as [oo|] eqn:Eo; [|discriminate].
  rewrite (Hfd _ _ Eo), Hscr, Hout. auto.
Qed.

Lemma read_timer_ok w timer ev :
  timer_ok w timer = true ->
  read_timer timer ev w
  = Ret (match tk_timer ev with Some _ => 8 | None => -1 end, fired_of ev) w.
Proof.
  unfold timer_ok, read_timer, fired_of.
  destruct (fd_get w timer) as [[s t p]|]; [|discriminate].
  simpl. destruct t; try discriminate. intros _.
  destruct (tk_timer ev); reflexivity.
Qed.

(** What the passes through a [do_while] with a counter amount to: the
    loop goes through [passes], each pass doing what the body does, and
    ends exactly when [passes] says so. *)
Lemma do_while_passes {S : Type} (body : tick -> S -> io S) (cond : S -> bool)
    (ctr_of : S -> Z) (N : Z) (P : list tick -> world -> S -> Prop) :
  (forall done ev s w, P done w s ->
     exists s' w', body ev s w = Ret s' w'
       /\ ctr_of s' = wrap_int (ctr_of s + fired_of ev)
       /\ cond s' = (ctr_of s' <? N)
       /\ P (done ++ [ev]) w' s') ->
  forall evs done s w, P done w s ->
    exists s' w',
      do_while body cond evs s w
      = (if snd (passes N evs (ctr_of s)) then Ret s' w' else Blocked w')
      /\ P (done ++ fst (passes N evs (ctr_of s))) w' s'
      /\ ctr_of s' = ctr_after (fst (passes N evs (ctr_of s))) (ctr_of s).
Proof.
  intros Hbody. induction evs as [|ev evs IH]; intros done s w HP.
  - exists s, w. simpl. rewrite app_nil_r. auto.
  - destruct (Hbody done ev s w HP) as (s1 & w1 & Hrun & Hctr & Hcond & HP1).
    cbn [do_while passes]. unfold bind. rewrite Hrun, Hcond, Hctr.
    destruct (wrap_int (ctr_of s + fired_of ev) <? N) eqn:Hgo.
    + destruct (IH (done ++ [ev]) s1 w1 HP1) as (s' & w' & Hloop & HP' & Hc').
      rewrite Hctr in Hloop, HP', Hc'.
      destruct (passes N evs (wrap_int (ctr_of s + fired_of ev))) as [l fin].
      exists s', w'. cbn [fst snd] in *. rewrite <- app_assoc in HP'.
      split; [exact Hloop|]. split; [exact HP'|]. exact Hc'.
    + exists s1, w1. cbn [fst snd]. unfold ret. auto.
Qed.

End LoopFacts.

Section FileIterateLoop.

Import FileIterate.

Lemma loop_ok_set_stderr w d out timer :
  loop_ok (set_stderr d w) out timer = loop_ok w out timer.
Proof. reflexivity. Qed.

Lemma off_sink_set_stderr w d out : off_sink (set_stderr d w) out = off_sink w out.
Proof. reflexivity. Qed.

Lemma length_poke_ge (buf data : bytes) : (length data <= length (poke buf 0 data))%nat.
Proof. unfold poke. simpl. rewrite length_app. lia. Qed.

Lemma take_poke_0 (buf data : bytes) : take (length data) (poke buf 0 data) = data.
Proof. apply (take_poke buf data 0). lia. Qed.

(** The second half of a pass of file_iterate's loop: capture and emit. *)
Lemma fi_capture_emit w fname out timer ev buffer (c : Z) :
  loop_ok w out timer = true ->
  w_files w = tk_files ev -> w_clock w = tk_clock ev ->
  exists b' w',
    (let* (size, buffer) := read_once fname buffer BUFFERSIZE in
     if 0 <? size then
       let* buffer := result out size BUFFERSIZE buffer in
       ret (buffer, c)
     else
       let* buffer := result out 0 BUFFERSIZE buffer in
       perror "reading file" ;;
       ret (buffer, c)) w = Ret (b', c) w'
    /\ loop_ok w' out timer = true
    /\ sink_bytes w' out = sink_bytes w out ++ fi_record ev fname
    /\ off_sink w' out = off_sink w out
    /\ w_stderr w'
       = w_stderr w
           ++ (if 40 <? BUFFERSIZE - Z.of_nat (length (fi_payload ev fname)) then []
               else [DBytes overrun_warning])
           ++ (if 0 <? Z.of_nat (length (fi_payload ev fname)) then []
               else [DPerror "reading file"])
    /\ w_names w' = w_names w
    /\ keeps w w' out.
Proof.
  intros Hok Hfiles Hclock.
  pose proof Hok as Hok0. apply loop_ok_spec in Hok0 as (Hin & Herr & Hsink & Htimer).
  destruct (read_once_spec w fname buffer BUFFERSIZE Hin ltac:(unfold BUFFERSIZE; lia))
    as (w1 & Hread & Hrest & Hkeep).
  cbv zeta in Hread. rewrite Hfiles in Hread.
  fold (fi_payload ev fname) in Hread.
  unfold bind at 1. rewrite Hread.
  set (p := fi_payload ev fname) in *.
  pose proof (loop_ok_keep _ _ _ _ Hok Hrest Hkeep) as Hok1.
  destruct (sink_bytes_keep _ _ _ Hsink Hrest Hkeep) as (Hsb1 & Hoff1).
  pose proof (rest_fields _ _ Hrest) as (Hn1 & _ & _ & He1 & _ & Hc1).
  pose proof Hok1 as Hok1'.
  apply loop_ok_spec in Hok1' as (Hin1 & Herr1 & Hsink1 & Htimer1).
  unfold fi_record. fold p.
  destruct (Z.ltb_spec 0 (Z.of_nat (length p))) as [Hpos|Hzero].
  - destruct (Z.ltb_spec 40 (BUFFERSIZE - Z.of_nat (length p))) as [Hroom|Hfull].
    + destruct (fi_result_emit w1 out (Z.of_nat (length p)) BUFFERSIZE (poke buffer 0 p))
        as (b' & w' & Hr & Hb & Hs' & He' & Hn' & Hfd' & Hoff' & Hk'); auto; try lia.
      { rewrite Nat2Z.id. apply length_poke_ge. }
      unfold bind. rewrite Hr. unfold ret. exists b', w'.
      split; [reflexivity|].
      split; [eapply loop_ok_frame; eauto|].
      rewrite Nat2Z.id, take_poke_0 in Hb.
      split; [rewrite Hb, Hsb1, Hc1, Hclock; reflexivity|].
      split; [congruence|].
      split; [rewrite He', He1; simpl; now rewrite app_nil_r|].
      split; [congruence|].
      eapply keeps_trans; [apply keeps_same; exact Hkeep | exact Hk'].
    + unfold bind. rewrite fi_result_overrun by auto. unfold ret.
      eexists _, _. split; [reflexivity|].
      split; [exact Hok1|].
      split; [rewrite sink_bytes_set_stderr, app_nil_r; exact Hsb1|].
      split; [rewrite off_sink_set_stderr; exact Hoff1|].
      split; [cbn [w_stderr set_stderr]; rewrite He1, app_nil_r; reflexivity|].
      split; [exact Hn1|].
      apply keeps_same. exact Hkeep.
  - assert (p = []) as Hp by (destruct p; [reflexivity | simpl in Hzero; lia]).
    rewrite Hp. cbn [length]. change (40 <? BUFFERSIZE - Z.of_nat 0) with true.
    cbv iota.
    destruct (fi_result_emit w1 out 0 BUFFERSIZE (poke buffer 0 []))
      as (b' & w' & Hr & Hb & Hs' & He' & Hn' & Hfd' & Hoff' & Hk'); auto; try lia.
    { unfold BUFFERSIZE. lia. }
    unfold bind. rewrite Hr.
    assert (loop_ok w' out timer = true) as Hok' by (eapply loop_ok_frame; eauto).
    pose proof Hok' as Hok2. apply loop_ok_spec in Hok2 as (_ & Herr' & _).
    rewrite perror_stderr by assumption. unfold ret.
    eexists _, _. split; [reflexivity|].
    split; [exact Hok'|].
    split; [rewrite sink_bytes_set_stderr, Hb, Hsb1, Hc1, Hclock; reflexivity|].
    split; [rewrite off_sink_set_stderr; congruence|].
    split; [cbn [w_stderr set_stderr]; rewrite He', He1; reflexivity|].
    split; [cbn [w_names set_stderr]; congruence|].
    eapply keeps_trans; [apply keeps_same; exact Hkeep | exact Hk'].
Qed.

(** One pass of file_iterate's loop. *)
Lemma fi_body_spec w fname out timer ev buffer ctr :
  loop_ok w out timer = true ->
  exists b' w',
    loop_body fname out timer ev buffer ctr w
    = Ret (b', wrap_int (ctr + fired_of ev)) w'
    /\ loop_ok w' out timer = true
    /\ sink_bytes w' out = sink_bytes w out ++ fi_record ev fname
    /\ off_sink w' out = off_sink w out
    /\ w_stderr w' = w_stderr w ++ fi_diag ev fname
    /\ w_names w' = w_names w
    /\ keeps w w' out.
Proof.
  intros Hok. unfold loop_body.
  unfold bind at 1. unfold bind at 1.
  assert (loop_ok (env_step ev w) out timer = true) as Hok0 by exact Hok.
  pose proof Hok0 as Hok0'. apply loop_ok_spec in Hok0' as (_ & Herr & _ & Htimer).
  rewrite (read_timer_ok _ _ ev Htimer).
  unfold fi_diag, timer_diag.
  destruct (tk_timer ev) as [n|] eqn:Hev.
  - simpl (8 =? 8). unfold bind at 1. unfold ret at 1.
    destruct (fi_capture_emit (env_step ev w) fname out timer ev buffer
                (wrap_int (ctr + fired_of ev)) Hok0 eq_refl eq_refl)
      as (b' & w' & Hrun & H1 & H2 & H3 & H4 & H5 & H6).
    exists b', w'. split; [exact Hrun|]. auto 10.
  - simpl (-1 =? 8). unfold bind at 1.
    rewrite perror_stderr by exact Herr.
    set (w1 := set_stderr _ (env_step ev w)).
    destruct (fi_capture_emit w1 fname out timer ev buffer
                (wrap_int (ctr + fired_of ev)) Hok0 eq_refl eq_refl)
      as (b' & w' & Hrun & H1 & H2 & H3 & H4 & H5 & H6).
    exists b', w'. split; [exact Hrun|].
    split; [exact H1|]. split; [exact H2|]. split; [exact H3|].
    split; [|split; [exact H5 | exact H6]].
    rewrite H4. subst w1. cbn [w_stderr set_stderr env_step].
    rewrite <- !app_assoc. reflexivity.
Qed.

End FileIterateLoop.

Section TcIterateLoop.

Import TcIterate.







End TcIterateLoop.

Section LoopSpecs.

Lemma concat_map_snoc {A B} (f : A -> list B) l x :
  concat (map f (l ++ [x])) = concat (map f l) ++ f x.
Proof. rewrite map_app, concat_app. simpl. now rewrite app_nil_r. Qed.

(** file_iterate's loop: it makes the passes [passes] gives, appends one
    record per pass to its output and leaves the file system's names alone. *)
Lemma fi_loop_spec w N fname out timer evs buffer ctr :
  loop_ok w out timer = true ->
  exists b' w',
    FileIterate.sample_loop N fname out timer evs buffer ctr w
    = (if snd (passes N evs ctr)
       then Ret (b', ctr_after (fst (passes N evs ctr)) ctr) w'
       else Blocked w')
    /\ loop_ok w' out timer = true
    /\ sink_bytes w' out
       = sink_bytes w out
           ++ concat (map (fun ev => fi_record ev fname) (fst (passes N evs ctr)))
    /\ off_sink w' out = off_sink w out
    /\ w_stderr w'
       = w_stderr w
           ++ concat (map (fun ev => fi_diag ev fname) (fst (passes N evs ctr)))
    /\ w_names w' = w_names w
    /\ keeps w w' out.
Proof.
  intros Hok. unfold FileIterate.sample_loop.
  pose (P := fun (done : list tick) (w' : world) (s : bytes * Z) =>
    loop_ok w' out timer = true
    /\ sink_bytes w' out
       = sink_bytes w out ++ concat (map (fun ev => fi_record ev fname) done)
    /\ off_sink w' out = off_sink w out
    /\ w_stderr w' = w_stderr w ++ concat (map (fun ev => fi_diag ev fname) done)
    /\ w_names w' = w_names w
    /\ keeps w w' out).
  destruct (do_while_passes
              (fun ev '(buffer, ctr) =>
                 FileIterate.loop_body fname out timer ev buffer ctr)
              (fun '(_, ctr) => ctr <? N) snd N P) with (evs := evs) (done := @nil tick)
              (s := (buffer, ctr)) (w := w)
    as ([b' c'] & w' & Hrun & HP & Hctr).
  - intros done ev [b c] w1 (H1 & H2 & H3 & H4 & H5 & H6).
    destruct (fi_body_spec w1 fname out timer ev b c H1)
      as (b' & w' & Hrun & G1 & G2 & G3 & G4 & G5 & G6).
    exists (b', wrap_int (c + fired_of ev)), w'.
    split; [exact Hrun|]. split; [reflexivity|]. split; [reflexivity|].
    unfold P. rewrite !concat_map_snoc, !app_assoc.
    split; [exact G1|]. split; [congruence|]. split; [congruence|].
    split; [congruence|]. split; [congruence|].
    eapply keeps_trans; eauto.
  - unfold P. simpl. rewrite !app_nil_r. pose proof (keeps_refl w out). auto 10.
  - cbn [snd] in *. destruct HP as (H1 & H2 & H3 & H4 & H5 & H6).
    exists b', w'. simpl in H2, H4. rewrite <- Hctr.
    split; [exact Hrun|]. auto 10.
Qed.






End LoopSpecs.

(** ** The tick counter and capture failures *)

Section CounterTheorems.




(** C4: the code adds what the uninitialised [fired] holds.  In each of
    the three programs a pass whose timer read fails, with 7 in [fired],
    leaves the warning on the error channel and takes the counter from 0
    to 7. *)
Example failed_timer_read_adds_junk :
  match FileIterate.loop_body "/x" 1 3 (ev_failed 7) [] 0 w_timer with
  | Ret (_, ctr) w' => ctr = 7 /\ head (w_stderr w') = Some (DPerror "reading timer")
  | _ => False
  end
  /\ match TcIterate.loop_body 4 5 1 3 [] (ev_failed 7) [] 0 w_timer with
     | Ret (_, ctr) w' => ctr = 7 /\ head (w_stderr w') = Some (DPerror "reading timer")
     | _ => False
     end
  /\ match WifiStats.loop_body 1 3 0 (ev_failed 7) [] [] 0 w_timer with
     | Ret (_, _, ctr, _) w' =>
         ctr = 7 /\ head (w_stderr w') = Some (DPerror "reading timer")
     | _ => False
     end.
Proof. vm_compute. repeat split. Qed.

(** C7.  A pass of file_iterate's loop in which the file cannot be opened
    or has no bytes still emits a snapshot made of the time line and the
    separator alone, leaves the line "reading file" on the error channel
    (after the timer's line, if its read failed too), and returns to the
    loop, which goes on or ends by the counter alone. *)
Theorem capture_failure_is_not_fatal (N : Z) (fname : string) (out timer : Z)
    (ev : tick) (evs : list tick) (buffer : bytes) (ctr : Z) (w : world) :
  loop_ok w out timer = true ->
  tk_files ev !! fname = None \/ tk_files ev !! fname = Some [] ->
  exists b' w',
    FileIterate.loop_body fname out timer ev buffer ctr w
    = Ret (b', wrap_int (ctr + fired_of ev)) w'
    /\ sink_bytes w' out = sink_bytes w out ++ time_line (tk_clock ev) ++ separator
    /\ w_stderr w' = w_stderr w ++ timer_diag ev ++ [DPerror "reading file"]
    /\ loop_ok w' out timer = true
    /\ FileIterate.sample_loop N fname out timer (ev :: evs) buffer ctr w
       = if wrap_int (ctr + fired_of ev) <? N
         then FileIterate.sample_loop N fname out timer evs b'
                (wrap_int (ctr + fired_of ev)) w'
         else Ret (b', wrap_int (ctr + fired_of ev)) w'.
Proof.
  intros Hok Hfail.
  destruct (fi_body_spec w fname out timer ev buffer ctr Hok)
    as (b' & w' & Hrun & Hok' & Hsink & _ & Herr & _ & _).
  assert (fi_payload ev fname = []) as Hp.
  { unfold fi_payload. destruct Hfail as [-> | ->]; [reflexivity | apply take_nil]. }
  unfold fi_record, fi_diag in *. rewrite Hp in *. cbn [length] in *.
  change (40 <? FileIterate.BUFFERSIZE - Z.of_nat 0) with true in *.
  change (0 <? Z.of_nat 0) with false in *. cbv iota in *.
  exists b', w'. split; [exact Hrun|]. split; [exact Hsink|].
  split; [exact Herr|]. split; [exact Hok'|].
  unfold FileIterate.sample_loop. cbn [do_while]. unfold bind. rewrite Hrun.
  destruct (wrap_int (ctr + fired_of ev) <? N); reflexivity.
Qed.

Lemma capture_failure_is_not_fatal_witness :
  loop_ok w_timer 1 3 = true
  /\ (tk_files (ev_fired 1) !! "/x"%string = None
      \/ tk_files (ev_fired 1) !! "/x"%string = Some [])
  /\ exists b' w',
       FileIterate.loop_body "/x" 1 3 (ev_fired 1) [] 0 w_timer
       = Ret (b', wrap_int (0 + fired_of (ev_fired 1))) w'
       /\ sink_bytes w' 1
          = sink_bytes w_timer 1 ++ time_line (tk_clock (ev_fired 1)) ++ separator
       /\ w_stderr w' = w_stderr w_timer ++ timer_diag (ev_fired 1) ++ [DPerror "reading file"].
Proof.
  split; [reflexivity|]. split; [left; reflexivity|].
  destruct (capture_failure_is_not_fatal 1 "/x" 1 3 (ev_fired 1) [] [] 0 w_timer
              eq_refl (or_introl eq_refl))
    as (b' & w' & H1 & H2 & H3 & _).
  exists b', w'. auto.
Defined.

End CounterTheorems.

(** ** Buffered output *)

Section StagedFacts.

Import FileIterate.

Lemma stdout_ok_spec w :
  stdout_ok w = true -> sink_ok w 1 = true /\ sink_bytes w 1 = w_stdout w.
Proof.
  unfold stdout_ok, sink_ok, sink_bytes. destruct (fd_get w 1) as [o|]; [|discriminate].
  destruct (of_target o); try discriminate. auto.
Qed.

Lemma sys_write_stdout w data :
  stdout_ok w = true ->
  sys_write 1 data w = Ret (Z.of_nat (length data)) (set_stdout (w_stdout w ++ data) w).
Proof.
  unfold stdout_ok, sys_write. destruct (fd_get w 1) as [o|]; [|discriminate].
  destruct (of_target o); try discriminate. reflexivity.
Qed.

(** The copy loop with the scratch file at offset [of_pos o]: what is
    left of the file goes to standard output, in order. *)
Lemma copy_loop_spec n : forall w out buf o,
  fd_get w out = Some o -> of_target o = TScratch -> stdout_ok w = true ->
  (length (drop (of_pos o) (w_scratch w)) < n)%nat ->
  exists b' w',
    copy_loop n out buf w = Ret b' w'
    /\ w_stdout w' = w_stdout w ++ drop (of_pos o) (w_scratch w)
    /\ w_stderr w' = w_stderr w
    /\ w_names w' = w_names w
    /\ (forall fd, fd <> out -> fd_get w' fd = fd_get w fd)
    /\ (exists o', fd_get w' out = Some o').
Proof.
  induction n as [|n IH]; intros w out buf o Hget Htg Hout Hfuel; [lia|].
  cbn [copy_loop]. unfold bind at 1. unfold sys_read. rewrite Hget, Htg.
  set (chunk := take (Z.to_nat BUFFERSIZE) (drop (of_pos o) (w_scratch w))).
  set (w1 := fd_seek out o (of_pos o + length chunk) w).
  pose proof (fd_get_nonneg _ _ _ Hget) as Hnn.
  assert (out <> 1) as Hne.
  { intros ->. unfold stdout_ok in Hout. rewrite Hget, Htg in Hout. discriminate. }
  destruct (Z.ltb_spec 0 (Z.of_nat (length chunk))) as [Hpos|Hzero].
  - unfold bind at 1.
    assert (stdout_ok w1 = true) as Hout1.
    { unfold stdout_ok, w1. rewrite fd_get_seek_ne by auto. exact Hout. }
    rewrite Nat2Z.id, take_poke_0, (sys_write_stdout _ _ Hout1).
    set (w2 := set_stdout (w_stdout w1 ++ chunk) w1).
    assert (fd_get w2 out
            = Some {| of_serial := of_serial o; of_target := of_target o;
                      of_pos := of_pos o + length chunk |}) as Hget2
      by (apply (fd_get_seek_eq w out o _ Hget)).
    destruct (IH w2 out (poke buf 0 chunk) _ Hget2 Htg Hout1) as (b' & w' & Hrun & H1 & H2 & H3 & H4 & H5).
    { cbn [of_pos]. change (w_scratch w2) with (w_scratch w).
      rewrite length_drop in *. subst chunk. rewrite length_take, length_drop in *. lia. }
    exists b', w'. split; [exact Hrun|].
    cbn [of_pos] in H1. change (w_scratch w2) with (w_scratch w) in H1.
    change (w_stdout w2) with (w_stdout w ++ chunk) in H1.
    split.
    { rewrite H1, <- app_assoc. f_equal.
      etransitivity; [|apply (take_drop (Z.to_nat BUFFERSIZE))].
      fold chunk. f_equal. rewrite drop_drop.
      assert (length chunk = Nat.min (Z.to_nat BUFFERSIZE) (length (w_scratch w) - of_pos o))
        as Hlc by (subst chunk; now rewrite length_take, length_drop).
      destruct (Nat.le_ge_cases (Z.to_nat BUFFERSIZE) (length (w_scratch w) - of_pos o)).
      - rewrite Hlc, Nat.min_l by assumption. reflexivity.
      - rewrite (drop_ge _ (of_pos o + length chunk)) by lia.
        rewrite (drop_ge _ (of_pos o + Z.to_nat BUFFERSIZE)) by lia. reflexivity. }
    split; [exact H2|]. split; [exact H3|]. split; [|exact H5].
    intros fd Hfd. rewrite H4 by assumption. subst w2 w1.
    change (fd_get (set_stdout ?b ?w0) fd) with (fd_get w0 fd).
    apply fd_get_seek_ne; auto.
  - assert (chunk = []) as Hc by (destruct chunk; [reflexivity | simpl in Hzero; lia]).
    assert (drop (of_pos o) (w_scratch w) = []) as Hd.
    { subst chunk. apply take_nil_inv in Hc as [Hc|Hc]; [|exact Hc].
      unfold BUFFERSIZE in Hc. lia. }
    unfold ret. exists buf, w1. split; [reflexivity|].
    rewrite Hd, app_nil_r. split; [reflexivity|]. split; [reflexivity|].
    split; [reflexivity|]. split.
    + intros fd Hfd. apply fd_get_seek_ne; auto.
    + eexists. apply (fd_get_seek_eq w out o _ Hget).
Qed.

End StagedFacts.

Section FileIterateRun.

Import FileIterate.

Lemma stdin_ok_keep w w' :
  (forall fd o, fd_get w fd = Some o -> fd_get w' fd = Some o) ->
  stdin_ok w = true -> stdin_ok w' = true.
Proof.
  intros H. unfold stdin_ok. destruct (fd_get w 0) as [o|] eqn:E; [|discriminate].
  now rewrite (H _ _ E).
Qed.

Lemma stderr_ok_keep w w' :
  (forall fd o, fd_get w fd = Some o -> fd_get w' fd = Some o) ->
  stderr_ok w = true -> stderr_ok w' = true.
Proof.
  intros H. unfold stderr_ok. destruct (fd_get w 2) as [o|] eqn:E; [|discriminate].
  now rewrite (H _ _ E).
Qed.

Lemma stdout_ok_keep w w' :
  (forall fd o, fd_get w fd = Some o -> fd_get w' fd = Some o) ->
  stdout_ok w = true -> stdout_ok w' = true.
Proof.
  intros H. unfold stdout_ok. destruct (fd_get w 1) as [o|] eqn:E; [|discriminate].
  now rewrite (H _ _ E).
Qed.

Lemma stdout_ok_keeps w w' out :
  keeps w w' out -> stdout_ok w = true -> stdout_ok w' = true.
Proof.
  intros H. unfold stdout_ok. destruct (fd_get w 1) as [o|] eqn:E; [|discriminate].
  destruct (H _ _ E) as (o' & -> & -> & _). auto.
Qed.

Lemma fd_open_keep tg w fd w' :
  fd_open tg w = Ret fd w' ->
  forall fd0 o, fd_get w fd0 = Some o -> fd_get w' fd0 = Some o.
Proof.
  intros Hopen fd0 o Hget.
  destruct (fd_open_spec tg w) as (fd1 & w1 & Hrun & _ & Hfree & _ & Hold & _).
  rewrite Hopen in Hrun. injection Hrun as -> ->.
  rewrite Hold; [exact Hget | congruence].
Qed.

(** [mkstemp] when it can succeed: a new descriptor on an empty scratch
    file, whose name becomes visible. *)
Lemma mkstemp_spec template w six :
  w_tmpname w = Some six ->
  exists fd w',
    mkstemp template w
    = Ret (fd, (substring 0 (String.length template - 6) template ++ six)%string) w'
    /\ fd_get w fd = None
    /\ (exists o, fd_get w' fd = Some o /\ of_target o = TScratch /\ of_pos o = 0%nat)
    /\ (forall fd0 o, fd_get w fd0 = Some o -> fd_get w' fd0 = Some o)
    /\ w_scratch w' = []
    /\ w_names w'
       = {[ (substring 0 (String.length template - 6) template ++ six)%string ]}
           ∪ w_names w
    /\ w_stdout w' = w_stdout w /\ w_stderr w' = w_stderr w
    /\ w_files w' = w_files w /\ w_tmpname w' = w_tmpname w.
Proof.
  intros Hsix. unfold mkstemp. rewrite Hsix.
  set (name := (substring 0 (String.length template - 6) template ++ six)%string).
  set (w0 := set_scratch [] (set_names ({[name]} ∪ w_names w) w)).
  destruct (fd_open_spec TScratch w0) as (fd & w' & Hrun & _ & Hfree & Hnew & Hold & _ & Hrest).
  unfold bind. rewrite Hrun. unfold ret. exists fd, w'.
  split; [reflexivity|]. split; [exact Hfree|].
  split; [eexists; split; [exact Hnew|]; auto|].
  split.
  { intros fd0 o Hget. rewrite Hold; [exact Hget|].
    intros ->. change (fd_get w0 fd) with (fd_get w fd) in Hfree. congruence. }
  apply rest_fields in Hrest as (H1 & H2 & H3 & H4 & H5 & _).
  assert (w_tmpname w' = w_tmpname w0) as H8.
  { unfold fd_open in Hrun. destruct (fd_install _ _) in Hrun.
    injection Hrun as _ <-. reflexivity. }
  rewrite H1, H2, H3, H4, H5, H8. auto 10.
Qed.

Lemma sys_close_spec w fd :
  exists r w', sys_close fd w = Ret r w' /\ rest w' = rest w.
Proof.
  unfold sys_close. destruct (fd_get w fd); eexists _, _; split; reflexivity.
Qed.

(** The end of [run] in direct mode. *)
Lemma fi_finish_direct a out tmpfile buf w :
  buffer a = false ->
  exists w', finish a out tmpfile buf w = Ret 0 w'
    /\ w_stdout w' = w_stdout w /\ w_stderr w' = w_stderr w /\ w_names w' = w_names w.
Proof.
  intros Hb. unfold finish. rewrite Hb. unfold bind at 1. unfold ret at 1.
  unfold bind. destruct (sys_close_spec w out) as (r & w' & -> & Hrest).
  apply rest_fields in Hrest as (? & ? & ? & ? & _). unfold ret. eauto.
Qed.

(** The end of [run] in buffered mode: the scratch file goes to standard
    output from its first byte, then its name is removed. *)
Lemma fi_finish_staged a out tmpfile buf w o :
  buffer a = true ->
  fd_get w out = Some o -> of_target o = TScratch -> stdout_ok w = true ->
  exists w', finish a out tmpfile buf w = Ret 0 w'
    /\ w_stdout w' = w_stdout w ++ w_scratch w
    /\ w_stderr w' = w_stderr w
    /\ w_names w' = w_names w ∖ {[ tmpfile ]}.
Proof.
  intros Hb Hget Htg Hout. unfold finish. rewrite Hb.
  unfold bind at 1. unfold bind at 1. unfold sys_rewind. rewrite Hget, Htg.
  set (w1 := fd_seek out o 0 w).
  pose proof (fd_get_nonneg _ _ _ Hget) as Hnn.
  assert (out <> 1) as Hne.
  { intros ->. unfold stdout_ok in Hout. rewrite Hget, Htg in Hout. discriminate. }
  assert (stdout_ok w1 = true) as Hout1.
  { unfold stdout_ok, w1. rewrite fd_get_seek_ne by auto. exact Hout. }
  pose proof (fd_get_seek_eq w out o 0%nat Hget) as Hget1. fold w1 in Hget1.
  unfold bind at 1. unfold copy_back.
  destruct (copy_loop_spec (S (length (w_scratch w1))) w1 out buf _ Hget1 Htg Hout1)
    as (b' & w2 & Hrun & H1 & H2 & H3 & _ & _).
  { cbn [of_pos]. rewrite drop_0. lia. }
  rewrite Hrun. cbn [of_pos] in H1. rewrite drop_0 in H1.
  unfold bind at 1. unfold unlink.
  assert (exists r w3, (if bool_decide (tmpfile ∈ w_names w2)
                        then Ret 0 (set_names (w_names w2 ∖ {[tmpfile]}) w2)
                        else Ret (-1) w2) = Ret r w3
            /\ w_stdout w3 = w_stdout w2 /\ w_stderr w3 = w_stderr w2
            /\ w_names w3 = w_names w2 ∖ {[tmpfile]}) as (r & w3 & -> & G1 & G2 & G3).
  { destruct (bool_decide (tmpfile ∈ w_names w2)) eqn:Hin.
    - eexists _, _. split; [reflexivity|]. auto.
    - eexists _, _. split; [reflexivity|]. split; [reflexivity|]. split; [reflexivity|].
      apply bool_decide_eq_false in Hin. symmetry.
      apply difference_disjoint_L, disjoint_singleton_r, Hin. }
  unfold ret at 1. unfold bind.
  destruct (sys_close_spec w3 out) as (r' & w' & -> & Hrest).
  apply rest_fields in Hrest as (F1 & _ & F2 & F3 & _). unfold ret.
  exists w'. split; [reflexivity|].
  split; [rewrite F2, G1, H1; reflexivity|].
  split; [rewrite F3, G2, H2; reflexivity|].
  rewrite F1, G3, H3. reflexivity.
Qed.

End FileIterateRun.

Section FileIterateWhole.

Import FileIterate.

(** [setup] when a file name is given: either the first [read_once] finds
    nothing and the program exits, or the loop can start. *)
Lemma fi_setup_spec (cnt : Z) (f : string) (b : bool) w six :
  stdin_ok w = true -> stderr_ok w = true -> stdout_ok w = true ->
  w_tmpname w = Some six ->
  let a := {| count := cnt; filename := Some f; buffer := b |} in
  let p0 := match w_files w !! f with
            | Some data => take (Z.to_nat BUFFERSIZE) data
            | None => []
            end in
  let name := ("/tmp/file_iterate" ++ six)%string in
  if 0 <? Z.of_nat (length p0) then
    exists out tmpfile timer buf w',
      setup a w = Ret (out, tmpfile, timer, f, buf) w'
      /\ loop_ok w' out timer = true /\ stdout_ok w' = true
      /\ w_stdout w' = w_stdout w /\ w_stderr w' = w_stderr w
      /\ (if b
          then (exists o, fd_get w' out = Some o /\ of_target o = TScratch)
               /\ w_scratch w' = [] /\ tmpfile = name
               /\ w_names w' = {[ name ]} ∪ w_names w
          else out = 1 /\ w_names w' = w_names w)
  else
    exists w', setup a w = Exit (-1) w'
      /\ w_stdout w' = w_stdout w
      /\ w_stderr w' = w_stderr w ++ [DPerror "Unable to read file"]
      /\ w_names w' = (if b then {[ name ]} ∪ w_names w else w_names w).
Proof.
  intros Hin Herr Hout Hsix a p0 name.
  (* the part of [setup] from the timer on, in a world [w1] with output [out] *)
  assert (forall w1 out (tmpfile : string),
    stdin_ok w1 = true -> stderr_ok w1 = true -> stdout_ok w1 = true ->
    sink_ok w1 out = true -> w_files w1 = w_files w ->
    exists timer buf w2 w2',
      (let* timer := timerfd_create in
       let* (r, buffer) := read_once f [] BUFFERSIZE in
       (if r <=? 0 then perror "Unable to read file" ;; exit (-1) else ret tt) ;;
       ret (out, tmpfile, timer, f, buffer)) w1
      = (if 0 <? Z.of_nat (length p0)
         then Ret (out, tmpfile, timer, f, buf) w2
         else Exit (-1) w2')
      /\ loop_ok w2 out timer = true /\ stdout_ok w2 = true
      /\ rest w2 = rest w1
      /\ (forall fd o, fd_get w1 fd = Some o -> fd_get w2 fd = Some o)
      /\ w_stdout w2' = w_stdout w1
      /\ w_stderr w2' = w_stderr w1 ++ [DPerror "Unable to read file"]
      /\ w_names w2' = w_names w1) as Htail.
  { intros w1 out tmpfile Hin1 Herr1 Hout1 Hsink1 Hfiles1.
    unfold bind at 1. unfold timerfd_create.
    destruct (fd_open_spec TTimer w1) as (timer & w2 & Hopen & _ & Hfree & Hnew & Hold & _ & Hrest).
    rewrite Hopen.
    pose proof (fd_open_keep _ _ _ _ Hopen) as Hkeep.
    pose proof (stdin_ok_keep _ _ Hkeep Hin1) as Hin2.
    destruct (read_once_spec w2 f [] BUFFERSIZE Hin2 ltac:(unfold BUFFERSIZE; lia))
      as (w3 & Hread & Hrest3 & Hkeep3).
    cbv zeta in Hread.
    assert (w_files w2 = w_files w) as Hf2.
    { apply rest_fields in Hrest as (_ & _ & _ & _ & -> & _). exact Hfiles1. }
    rewrite Hf2 in Hread. fold p0 in Hread.
    unfold bind at 1. rewrite Hread.
    assert (forall fd o, fd_get w1 fd = Some o -> fd_get w3 fd = Some o) as Hk13 by eauto.
    assert (rest w3 = rest w1) as Hr13 by congruence.
    assert (loop_ok w3 out timer = true) as Hok3.
    { apply loop_ok_spec. split; [eapply stdin_ok_keep; eauto|].
      split; [eapply stderr_ok_keep; eauto|]. split.
      - unfold sink_ok in *. destruct (fd_get w1 out) as [oo|] eqn:Eo; [|discriminate].
        rewrite (Hk13 _ _ Eo). apply rest_fields in Hr13 as (_ & -> & _). exact Hsink1.
      - unfold timer_ok. rewrite (Hkeep3 _ _ Hnew). reflexivity. }
    pose proof (stderr_ok_keep _ _ Hk13 Herr1) as Herr3.
    exists timer, (poke [] 0 p0), w3, (set_stderr (w_stderr w3 ++ [DPerror "Unable to read file"]) w3).
    split.
    { destruct (Z.ltb_spec 0 (Z.of_nat (length p0))) as [Hpos|Hzero].
      - destruct (Z.leb_spec (Z.of_nat (length p0)) 0); [lia|]. reflexivity.
      - destruct (Z.leb_spec (Z.of_nat (length p0)) 0); [|lia].
        unfold bind. rewrite perror_stderr by assumption. reflexivity. }
    split; [exact Hok3|]. split; [eapply stdout_ok_keep; eauto|].
    split; [exact Hr13|]. split; [exact Hk13|].
    apply rest_fields in Hr13 as (Hn & _ & Ho & He & _).
    cbn [w_stdout w_stderr w_names set_stderr]. rewrite Ho, He, Hn. auto. }
  destruct b.
  - (* buffered *)
    destruct (mkstemp_spec "/tmp/file_iterateXXXXXX" w six Hsix)
      as (out & w1 & Hmk & Hfree & (o & Hnew & Htg & Hpos) & Hkeep & Hscr & Hnames
          & Ho1 & He1 & Hf1 & _).
    change (substring 0 (String.length "/tmp/file_iterateXXXXXX" - 6)
              "/tmp/file_iterateXXXXXX" ++ six)%string with name in *.
    assert (out <> 0) as Hne.
    { intros ->. unfold stdin_ok in Hin. rewrite Hfree in Hin. discriminate. }
    apply Z.eqb_neq in Hne.
    assert (sink_ok w1 out = true) as Hsink1.
    { unfold sink_ok. rewrite Hnew, Htg, Hpos, Hscr. reflexivity. }
    destruct (Htail w1 out name (stdin_ok_keep _ _ Hkeep Hin)
                (stderr_ok_keep _ _ Hkeep Herr) (stdout_ok_keep _ _ Hkeep Hout)
                Hsink1 Hf1)
      as (timer & buf & w2 & w2' & Hrun & Hok2 & Hout2 & Hrest2 & Hkeep2 & G1 & G2 & G3).
    assert (setup a w = (if 0 <? Z.of_nat (length p0)
                         then Ret (out, name, timer, f, buf) w2
                         else Exit (-1) w2')) as Hsetup.
    { unfold setup. cbn [buffer filename a].
      unfold bind at 1. rewrite Hmk, Hne. cbn [andb].
      unfold bind at 1. unfold ret at 1. unfold bind at 1. unfold ret at 1.
      exact Hrun. }
    rewrite Hsetup.
    apply rest_fields in Hrest2 as (Hn2 & Hs2 & Ho2 & He2 & _).
    destruct (0 <? Z.of_nat (length p0)).
    + exists out, name, timer, buf, w2.
      split; [reflexivity|]. split; [exact Hok2|]. split; [exact Hout2|].
      split; [congruence|]. split; [congruence|].
      split; [exists o; split; [apply Hkeep2; exact Hnew | exact Htg]|].
      split; [congruence|]. split; [reflexivity|]. congruence.
    + exists w2'. split; [reflexivity|].
      split; [congruence|]. split; [congruence|]. congruence.
  - (* direct *)
    destruct (stdout_ok_spec _ Hout) as (Hsink & _).
    destruct (Htail w STDOUT_FILENO "/tmp/file_iterateXXXXXX"%string Hin Herr Hout Hsink eq_refl)
      as (timer & buf & w2 & w2' & Hrun & Hok2 & Hout2 & Hrest2 & Hkeep2 & G1 & G2 & G3).
    assert (setup a w = (if 0 <? Z.of_nat (length p0)
                         then Ret (STDOUT_FILENO, "/tmp/file_iterateXXXXXX"%string,
                                   timer, f, buf) w2
                         else Exit (-1) w2')) as Hsetup.
    { unfold setup. cbn [buffer filename a].
      unfold bind at 1. unfold ret at 1. cbn [andb].
      unfold bind at 1. unfold ret at 1. unfold bind at 1. unfold ret at 1.
      exact Hrun. }
    rewrite Hsetup.
    apply rest_fields in Hrest2 as (Hn2 & Hs2 & Ho2 & He2 & _).
    destruct (0 <? Z.of_nat (length p0)).
    + exists STDOUT_FILENO, "/tmp/file_iterateXXXXXX"%string, timer, buf, w2.
      split; [reflexivity|]. auto 10.
    + exists w2'. split; [reflexivity|]. auto.
Qed.

End FileIterateWhole.

Section FileIterateObserve.

Import FileIterate.

Lemma scratch_sink w out o :
  fd_get w out = Some o -> of_target o = TScratch ->
  sink_bytes w out = w_scratch w /\ off_sink w out = w_stdout w.
Proof. intros H Ht. unfold sink_bytes, off_sink. rewrite H, Ht. auto. Qed.

Lemma stdout_sink w :
  stdout_ok w = true -> sink_bytes w 1 = w_stdout w.
Proof. intros H. apply stdout_ok_spec in H. tauto. Qed.

Lemma take_pos_length (n : nat) (l : bytes) :
  (0 < n)%nat -> (0 <? Z.of_nat (length (take n l))) = match l with [] => false | _ => true end.
Proof.
  intros Hn. destruct n as [|n]; [lia|]. destruct l; reflexivity.
Qed.

(** file_iterate as a whole, started with the three standard streams:
    what it shows is [fi_behaviour]. *)
Lemma fi_run_observe a files dirs clock six evs :
  observe (run a evs (init_world files dirs clock (Some six)))
  = fi_behaviour (buffer a) files (count a) (filename a) evs.
Proof.
  destruct a as [cnt fn b]. cbn [buffer count filename].
  set (wi := init_world files dirs clock (Some six)).
  destruct fn as [f|]; [|destruct b; reflexivity].
  pose proof (fi_setup_spec cnt f b wi six eq_refl eq_refl eq_refl eq_refl) as Hsetup.
  cbv zeta in Hsetup. change (w_files wi) with files in Hsetup.
  unfold fi_behaviour.
  assert ((0 <? Z.of_nat (length match files !! f with
                                 | Some data => take (Z.to_nat BUFFERSIZE) data
                                 | None => []
                                 end))
          = match files !! f with Some (_ :: _) => true | _ => false end) as Hpos.
  { destruct (files !! f) as [data|]; [|reflexivity].
    rewrite take_pos_length by (unfold BUFFERSIZE; lia). destruct data; reflexivity. }
  rewrite Hpos in Hsetup.
  destruct (files !! f) as [[|x data]|].
  - destruct Hsetup as (w' & Hrun & Ho & He & _).
    unfold run, bind. rewrite Hrun. cbn [observe]. rewrite Ho, He. reflexivity.
  - destruct Hsetup as (out & tmpfile & timer & buf & w' & Hrun & Hok & Hout & Ho & He & Hmode).
    unfold run. unfold bind at 1. rewrite Hrun. cbn [count].
    destruct (fi_loop_spec w' cnt f out timer evs buf 0 Hok)
      as (b' & w'' & Hloop & Hok' & Hsink & Hoff & Herr & Hnames & Hkeeps).
    unfold bind at 1. rewrite Hloop.
    pose proof (stdout_ok_keeps _ _ _ Hkeeps Hout) as Hout'.
    change (w_stdout wi) with (@nil byte) in Ho.
    change (w_stderr wi) with (@nil diag) in He.
    rewrite He in Herr. cbn [app] in Herr.
    destruct b.
    + destruct Hmode as ((o & Hget & Htg) & Hscr & _).
      destruct (Hkeeps _ _ Hget) as (o' & Hget' & Htg' & _). rewrite Htg in Htg'.
      destruct (scratch_sink _ _ _ Hget Htg) as (S1 & S2).
      destruct (scratch_sink _ _ _ Hget' Htg') as (S1' & S2').
      rewrite S1, S1', Hscr in Hsink. rewrite S2, S2', Ho in Hoff. cbn [app] in Hsink.
      destruct (snd (passes cnt evs 0)).
      * destruct (fi_finish_staged {| count := cnt; filename := Some f; buffer := true |}
                    out tmpfile b' w'' o' eq_refl Hget' Htg' Hout')
          as (w3 & Hfin & F1 & F2 & _).
        rewrite Hfin. cbn [observe]. rewrite F1, F2, Hoff, Hsink, Herr. reflexivity.
      * cbn [observe]. rewrite Hoff, Herr. reflexivity.
    + destruct Hmode as (-> & _).
      rewrite (stdout_sink _ Hout), (stdout_sink _ Hout'), Ho in Hsink. cbn [app] in Hsink.
      destruct (snd (passes cnt evs 0)).
      * destruct (fi_finish_direct {| count := cnt; filename := Some f; buffer := false |}
                    1 tmpfile b' w'' eq_refl)
          as (w3 & Hfin & F1 & F2 & _).
        rewrite Hfin. cbn [observe]. rewrite F1, F2, Hsink, Herr. reflexivity.
      * cbn [observe]. rewrite Hsink, Herr. reflexivity.
  - destruct Hsetup as (w' & Hrun & Ho & He & _).
    unfold run, bind. rewrite Hrun. cbn [observe]. rewrite Ho, He. reflexivity.
Qed.

End FileIterateObserve.

(** ** The scratch file's name *)

Section ScratchName.

(** C9: file_iterate.c and tc_iterate.c call [unlink] only after the
    flush.  In buffered mode, with a target of two ticks and one tick
    sent, both programs are waiting for the second tick and the scratch
    path is still a visible name; it is still there when [run] stops at
    "Must specify filename".  The same stage of wifistats_iterate.c, which
    unlinks right after [mkstemp], shows no name. *)
Example scratch_path_visible_while_sampling :
  names_of (FileIterate.run
              {| FileIterate.count := 2; FileIterate.filename := Some "/x"%string;
                 FileIterate.buffer := true |}
              [ev_scenario (lit "X")] (w_scenario (lit "X")))
  = Some {[ "/tmp/file_iterateabcdef"%string ]}
  /\ names_of (FileIterate.run
              {| FileIterate.count := 2; FileIterate.filename := None;
                 FileIterate.buffer := true |}
              [ev_scenario (lit "X")] (w_scenario (lit "X")))
     = Some {[ "/tmp/file_iterateabcdef"%string ]}
  /\ names_of (TcIterate.forkit
              {| TcIterate.count := 2; TcIterate.interface := "eth0";
                 TcIterate.command := "qdisc"; TcIterate.buffer := true |}
              [ev_scenario (lit "X")] (w_scenario (lit "X")))
     = Some {[ "/tmp/tc_iterateabcdef"%string ]}
  /\ names_of (WifiStats.run
              {| WifiStats.count := 2; WifiStats.dev := Some "wlan0"%string;
                 WifiStats.buffer := true |}
              (repeat blank 4) [ev_scenario (lit "X")] (w_scenario (lit "X")))
     = Some ∅.
Proof. vm_compute. repeat split. Qed.

End ScratchName.

(** ** wifistats_iterate.c: the handles of the stations *)

Section HandleFacts.

Import WifiStats.

Lemma elem_of_own1 h fd : fd ∈ own1 h <-> fd = h /\ 0 < h.
Proof.
  unfold own1. destruct (Z.ltb_spec 0 h).
  - rewrite list_elem_of_singleton. intuition congruence.
  - rewrite elem_of_nil. intuition lia.
Qed.

Lemma elem_of_owned_by s fd :
  fd ∈ owned_by s <-> (fd = rc_stats s \/ fd = airtime s) /\ 0 < fd.
Proof.
  unfold owned_by. rewrite elem_of_app, !elem_of_own1. intuition (subst; auto).
Qed.

Lemma owned_pos ss fd : fd ∈ owned ss -> 0 < fd.
Proof.
  induction ss as [|s ss IH]; simpl.
  - intros H. now apply elem_of_nil in H.
  - rewrite elem_of_app, elem_of_owned_by. intuition.
Qed.

(** [close] of a handle: nothing happens unless it is open, and then
    only its slot changes. *)
Lemma sys_close_frame w fd :
  exists r w',
    sys_close fd w = Ret r w'
    /\ rest w' = rest w /\ w_serial w' = w_serial w
    /\ (forall fd', fd' <> fd -> fd_get w' fd' = fd_get w fd')
    /\ fd_get w' fd = None.
Proof.
  unfold sys_close. destruct (fd_get w fd) as [o|] eqn:Hget.
  - pose proof (fd_get_nonneg _ _ _ Hget) as Hnn.
    eexists _, _. split; [reflexivity|]. split; [reflexivity|]. split; [reflexivity|].
    split.
    + intros fd' Hne. unfold fd_get. destruct (Z.ltb_spec fd' 0); [reflexivity|].
      cbn [w_fds set_fds]. rewrite list_lookup_insert_ne by lia. reflexivity.
    + apply fd_get_lookup in Hget as [_ Hl].
      unfold fd_get. destruct (Z.ltb_spec fd 0); [reflexivity|].
      cbn [w_fds set_fds]. rewrite list_lookup_insert_eq; [reflexivity|].
      eapply lookup_lt_Some; eauto.
  - eexists _, _. split; [reflexivity|]. auto.
Qed.

(** The guarded close of [stations_reset]. *)
Lemma guarded_close_frame w h :
  exists r w',
    (if h =? 0 then ret 0 else sys_close h) w = Ret r w'
    /\ rest w' = rest w /\ w_serial w' = w_serial w
    /\ (forall fd', fd' <> h -> fd_get w' fd' = fd_get w fd')
    /\ (0 < h -> fd_get w' h = None)
    /\ (h = 0 -> w' = w).
Proof.
  destruct (Z.eqb_spec h 0) as [->|Hne].
  - exists 0, w. unfold ret. split; [reflexivity|]. repeat split; auto. lia.
  - destruct (sys_close_frame w h) as (r & w' & Hrun & H1 & H2 & H3 & H4).
    exists r, w'. split; [exact Hrun|]. repeat split; auto. congruence.
Qed.

(** [open] of a station's stream file. *)
Lemma sys_open_fresh w path :
  stdin_ok w = true ->
  exists h w',
    sys_open path w = Ret h w'
    /\ rest w' = rest w
    /\ (w_serial w <= w_serial w')%nat
    /\ match w_files w !! path with
       | None => h = -1 /\ w' = w
       | Some data =>
           0 < h /\ fd_get w h = None
           /\ fd_get w' h = Some {| of_serial := w_serial w; of_target := TFile path data;
                                    of_pos := 0 |}
           /\ w_serial w' = S (w_serial w)
           /\ (forall fd, fd <> h -> fd_get w' fd = fd_get w fd)
       end.
Proof.
  intros Hin. unfold sys_open. destruct (w_files w !! path) as [data|].
  - destruct (fd_open_spec (TFile path data) w)
      as (h & w' & Hrun & Hnn & Hfree & Hnew & Hold & Hser & Hrest).
    exists h, w'. split; [exact Hrun|]. split; [exact Hrest|]. split; [lia|].
    assert (h <> 0).
    { intros ->. apply stdin_ok_spec in Hin. congruence. }
    split; [lia|]. auto.
  - exists (-1), w. split; [reflexivity|]. auto.
Qed.

End HandleFacts.

Section ResetFacts.

Import WifiStats.

(** The guarded close, by what it leaves open. *)
Lemma guarded_close_spec w h :
  exists r w',
    (if h =? 0 then ret 0 else sys_close h) w = Ret r w'
    /\ rest w' = rest w /\ w_serial w' = w_serial w
    /\ (forall fd o, fd_get w' fd = Some o -> fd_get w fd = Some o /\ fd ∉ own1 h)
    /\ (forall fd o, fd_get w fd = Some o -> fd ∉ own1 h -> fd_get w' fd = Some o).
Proof.
  destruct (guarded_close_frame w h) as (r & w' & Hrun & Hrest & Hser & Hne & Hpos & Hzero).
  exists r, w'. split; [exact Hrun|]. split; [exact Hrest|]. split; [exact Hser|].
  split.
  - intros fd o Hget. destruct (Z.eq_dec fd h) as [->|Hd].
    + destruct (Z.lt_trichotomy 0 h) as [Hp|[Hz|Hn]].
      * rewrite Hpos in Hget by assumption. discriminate.
      * rewrite Hzero in Hget by auto. split; [exact Hget|].
        rewrite elem_of_own1. lia.
      * apply fd_get_nonneg in Hget. lia.
    + rewrite Hne in Hget by assumption. split; [exact Hget|].
      rewrite elem_of_own1. intuition.
  - intros fd o Hget Hnot. destruct (Z.eq_dec fd h) as [->|Hd].
    + destruct (Z.lt_trichotomy 0 h) as [Hp|[Hz|Hn]].
      * exfalso. apply Hnot. rewrite elem_of_own1. auto.
      * rewrite Hzero by auto. exact Hget.
      * apply fd_get_nonneg in Hget. lia.
    + rewrite Hne by assumption. exact Hget.
Qed.

(** One station's reset: both handles closed, both files opened anew. *)
Lemma reset_one_spec w s :
  stdin_ok w = true ->
  exists s' w',
    reset_one s w = Ret s' w'
    /\ locators s' = locators s
    /\ rest w' = rest w
    /\ (w_serial w <= w_serial w')%nat
    /\ handle_fresh w w' (rc_stats_file s) (rc_stats s')
    /\ handle_fresh w w' (airtime_file s) (airtime s')
    /\ NoDup (owned_by s')
    /\ (forall fd o, fd_get w fd = Some o -> fd ∉ owned_by s -> fd_get w' fd = Some o)
    /\ (forall fd o', fd_get w' fd = Some o' ->
          ((w_serial w <= of_serial o' < w_serial w')%nat /\ fd ∈ owned_by s')
          \/ (fd_get w fd = Some o' /\ fd ∉ owned_by s)).
Proof.
  intros Hin. unfold reset_one.
  destruct (guarded_close_spec w (rc_stats s)) as (r1 & w1 & Hc1 & Hr1 & Hs1 & A1 & B1).
  unfold bind at 1. rewrite Hc1.
  destruct (guarded_close_spec w1 (airtime s)) as (r2 & w2 & Hc2 & Hr2 & Hs2 & A2 & B2).
  unfold bind at 1. rewrite Hc2.
  assert (stdin_ok w2 = true) as Hin2.
  { apply stdin_ok_spec in Hin. apply stdin_ok_spec.
    destruct (fd_get w 0) as [o0|] eqn:E0; [|congruence].
    assert (forall h, 0 ∉ own1 h) as Hn0 by (intros h; rewrite elem_of_own1; lia).
    rewrite (B2 _ _ (B1 _ _ E0 (Hn0 _)) (Hn0 _)). discriminate. }
  destruct (sys_open_fresh w2 (rc_stats_file s) Hin2) as (rc & w3 & Ho3 & Hr3 & Hs3 & Hf3).
  unfold bind at 1. rewrite Ho3.
  assert (stdin_ok w3 = true) as Hin3.
  { apply stdin_ok_spec in Hin2. apply stdin_ok_spec.
    destruct (w_files w2 !! rc_stats_file s).
    - destruct Hf3 as (Hp & Hfree & _ & _ & Hold). rewrite Hold; [exact Hin2 | lia].
    - destruct Hf3 as (_ & ->). exact Hin2. }
  destruct (sys_open_fresh w3 (airtime_file s) Hin3) as (air & w4 & Ho4 & Hr4 & Hs4 & Hf4).
  unfold bind at 1. rewrite Ho4. unfold ret.
  exists (set_handles rc air s), w4.
  assert (w_files w2 = w_files w) as Hfw2.
  { apply rest_fields in Hr1 as (_ & _ & _ & _ & F1 & _).
    apply rest_fields in Hr2 as (_ & _ & _ & _ & F2 & _). congruence. }
  assert (w_files w3 = w_files w) as Hfw3.
  { apply rest_fields in Hr3 as (_ & _ & _ & _ & F3 & _). congruence. }
  assert (w_serial w2 = w_serial w) as Hsw2 by congruence.
  rewrite Hfw2 in Hf3. rewrite Hfw3 in Hf4. rewrite Hsw2 in *.
  split; [reflexivity|]. split; [reflexivity|].
  split; [congruence|]. split; [lia|].
  cbn [rc_stats airtime set_handles].
  (* the table after the two closes *)
  assert (forall fd o, fd_get w2 fd = Some o -> fd_get w fd = Some o /\ fd ∉ owned_by s) as A.
  { intros fd o H. destruct (A2 _ _ H) as (H1 & N2). destruct (A1 _ _ H1) as (H0 & N1).
    split; [exact H0|]. unfold owned_by. rewrite elem_of_app. tauto. }
  assert (forall fd o, fd_get w fd = Some o -> fd ∉ owned_by s -> fd_get w2 fd = Some o) as B.
  { intros fd o H N. unfold owned_by in N. rewrite elem_of_app in N.
    apply B2; [apply B1|]; tauto. }
  unfold handle_fresh.
  destruct (w_files w !! rc_stats_file s) as [d1|] eqn:E1;
    destruct (w_files w !! airtime_file s) as [d2|] eqn:E2.
  - destruct Hf3 as (P3 & F3 & N3 & S3 & O3). destruct Hf4 as (P4 & F4 & N4 & S4 & O4).
    assert (air <> rc) as Hd by congruence.
    split; [split; [exact P3|]; exists (w_serial w); split; [lia|]; rewrite O4; auto|].
    split; [split; [exact P4|]; exists (w_serial w3); split; [lia | exact N4]|].
    split.
    { unfold owned_by, own1. cbn [rc_stats airtime set_handles].
      destruct (Z.ltb_spec 0 rc); [|lia]. destruct (Z.ltb_spec 0 air); [|lia].
      cbn [app]. apply NoDup_cons. split.
      - rewrite list_elem_of_singleton. congruence.
      - apply NoDup_singleton. }
    split.
    { intros fd o H N. pose proof (B _ _ H N) as H2.
      assert (fd <> rc) as Hn1 by congruence.
      assert (fd <> air) as Hn2 by (intros ->; rewrite O3 in F4 by auto; congruence).
      rewrite O4, O3; auto. }
    intros fd o' H'.
    destruct (Z.eq_dec fd air) as [->|Ha].
    { left. rewrite N4 in H'. injection H' as <-. cbn [of_serial].
      split; [lia|]. rewrite elem_of_owned_by. cbn [rc_stats airtime set_handles]. auto. }
    rewrite O4 in H' by assumption.
    destruct (Z.eq_dec fd rc) as [->|Hr].
    { left. rewrite N3 in H'. injection H' as <-. cbn [of_serial].
      split; [lia|]. rewrite elem_of_owned_by. cbn [rc_stats airtime set_handles]. auto. }
    rewrite O3 in H' by assumption. right. apply A. exact H'.
  - destruct Hf3 as (P3 & F3 & N3 & S3 & O3). destruct Hf4 as (-> & ->).
    split; [split; [exact P3|]; exists (w_serial w); split; [lia | exact N3]|].
    split; [reflexivity|].
    split.
    { unfold owned_by, own1. cbn [rc_stats airtime set_handles].
      destruct (Z.ltb_spec 0 rc); [|lia]. simpl. apply NoDup_singleton. }
    split.
    { intros fd o H N. pose proof (B _ _ H N) as H2.
      rewrite O3; [exact H2 | congruence]. }
    intros fd o' H'.
    destruct (Z.eq_dec fd rc) as [->|Hr].
    { left. rewrite N3 in H'. injection H' as <-. cbn [of_serial].
      split; [lia|]. rewrite elem_of_owned_by. cbn [rc_stats airtime set_handles]. auto. }
    rewrite O3 in H' by assumption. right. apply A. exact H'.
  - destruct Hf3 as (-> & ->). destruct Hf4 as (P4 & F4 & N4 & S4 & O4).
    split; [reflexivity|].
    split; [split; [exact P4|]; exists (w_serial w2); split; [lia | exact N4]|].
    split.
    { unfold owned_by, own1. cbn [rc_stats airtime set_handles].
      destruct (Z.ltb_spec 0 air); [|lia]. simpl. apply NoDup_singleton. }
    split.
    { intros fd o H N. pose proof (B _ _ H N) as H2.
      rewrite O4; [exact H2 | congruence]. }
    intros fd o' H'.
    destruct (Z.eq_dec fd air) as [->|Ha].
    { left. rewrite N4 in H'. injection H' as <-. cbn [of_serial].
      split; [lia|]. rewrite elem_of_owned_by. cbn [rc_stats airtime set_handles]. auto. }
    rewrite O4 in H' by assumption. right. apply A. exact H'.
  - destruct Hf3 as (-> & ->). destruct Hf4 as (-> & ->).
    split; [reflexivity|]. split; [reflexivity|].
    split; [unfold owned_by, own1; simpl; apply NoDup_nil_2|].
    split; [exact B|].
    intros fd o' H'. right. apply A. exact H'.
Qed.

End ResetFacts.

Section ResetLoop.

Import WifiStats.

(** What a record holds after its reset is open on a file, through a
    description made during the reset. *)
Lemma fresh_owned w w' s s' :
  handle_fresh w w' (rc_stats_file s) (rc_stats s') ->
  handle_fresh w w' (airtime_file s) (airtime s') ->
  forall fd, fd ∈ owned_by s' ->
    exists o path data, fd_get w' fd = Some o /\ of_target o = TFile path data
      /\ of_pos o = 0%nat /\ (w_serial w <= of_serial o)%nat.
Proof.
  unfold handle_fresh. intros H1 H2 fd Hfd.
  apply elem_of_owned_by in Hfd as [[-> | ->] Hpos].
  - destruct (w_files w !! rc_stats_file s) as [d|]; [|lia].
    destruct H1 as (_ & n & Hn & Hget). eexists _, _, _. split; [exact Hget|]. simpl. auto.
  - destruct (w_files w !! airtime_file s) as [d|]; [|lia].
    destruct H2 as (_ & n & Hn & Hget). eexists _, _, _. split; [exact Hget|]. simpl. auto.
Qed.

Lemma handle_fresh_weaken w0 w w' path h :
  w_files w0 = w_files w -> (w_serial w0 <= w_serial w)%nat ->
  handle_fresh w w' path h -> handle_fresh w0 w' path h.
Proof.
  unfold handle_fresh. intros -> Hle. destruct (w_files w !! path); [|auto].
  intros (Hp & n & Hn & Hget). split; [exact Hp|]. exists n. split; [lia | exact Hget].
Qed.

Lemma handle_fresh_persist w w1 w' path h :
  handle_fresh w w1 path h ->
  (forall o, fd_get w1 h = Some o -> (w_serial w <= of_serial o)%nat -> fd_get w' h = Some o) ->
  handle_fresh w w' path h.
Proof.
  unfold handle_fresh. destruct (w_files w !! path); [|auto].
  intros (Hp & n & Hn & Hget) Hkeep. split; [exact Hp|]. exists n. split; [exact Hn|].
  apply Hkeep; [exact Hget | exact Hn].
Qed.

(** [stations_reset] on records whose handles are in order. *)
Lemma reset_loop_spec cnt : forall ss w,
  stdin_ok w = true -> serials_ok w -> stations_ok w (take cnt ss) ->
  exists ss' w',
    reset_loop cnt ss w = Ret ss' w'
    /\ rest w' = rest w
    /\ (w_serial w <= w_serial w')%nat
    /\ serials_ok w' /\ stdin_ok w' = true
    /\ Forall2 (reset_rel w w') (take cnt ss) (take cnt ss')
    /\ drop cnt ss' = drop cnt ss
    /\ NoDup (owned (take cnt ss'))
    /\ (forall fd o, fd_get w fd = Some o -> fd ∉ owned (take cnt ss) ->
          fd_get w' fd = Some o)
    /\ (forall fd o', fd_get w' fd = Some o' ->
          ((w_serial w <= of_serial o' < w_serial w')%nat /\ fd ∈ owned (take cnt ss'))
          \/ (fd_get w fd = Some o' /\ fd ∉ owned (take cnt ss))).
Proof.
  induction cnt as [|cnt IH]; intros ss w Hin Hser Hok.
  { exists ss, w. simpl. rewrite !take_0, !drop_0. simpl.
    split; [destruct ss; reflexivity|]. split; [reflexivity|]. split; [lia|].
    split; [exact Hser|]. split; [exact Hin|]. split; [constructor|].
    split; [reflexivity|]. split; [constructor|]. split; [auto|].
    intros fd o' H. right. split; [exact H|]. apply not_elem_of_nil. }
  destruct ss as [|s rest0].
  { exists [], w. simpl.
    split; [reflexivity|]. split; [reflexivity|]. split; [lia|].
    split; [exact Hser|]. split; [exact Hin|]. split; [constructor|].
    split; [reflexivity|]. split; [constructor|]. split; [auto|].
    intros fd o' H. right. split; [exact H|]. apply not_elem_of_nil. }
  cbn [take owned] in Hok. destruct Hok as (Hnd & Hfiles).
  apply NoDup_app in Hnd as (Hnd_s & Hdisj & Hnd_r).
  destruct (reset_one_spec w s Hin)
    as (s' & w1 & Hrun1 & Hloc & Hrest1 & Hle1 & Hrc & Hair & Hnd' & Hframe1 & Hchar1).
  assert (stdin_ok w1 = true) as Hin1.
  { apply stdin_ok_spec in Hin. apply stdin_ok_spec.
    destruct (fd_get w 0) as [o0|] eqn:E0; [|congruence].
    rewrite (Hframe1 _ _ E0); [discriminate|].
    rewrite elem_of_owned_by. lia. }
  assert (serials_ok w1) as Hser1.
  { intros fd o' H. destruct (Hchar1 _ _ H) as [[Hn _] | [H0 _]]; [lia|].
    specialize (Hser _ _ H0). lia. }
  assert (forall h, h ∈ owned (take cnt rest0) ->
            exists o, fd_get w h = Some o /\ fd_get w1 h = Some o) as Hold.
  { intros h Hh. destruct (Hfiles h) as (o & p & d & Hget & _).
    { apply elem_of_app. right. exact Hh. }
    exists o. split; [exact Hget|]. apply Hframe1; [exact Hget|].
    intros Hs. exact (Hdisj _ Hs Hh). }
  assert (stations_ok w1 (take cnt rest0)) as Hok1.
  { split; [exact Hnd_r|]. intros h Hh.
    destruct (Hfiles h) as (o & p & d & Hget & Htg).
    { apply elem_of_app. right. exact Hh. }
    destruct (Hold h Hh) as (o1 & Hg & Hg1).
    exists o, p, d. split; [congruence | exact Htg]. }
  destruct (IH rest0 w1 Hin1 Hser1 Hok1)
    as (rest' & w' & Hrun & Hrest & Hle & Hser' & Hin' & Hall & Hdrop & Hnd_r' & Hframe & Hchar).
  exists (s' :: rest'), w'.
  cbn [reset_loop]. unfold bind at 1. rewrite Hrun1. unfold bind at 1. rewrite Hrun.
  unfold ret. split; [reflexivity|].
  split; [congruence|]. split; [lia|]. split; [exact Hser'|]. split; [exact Hin'|].
  assert (w_files w1 = w_files w) as Hfw1.
  { apply rest_fields in Hrest1 as (_ & _ & _ & _ & F & _). exact F. }
  (* the head's new descriptors are not handles of the tail *)
  assert (forall fd o, fd_get w1 fd = Some o -> (w_serial w <= of_serial o)%nat ->
            fd_get w' fd = Some o) as Hkeep.
  { intros fd o Hget Hn. apply Hframe; [exact Hget|].
    intros Hh. destruct (Hold _ Hh) as (o0 & Hg & Hg1).
    specialize (Hser _ _ Hg). assert (o0 = o) by congruence. subst. lia. }
  cbn [take].
  split.
  { constructor.
    - split; [exact Hloc|].
      split; eapply handle_fresh_persist; eauto.
    - eapply Forall2_impl; [exact Hall|].
      intros x y (L & R & A). split; [exact L|].
      split; apply (handle_fresh_weaken w w1 w'); auto. }
  split; [cbn [drop]; exact Hdrop|].
  assert (forall fd, fd ∈ owned_by s' ->
            exists o, fd_get w1 fd = Some o /\ fd_get w' fd = Some o
                      /\ (w_serial w <= of_serial o < w_serial w1)%nat) as Hhead.
  { intros fd Hfd.
    destruct (fresh_owned w w1 s s' Hrc Hair fd Hfd) as (o & p & d & Hget & _ & _ & Hn).
    exists o. split; [exact Hget|]. split; [apply Hkeep; assumption|].
    destruct (Hchar1 _ _ Hget) as [[Hn' _] | [H0 _]]; [lia|].
    specialize (Hser _ _ H0). lia. }
  assert (forall fd, fd ∈ owned (take cnt rest') ->
            exists o, fd_get w' fd = Some o /\ (w_serial w1 <= of_serial o)%nat) as Htail.
  { intros fd Hfd. clear -Hall Hfd.
    remember (take cnt rest0) as l0. remember (take cnt rest') as l'.
    clear Heql0 Heql'. induction Hall as [|x y l0 l' (L & R & A) _ IHl]; simpl in Hfd.
    - now apply elem_of_nil in Hfd.
    - apply elem_of_app in Hfd as [Hfd|Hfd]; [|auto].
      destruct (fresh_owned _ _ _ _ R A fd Hfd) as (o & p & d & Hget & _ & _ & Hn).
      eauto. }
  split.
  { cbn [owned]. apply NoDup_app. split; [exact Hnd'|]. split; [|exact Hnd_r'].
    intros fd Hs Hr. destruct (Hhead _ Hs) as (o & _ & Hg & Hn).
    destruct (Htail _ Hr) as (o2 & Hg2 & Hn2).
    assert (o2 = o) by congruence. subst. lia. }
  split.
  { intros fd o Hget Hnot. cbn [owned] in Hnot. rewrite elem_of_app in Hnot.
    apply Hframe; [apply Hframe1|]; tauto. }
  intros fd o' Hget. cbn [owned]. rewrite !elem_of_app.
  destruct (Hchar _ _ Hget) as [[Hn Hr] | [H1 Hr]].
  - left. split; [lia | auto].
  - destruct (Hchar1 _ _ H1) as [[Hn Hs] | [H0 Hs]].
    + left. split; [lia | auto].
    + right. split; [exact H0 | tauto].
Qed.

End ResetLoop.

Section ReadFacts.

Import WifiStats.

Lemma length_poke (buf data : bytes) (off : nat) :
  (off <= length buf)%nat ->
  length (poke buf off data) = Nat.max (length buf) (off + length data).
Proof.
  intros H. unfold poke. replace (off - length buf)%nat with 0%nat by lia.
  simpl. rewrite !length_app, length_take, length_drop. lia.
Qed.

Lemma same_table_refl w : same_table w w.
Proof. intros fd. destruct (fd_get w fd); auto. Qed.

Lemma same_table_trans w1 w2 w3 :
  same_table w1 w2 -> same_table w2 w3 -> same_table w1 w3.
Proof.
  intros H12 H23 fd. specialize (H12 fd). specialize (H23 fd).
  destruct (fd_get w1 fd), (fd_get w2 fd), (fd_get w3 fd); try tauto.
  destruct H12, H23. split; congruence.
Qed.

(** A read changes nothing but the offset of the descriptor it reads. *)
Lemma sys_read_frame w h count :
  exists t data w',
    sys_read h count w = Ret (t, data) w'
    /\ (t = -1 /\ data = [] \/ t = Z.of_nat (length data))
    /\ rest w' = rest w /\ w_serial w' = w_serial w
    /\ (forall fd, fd <> h -> fd_get w' fd = fd_get w fd)
    /\ same_table w w'.
Proof.
  unfold sys_read. destruct (fd_get w h) as [o|] eqn:Hget.
  2:{ eexists _, _, _. split; [reflexivity|]. split; [auto|].
      split; [reflexivity|]. split; [reflexivity|]. split; [auto|]. apply same_table_refl. }
  pose proof (fd_get_nonneg _ _ _ Hget) as Hnn.
  assert (forall pos, same_table w (fd_seek h o pos w)) as Hseek.
  { intros pos fd. destruct (Z.eq_dec fd h) as [->|Hne].
    - rewrite Hget, (fd_get_seek_eq _ _ _ _ Hget). auto.
    - rewrite fd_get_seek_ne by auto. destruct (fd_get w fd); auto. }
  destruct (of_target o) eqn:Htg;
    try (eexists _, _, _; split; [reflexivity|]; split; [auto|];
         split; [reflexivity|]; split; [reflexivity|]; split; [auto|];
         apply same_table_refl).
  - eexists _, _, _. split; [reflexivity|]. split; [auto|].
    split; [reflexivity|]. split; [reflexivity|].
    split; [intros fd Hne; apply fd_get_seek_ne; auto | apply Hseek].
  - eexists _, _, _. split; [reflexivity|]. split; [auto|].
    split; [reflexivity|]. split; [reflexivity|].
    split; [intros fd Hne; apply fd_get_seek_ne; auto | apply Hseek].
  - destruct (w_pipe w).
    + eexists _, _, _. split; [reflexivity|]. split; [auto|].
      split; [reflexivity|]. split; [reflexivity|]. split; [auto|]. apply same_table_refl.
    + eexists _, _, _. split; [reflexivity|]. split; [auto|].
      split; [reflexivity|]. split; [reflexivity|]. split; [auto|]. apply same_table_refl.
Qed.

(** What a read would deliver depends on the descriptor read, the scratch
    file and the pipe only. *)
Lemma peek_frame w w' h :
  rest w' = rest w -> fd_get w' h = fd_get w h -> peek w' h = peek w h.
Proof.
  intros Hrest Hget. unfold peek, sys_read. rewrite Hget.
  unfold rest in Hrest. injection Hrest as _ Hscr _ _ _ _ _ _ Hpipe.
  rewrite Hscr, Hpipe.
  destruct (fd_get w h) as [o|]; [|reflexivity].
  destruct (of_target o); try reflexivity.
  destruct (w_pipe w); reflexivity.
Qed.

Lemma stream_of_frame w w' label h :
  rest w' = rest w -> (0 < h -> fd_get w' h = fd_get w h) ->
  stream_of w' label h = stream_of w label h.
Proof.
  intros Hrest Hget. unfold stream_of. destruct (Z.ltb_spec 0 h); [|reflexivity].
  rewrite (peek_frame w w' h); auto.
Qed.

(** One stream of one station. *)
Lemma read_stream_spec w h label buf size :
  0 <= size -> (Z.to_nat size <= length buf)%nat ->
  exists size' buf' w',
    read_stream h label buf size w = Ret (size', buf') w'
    /\ size' = size + Z.of_nat (length (stream_of w label h))
    /\ take (Z.to_nat size') buf' = take (Z.to_nat size) buf ++ stream_of w label h
    /\ (Z.to_nat size' <= length buf')%nat
    /\ rest w' = rest w /\ w_serial w' = w_serial w
    /\ (forall fd, fd ∉ own1 h -> fd_get w' fd = fd_get w fd)
    /\ same_table w w'.
Proof.
  intros Hsize Hlen. unfold read_stream, stream_of.
  destruct (Z.ltb_spec 0 h) as [Hpos|Hneg].
  2:{ exists size, buf, w. unfold ret. split; [reflexivity|].
      simpl. rewrite Z.add_0_r, app_nil_r. split; [reflexivity|]. split; [reflexivity|].
      split; [exact Hlen|]. split; [reflexivity|]. split; [reflexivity|].
      split; [auto | apply same_table_refl]. }
  set (text := lit label ++ [NL]).
  set (buf1 := poke buf (Z.to_nat size) (text ++ [NUL])).
  set (size1 := size + Z.of_nat (length text)).
  assert (take (Z.to_nat size1) buf1 = take (Z.to_nat size) buf ++ text) as Htake1.
  { subst size1 buf1. replace (Z.to_nat (size + Z.of_nat (length text)))
      with (Z.to_nat size + length text)%nat by lia.
    apply take_poke_snoc. exact Hlen. }
  assert (Z.to_nat size1 < length buf1)%nat as Hlen1.
  { subst size1 buf1. rewrite length_poke by exact Hlen. rewrite length_app. simpl. lia. }
  destruct (sys_read_frame w h 8192) as (t & data & w' & Hrun & Ht & Hrest & Hser & Hfd & Hsame).
  unfold bind. rewrite Hrun. unfold peek. rewrite Hrun.
  assert (forall fd, fd ∉ own1 h -> fd_get w' fd = fd_get w fd) as Hframe.
  { intros fd Hn. apply Hfd. intros ->. apply Hn. apply elem_of_own1. auto. }
  destruct (Z.ltb_spec 0 t) as [Htpos|Htneg].
  - destruct Ht as [[-> _] | ->]; [lia|].
    unfold ret. eexists _, _, _. split; [reflexivity|].
    split; [subst size1 text; rewrite !length_app; simpl length; lia|].
    split.
    { replace (Z.to_nat (size1 + Z.of_nat (length data)))
        with (Z.to_nat size1 + length data)%nat by lia.
      rewrite take_poke by lia. rewrite Htake1. subst text.
      rewrite <- !app_assoc. reflexivity. }
    split; [rewrite length_poke by lia; lia|].
    auto.
  - unfold ret. eexists _, _, _. split; [reflexivity|].
    replace (lit label ++ [NL] ++ []) with text by (subst text; now rewrite app_nil_r).
    split; [reflexivity|]. split; [exact Htake1|]. split; [lia|]. auto.
Qed.

End ReadFacts.

Section ReadLoop.

Import WifiStats.

Lemma block_of_frame w w' s :
  rest w' = rest w ->
  (forall h, h ∈ owned_by s -> fd_get w' h = fd_get w h) ->
  block_of w' s = block_of w s.
Proof.
  intros Hrest Hfd. unfold block_of.
  rewrite (stream_of_frame w w' "Airtime:" (airtime s)),
          (stream_of_frame w w' "RC stats:" (rc_stats s)); auto.
  - intros H. apply Hfd. apply elem_of_owned_by. auto.
  - intros H. apply Hfd. apply elem_of_owned_by. auto.
Qed.

Lemma blocks_frame w w' ss :
  rest w' = rest w ->
  (forall h, h ∈ owned ss -> fd_get w' h = fd_get w h) ->
  map (block_of w') ss = map (block_of w) ss.
Proof.
  intros Hrest. induction ss as [|s ss IH]; intros Hfd; [reflexivity|].
  cbn [map owned] in *. f_equal.
  - apply block_of_frame; [exact Hrest|]. intros h Hh. apply Hfd, elem_of_app. auto.
  - apply IH. intros h Hh. apply Hfd, elem_of_app. auto.
Qed.

(** [stations_read] on records that hold no descriptor twice: the blocks
    of the stations, in the order of the array, stored one after the other
    from offset [size] on. *)
Lemma read_loop_spec cnt : forall ss buf size w,
  0 <= size -> (Z.to_nat size <= length buf)%nat ->
  NoDup (owned (take cnt ss)) ->
  exists size' buf' w',
    read_loop cnt ss buf size w = Ret (size', buf') w'
    /\ size' = size + Z.of_nat (length (concat (map (block_of w) (take cnt ss))))
    /\ take (Z.to_nat size') buf'
       = take (Z.to_nat size) buf ++ concat (map (block_of w) (take cnt ss))
    /\ (Z.to_nat size' <= length buf')%nat
    /\ rest w' = rest w /\ w_serial w' = w_serial w
    /\ (forall fd, fd ∉ owned (take cnt ss) -> fd_get w' fd = fd_get w fd)
    /\ same_table w w'.
Proof.
  induction cnt as [|cnt IH]; intros ss buf size w Hsize Hlen Hnd.
  { exists size, buf, w. rewrite take_0. simpl. rewrite Z.add_0_r, app_nil_r.
    split; [destruct ss; reflexivity|]. split; [reflexivity|]. split; [reflexivity|].
    split; [exact Hlen|]. split; [reflexivity|]. split; [reflexivity|].
    split; [auto | apply same_table_refl]. }
  destruct ss as [|st rest0].
  { exists size, buf, w. simpl. rewrite Z.add_0_r, app_nil_r.
    split; [reflexivity|]. split; [reflexivity|]. split; [reflexivity|].
    split; [exact Hlen|]. split; [reflexivity|]. split; [reflexivity|].
    split; [auto | apply same_table_refl]. }
  cbn [take owned] in Hnd. apply NoDup_app in Hnd as (Hnd_s & Hdisj & Hnd_r).
  cbn [read_loop take map concat].
  set (text := lit "Station: " ++ lit (macaddr st) ++ [NL]).
  set (buf0 := poke buf (Z.to_nat size) (text ++ [NUL])).
  set (size0 := size + Z.of_nat (length text)).
  assert (take (Z.to_nat size0) buf0 = take (Z.to_nat size) buf ++ text) as Htake0.
  { subst size0 buf0. replace (Z.to_nat (size + Z.of_nat (length text)))
      with (Z.to_nat size + length text)%nat by lia.
    apply take_poke_snoc. exact Hlen. }
  assert (Z.to_nat size0 <= length buf0)%nat as Hlen0.
  { subst size0 buf0. rewrite length_poke by exact Hlen. rewrite length_app. simpl. lia. }
  destruct (read_stream_spec w (airtime st) "Airtime:" buf0 size0 ltac:(lia) Hlen0)
    as (size1 & buf1 & w1 & Hrun1 & Hs1 & Ht1 & Hl1 & Hr1 & Hser1 & Hf1 & Hsame1).
  unfold bind at 1. rewrite Hrun1.
  destruct (read_stream_spec w1 (rc_stats st) "RC stats:" buf1 size1 ltac:(lia) Hl1)
    as (size2 & buf2 & w2 & Hrun2 & Hs2 & Ht2 & Hl2 & Hr2 & Hser2 & Hf2 & Hsame2).
  unfold bind at 1. rewrite Hrun2.
  (* the second stream is read as it was in [w] *)
  assert (stream_of w1 "RC stats:" (rc_stats st) = stream_of w "RC stats:" (rc_stats st)) as Hrc.
  { apply stream_of_frame; [exact Hr1|]. intros Hpos. apply Hf1.
    rewrite elem_of_own1. intros [Heq Hpa].
    unfold owned_by in Hnd_s. apply NoDup_app in Hnd_s as (_ & Hd & _).
    apply (Hd (rc_stats st)); apply elem_of_own1; (split; [congruence | lia]). }
  rewrite Hrc in *.
  destruct (IH rest0 buf2 size2 w2 ltac:(lia) Hl2 Hnd_r)
    as (size' & buf' & w' & Hrun & Hs & Ht & Hl & Hr & Hser & Hf & Hsame).
  assert (rest w2 = rest w) as Hr02 by congruence.
  assert (forall fd, fd ∉ owned_by st -> fd_get w2 fd = fd_get w fd) as Hf02.
  { intros fd Hn. unfold owned_by in Hn. rewrite elem_of_app in Hn.
    rewrite Hf2, Hf1; tauto. }
  assert (map (block_of w2) (take cnt rest0) = map (block_of w) (take cnt rest0)) as Hblocks.
  { apply blocks_frame; [exact Hr02|]. intros h Hh. apply Hf02.
    intros Hs'. exact (Hdisj _ Hs' Hh). }
  rewrite Hblocks in *.
  exists size', buf', w'. split; [exact Hrun|].
  unfold block_of at 1 3. fold text.
  split.
  { rewrite Hs, Hs2, Hs1. subst size0 text. rewrite !length_app. lia. }
  split.
  { rewrite Ht, Ht2, Ht1, Htake0. subst text. rewrite <- !app_assoc. reflexivity. }
  split; [exact Hl|]. split; [congruence|]. split; [congruence|].
  split.
  { intros fd Hn. cbn [owned] in Hn. rewrite elem_of_app in Hn.
    rewrite Hf, Hf02; tauto. }
  eapply same_table_trans; [|exact Hsame].
  eapply same_table_trans; eauto.
Qed.

End ReadLoop.

Section CaptureFacts.

Import WifiStats.

Lemma fresh_owned_all w w1 l l' :
  Forall2 (reset_rel w w1) l l' ->
  forall fd, fd ∈ owned l' ->
    exists o path data, fd_get w1 fd = Some o /\ of_target o = TFile path data
      /\ of_pos o = 0%nat /\ (w_serial w <= of_serial o)%nat.
Proof.
  induction 1 as [|x y l l' (L & R & A) _ IH]; intros fd Hfd; simpl in Hfd.
  - now apply elem_of_nil in Hfd.
  - apply elem_of_app in Hfd as [Hfd|Hfd]; [|auto].
    exact (fresh_owned _ _ _ _ R A fd Hfd).
Qed.

(** Right after a reset, a stream read through its handle is the file's
    first 8192 bytes, or nothing when the file is not there. *)
Lemma stream_of_fresh w w1 label path h :
  handle_fresh w w1 path h ->
  stream_of w1 label h = stream_block (w_files w) label path.
Proof.
  unfold handle_fresh, stream_of, stream_block.
  destruct (w_files w !! path) as [data|].
  - intros (Hpos & n & _ & Hget).
    destruct (Z.ltb_spec 0 h); [|lia].
    unfold peek, sys_read. rewrite Hget. cbn [of_target of_pos]. rewrite drop_0.
    destruct (Z.ltb_spec 0 (Z.of_nat (length (take (Z.to_nat 8192) data)))) as [|Hz];
      [reflexivity|].
    destruct (take (Z.to_nat 8192) data); [reflexivity | simpl in Hz; lia].
  - intros ->. reflexivity.
Qed.

Lemma blocks_fresh w w1 l l' :
  Forall2 (reset_rel w w1) l l' ->
  map (block_of w1) l' = map (station_block (w_files w)) l.
Proof.
  induction 1 as [|x y l l' (L & R & A) _ IH]; [reflexivity|].
  cbn [map]. f_equal; [|exact IH].
  unfold block_of, station_block.
  rewrite (stream_of_fresh _ _ _ _ _ A), (stream_of_fresh _ _ _ _ _ R).
  unfold locators in L. injection L as -> _ _. reflexivity.
Qed.

Lemma locators_fresh w w1 l l' :
  Forall2 (reset_rel w w1) l l' -> map locators l' = map locators l.
Proof.
  induction 1 as [|x y l l' (L & _) _ IH]; [reflexivity|].
  cbn [map]. now rewrite L, IH.
Qed.

Lemma handles_for_fresh w w1 l l' :
  Forall2 (reset_rel w w1) l l' -> Forall2 (handles_for (w_files w)) l l'.
Proof.
  intros H. eapply Forall2_impl; [exact H|]. clear H. intros s s' (_ & R & A).
  unfold handles_for, opened, handle_fresh in *.
  split.
  - destruct (w_files w !! airtime_file s); [tauto | exact A].
  - destruct (w_files w !! rc_stats_file s); [tauto | exact R].
Qed.

(** One tick's capture, on records whose handles are in order: the
    payload is made of the files as they are now, and the handles are in
    order again for the next tick. *)
Lemma capture_spec w ss buf (c : Z) :
  stdin_ok w = true -> serials_ok w -> stations_ok w (take (Z.to_nat c) ss) ->
  exists ss' buf' w',
    capture ss buf c w
    = Ret (ss', Z.of_nat (length (ws_payload (w_files w) (take (Z.to_nat c) ss))), buf') w'
    /\ take (length (ws_payload (w_files w) (take (Z.to_nat c) ss))) buf'
       = ws_payload (w_files w) (take (Z.to_nat c) ss)
    /\ rest w' = rest w
    /\ stdin_ok w' = true /\ serials_ok w' /\ stations_ok w' (take (Z.to_nat c) ss')
    /\ map locators ss' = map locators ss
    /\ (forall fd o, fd_get w fd = Some o -> fd ∉ owned (take (Z.to_nat c) ss) ->
          fd_get w' fd = Some o)
    /\ Forall2 (handles_for (w_files w)) (take (Z.to_nat c) ss) (take (Z.to_nat c) ss').
Proof.
  intros Hin Hser Hok. unfold capture, stations_reset, stations_read.
  destruct (reset_loop_spec (Z.to_nat c) ss w Hin Hser Hok)
    as (ss1 & w1 & Hrun1 & Hrest1 & Hle1 & Hser1 & Hin1 & Hall & Hdrop & Hnd & Hframe & Hchar).
  unfold bind at 1. unfold bind at 1. rewrite Hrun1. unfold ret at 1.
  destruct (read_loop_spec (Z.to_nat c) ss1 buf 0 w1 ltac:(lia) ltac:(simpl; lia) Hnd)
    as (size' & buf' & w' & Hrun & Hs & Ht & Hl & Hr & Hsr & Hf & Hsame).
  unfold bind at 1. rewrite Hrun. unfold ret.
  rewrite (blocks_fresh _ _ _ _ Hall) in Hs, Ht.
  fold (ws_payload (w_files w) (take (Z.to_nat c) ss)) in Hs, Ht.
  set (payload := ws_payload (w_files w) (take (Z.to_nat c) ss)) in *.
  rewrite Z.add_0_l in Hs. subst size'. rewrite Nat2Z.id in Ht. simpl in Ht.
  exists ss1, buf', w'. split; [reflexivity|]. split; [exact Ht|].
  split; [congruence|].
  split.
  { apply stdin_ok_spec in Hin1. apply stdin_ok_spec.
    specialize (Hsame 0). destruct (fd_get w1 0); [|congruence].
    destruct (fd_get w' 0); [discriminate | contradiction]. }
  split.
  { intros fd o' Hget. specialize (Hsame fd). rewrite Hget in Hsame.
    destruct (fd_get w1 fd) as [o1|] eqn:E1; [|contradiction].
    destruct Hsame as (Hs' & _). specialize (Hser1 _ _ E1). lia. }
  split.
  { split; [exact Hnd|]. intros h Hh.
    destruct (fresh_owned_all _ _ _ _ Hall h Hh) as (o & p & d & Hget & Htg & _).
    specialize (Hsame h). rewrite Hget in Hsame.
    destruct (fd_get w' h) as [o'|] eqn:E'; [|contradiction].
    destruct Hsame as (_ & Ht'). exists o', p, d. split; [exact E' | congruence]. }
  split.
  { rewrite <- (take_drop (Z.to_nat c) ss1), <- (take_drop (Z.to_nat c) ss) at 1.
    rewrite !map_app, (locators_fresh _ _ _ _ Hall), Hdrop. reflexivity. }
  split; [|exact (handles_for_fresh _ _ _ _ Hall)].
  intros fd o Hget Hnot.
  pose proof (Hframe _ _ Hget Hnot) as Hget1.
  rewrite Hf; [exact Hget1|].
  intros Hh. destruct (fresh_owned_all _ _ _ _ Hall fd Hh) as (o1 & _ & _ & Hg & _ & _ & Hn).
  specialize (Hser _ _ Hget). assert (o1 = o) by congruence. subst. lia.
Qed.

End CaptureFacts.

(** ** The stations' streams, tick by tick *)

Section StationTheorems.

Import WifiStats.

Lemma serials_okb_sound w : serials_okb w = true -> serials_ok w.
Proof.
  unfold serials_okb, serials_ok, fd_get. intros H fd o.
  destruct (fd <? 0); [discriminate|].
  destruct (w_fds w !! Z.to_nat fd) as [[o1|]|] eqn:E; try discriminate.
  intros [= ->]. rewrite forallb_forall in H.
  specialize (H (Some o)). cbv beta iota in H.
  apply Nat.ltb_lt, H. apply list_elem_of_In. eapply list_elem_of_lookup_2, E.
Qed.

Lemma stations_okb_sound w ss : stations_okb w ss = true -> stations_ok w ss.
Proof.
  unfold stations_okb, stations_ok. intros H.
  apply andb_prop in H as [Hnd Hall]. apply bool_decide_eq_true in Hnd.
  split; [exact Hnd|]. intros h Hh.
  rewrite forallb_forall in Hall. specialize (Hall h).
  unfold is_fileb, is_file in *.
  destruct (fd_get w h) as [o|]; [|now apply list_elem_of_In, Hall in Hh].
  apply list_elem_of_In, Hall in Hh.
  destruct (of_target o) eqn:E; try discriminate. eauto.
Qed.



End StationTheorems.

(** ** The payload of a tick *)

Section PayloadTheorems.

Import WifiStats.


(** The same scenario with files that hold the line "X\n". *)
Example scenario_payload_lines :
  scenario_payload (lit "X" ++ [NL])
  = Some (lit "Station: AA:BB" ++ [NL] ++ lit "Airtime:" ++ [NL] ++ lit "X" ++ [NL]
          ++ lit "Station: CC:DD" ++ [NL] ++ lit "Airtime:" ++ [NL] ++ lit "X" ++ [NL]).
Proof. vm_compute. reflexivity. Qed.



End PayloadTheorems.

(** ** wifistats_iterate.c: discovery prints and looks at directories *)

Section QuietFacts.

Import WifiStats.



Lemma emit_ok so se w :
  w_dirs (emit so se w) = w_dirs w
  /\ stderr_ok (emit so se w) = stderr_ok w
  /\ stdout_ok (emit so se w) = stdout_ok w.
Proof. repeat split. Qed.




Lemma quiet_weaken {A} (P Q : A -> Prop) (c : io A) :
  (forall a, P a -> Q a) -> quiet P c -> quiet Q c.
Proof.
  intros HPQ Hc dirs. destruct (Hc dirs) as (r & so & se & HP & Hrun).
  exists r, so, se. split; [|exact Hrun]. destruct r; auto.
Qed.














End QuietFacts.

(** ** wifistats_iterate.c: one pass of the loop *)

Section WsBody.

Import WifiStats.

Lemma streams_kept_refl w : streams_kept w w.
Proof. intros fd o H _. eauto. Qed.

Lemma streams_kept_trans w1 w2 w3 :
  streams_kept w1 w2 -> streams_kept w2 w3 -> streams_kept w1 w3.
Proof.
  intros H12 H23 fd o Hget Hs.
  destruct (H12 fd o Hget Hs) as (o2 & Hget2 & Ht2).
  destruct (H23 fd o2 Hget2) as (o3 & Hget3 & Ht3); [now rewrite Ht2|].
  exists o3. split; [exact Hget3 | congruence].
Qed.

Lemma streams_kept_keeps w w' out : keeps w w' out -> streams_kept w w'.
Proof.
  intros Hk fd o Hget _. destruct (Hk fd o Hget) as (o' & H1 & H2 & _). eauto.
Qed.

Lemma stdout_ok_streams w w' :
  streams_kept w w' -> stdout_ok w = true -> stdout_ok w' = true.
Proof.
  unfold stdout_ok. intros Hk H.
  destruct (fd_get w 1) as [o|] eqn:E; [|discriminate].
  destruct (of_target o) eqn:Et; try discriminate.
  destruct (Hk 1 o E) as (o' & -> & ->); [now rewrite Et|]. now rewrite Et.
Qed.

Lemma sys_write_serial fd data w r w' :
  sys_write fd data w = Ret r w' -> w_serial w' = w_serial w.
Proof.
  unfold sys_write. destruct (fd_get w fd) as [o|]; [destruct (of_target o)|];
    intros [= _ <-]; reflexivity.
Qed.

Lemma perror_serial msg w r w' : perror msg w = Ret r w' -> w_serial w' = w_serial w.
Proof.
  unfold perror. destruct (fd_get w 2) as [[n [] p]|]; intros [= _ <-]; reflexivity.
Qed.

Lemma ws_result_serial out size bufsize buffer w r w' :
  result out size bufsize buffer w = Ret r w' -> w_serial w' = w_serial w.
Proof.
  unfold result, bind, clock_gettime, sys_writev.
  destruct (40 <? bufsize - size).
  - destruct (sys_write out _ w) as [r1 w1| | |] eqn:E; try discriminate.
    apply sys_write_serial in E. destruct (r1 =? -1).
    + destruct (perror _ w1) as [u w2| | |] eqn:E2; try discriminate.
      apply perror_serial in E2. unfold ret. intros [= _ <-]. congruence.
    + unfold ret. intros [= _ <-]. exact E.
  - destruct (sys_write 2 _ w) as [r1 w1| | |] eqn:E; try discriminate.
    apply sys_write_serial in E. unfold ret. intros [= _ <-]. exact E.
Qed.

(** The loop's text from [stations_reset] on is [capture] and what follows
    it. *)
Lemma capture_then {B} ss buf c (k : list station_stats -> Z -> bytes -> io B) w :
  (let* (_, stations) := stations_reset ss c in
   let* (size, buffer) := stations_read stations buf c in
   k stations size buffer) w
  = match capture ss buf c w with
    | Ret (stations, size, buffer) w' => k stations size buffer w'
    | Exit s w' => Exit s w'
    | Blocked w' => Blocked w'
    | Stuck => Stuck
    end.
Proof.
  unfold capture, bind.
  destruct (stations_reset ss c w) as [[r st] w1| | |]; try reflexivity.
  destruct (stations_read st buf c w1) as [[size b] w2| | |]; reflexivity.
Qed.

Lemma owned_not_stream w l fd o :
  (forall h, h ∈ owned l -> is_file w h) ->
  fd_get w fd = Some o ->
  match of_target o with TFile _ _ => False | _ => True end ->
  fd ∉ owned l.
Proof.
  intros Hfiles Hget Hs Hin. destruct (Hfiles fd Hin) as (o' & p & d & Hget' & Ht).
  assert (o' = o) by congruence. subst. now rewrite Ht in Hs.
Qed.

(** What the loop needs of the table depends on descriptors no record
    holds. *)
Lemma loop_ok_kept w w' out timer l :
  loop_ok w out timer = true ->
  rest w' = rest w ->
  (forall fd o, fd_get w fd = Some o -> fd ∉ owned l -> fd_get w' fd = Some o) ->
  (forall h, h ∈ owned l -> is_file w h) ->
  stdin_ok w' = true ->
  loop_ok w' out timer = true
  /\ sink_bytes w' out = sink_bytes w out
  /\ off_sink w' out = off_sink w out
  /\ streams_kept w w'.
Proof.
  intros Hok Hrest Hframe Hfiles Hin'.
  assert (streams_kept w w') as Hk.
  { intros fd o Hget Hs. exists o. split; [|reflexivity].
    apply Hframe; [exact Hget|]. eapply owned_not_stream; eauto. }
  apply loop_ok_spec in Hok as (_ & Herr & Hsink & Htimer).
  apply rest_fields in Hrest as (_ & Hscr & Hout & _).
  assert (forall fd o, fd_get w fd = Some o ->
            match of_target o with TFile _ _ => False | _ => True end ->
            fd_get w' fd = Some o) as Hsame.
  { intros fd o Hget Hs. apply Hframe; [exact Hget|]. eapply owned_not_stream; eauto. }
  unfold stderr_ok in Herr. destruct (fd_get w 2) as [o2|] eqn:E2; [|discriminate].
  unfold sink_ok in Hsink. destruct (fd_get w out) as [oo|] eqn:Eo; [|discriminate].
  unfold timer_ok in Htimer. destruct (fd_get w timer) as [ot|] eqn:Et; [|discriminate].
  assert (fd_get w' 2 = Some o2) as E2'
    by (apply Hsame; [exact E2 | destruct (of_target o2); try discriminate; exact I]).
  assert (fd_get w' out = Some oo) as Eo'
    by (apply Hsame; [exact Eo | destruct (of_target oo); try discriminate; exact I]).
  assert (fd_get w' timer = Some ot) as Et'
    by (apply Hsame; [exact Et | destruct (of_target ot); try discriminate; exact I]).
  split.
  { apply loop_ok_spec. unfold stderr_ok, sink_ok, timer_ok.
    rewrite E2', Eo', Et', Hscr. auto. }
  unfold sink_bytes, off_sink. rewrite Eo, Eo', Hscr, Hout. auto.
Qed.

Lemma ws_inv_frame w w' out timer ss c :
  ws_inv w out timer ss c ->
  sink_ok w' out = true ->
  (forall fd, fd <> out -> fd_get w' fd = fd_get w fd) ->
  keeps w w' out ->
  w_serial w' = w_serial w ->
  ws_inv w' out timer ss c.
Proof.
  intros (Hok & Hser & Hnd & Hfiles) Hsink' Hfd Hk Hs.
  pose proof Hok as Hok0. apply loop_ok_spec in Hok0 as (_ & _ & Hsink & _).
  split; [eapply loop_ok_frame; eauto|]. split.
  - intros fd o Hget. rewrite Hs. destruct (Z.eq_dec fd out) as [->|Hne].
    + unfold sink_ok in Hsink. destruct (fd_get w out) as [oo|] eqn:Eo; [|discriminate].
      destruct (Hk out oo Eo) as (o' & Hget' & _ & Hsr & _).
      assert (o' = o) by congruence. subst. rewrite Hsr. eapply Hser, Eo.
    + rewrite Hfd in Hget by exact Hne. eapply Hser, Hget.
  - split; [exact Hnd|]. intros h Hh.
    destruct (Hfiles h Hh) as (o & p & d & Hget & Ht).
    assert (h <> out) as Hne.
    { intros ->. unfold sink_ok in Hsink. rewrite Hget, Ht in Hsink. discriminate. }
    exists o, p, d. rewrite Hfd by exact Hne. auto.
Qed.

Lemma ws_inv_set_stderr w d out timer ss c :
  ws_inv w out timer ss c -> ws_inv (set_stderr d w) out timer ss c.
Proof.
  intros (Hok & Hser & Hst). split; [rewrite loop_ok_set_stderr; exact Hok|].
  split; [exact Hser | exact Hst].
Qed.

Lemma streams_kept_set_stderr w w' d :
  streams_kept w w' -> streams_kept w (set_stderr d w').
Proof. intros H. exact H. Qed.

End WsBody.

Section WsPass.

Import WifiStats.

Lemma station_block_locators files s s' :
  locators s' = locators s -> station_block files s' = station_block files s.
Proof.
  unfold locators, station_block. intros [= -> -> ->]. reflexivity.
Qed.

Lemma ws_payload_locators files (n : nat) ss ss' :
  map locators ss' = map locators ss ->
  ws_payload files (take n ss') = ws_payload files (take n ss).
Proof.
  unfold ws_payload. intros H. f_equal. revert n ss' H.
  induction ss as [|s ss IH]; intros n [|s' ss'] H; try discriminate.
  - reflexivity.
  - cbn [map] in H. assert (locators s' = locators s) as Hs by congruence.
    assert (map locators ss' = map locators ss) as Hss by congruence.
    destruct n as [|n]; [reflexivity|].
    cbn [firstn map]. f_equal; [now apply station_block_locators | now apply IH].
Qed.

(** A pass from [stations_reset] on, in the world the timer read leaves. *)
Lemma ws_capture_emit w out timer c ev ss buf (ctr : Z) :
  ws_inv w out timer ss c ->
  w_files w = tk_files ev -> w_clock w = tk_clock ev ->
  exists ss' b' w',
    (let* (_, stations) := stations_reset ss c in
     let* (size, buffer) := stations_read stations buf c in
     if 0 <? size then
       let* err := result out size BUFFERSIZE buffer in
       ret (stations, buffer, ctr, err)
     else
       let* err := result out 0 BUFFERSIZE buffer in
       perror "reading file" ;;
       ret (stations, buffer, ctr, err)) w = Ret (ss', b', ctr, 0) w'
    /\ ws_inv w' out timer ss' c
    /\ map locators ss' = map locators ss
    /\ sink_bytes w' out = sink_bytes w out ++ ws_record ev c ss
    /\ off_sink w' out = off_sink w out
    /\ w_stderr w'
       = w_stderr w
           ++ (if 40 <? BUFFERSIZE
                        - Z.of_nat (length (ws_payload (tk_files ev) (take (Z.to_nat c) ss)))
               then [] else [DBytes overrun_warning])
           ++ (if 0 <? Z.of_nat (length (ws_payload (tk_files ev) (take (Z.to_nat c) ss)))
               then [] else [DPerror "reading file"])
    /\ w_names w' = w_names w
    /\ streams_kept w w'.
Proof.
  intros (Hok & Hser & Hst) Hfiles Hclock.
  pose proof Hok as Hok0. apply loop_ok_spec in Hok0 as (Hin & Herr & Hsink & Htimer).
  destruct (capture_spec w ss buf c Hin Hser Hst)
    as (ss1 & b1 & w1 & Hrun & Ht & Hrest & Hin1 & Hser1 & Hst1 & Hloc & Hframe & _).
  rewrite capture_then, Hrun. rewrite Hfiles in Ht |- *.
  unfold ws_record.
  set (p := ws_payload (tk_files ev) (take (Z.to_nat c) ss)) in *.
  destruct (loop_ok_kept w w1 out timer (take (Z.to_nat c) ss) Hok Hrest Hframe
              (proj2 Hst) Hin1) as (Hok1 & Hsb1 & Hoff1 & Hk1).
  pose proof (rest_fields _ _ Hrest) as (Hn1 & _ & _ & He1 & _ & Hc1).
  pose proof Hok1 as Hok1'.
  apply loop_ok_spec in Hok1' as (_ & Herr1 & Hsink1 & Htimer1).
  assert (ws_inv w1 out timer ss1 c) as Hinv1 by (split; [exact Hok1 | split; assumption]).
  destruct (Z.ltb_spec 0 (Z.of_nat (length p))) as [Hpos|Hzero].
  - destruct (Z.ltb_spec 40 (BUFFERSIZE - Z.of_nat (length p))) as [Hroom|Hfull].
    + destruct (ws_result_emit w1 out (Z.of_nat (length p)) BUFFERSIZE b1 Hsink1 Hroom)
        as (w' & Hr & Hb & Hs' & He' & Hn' & Hfd' & Hoff' & Hk').
      unfold bind. rewrite Hr. unfold ret. exists ss1, b1, w'.
      split; [reflexivity|].
      split; [eapply ws_inv_frame; eauto; eapply ws_result_serial; eauto|].
      split; [exact Hloc|].
      rewrite Nat2Z.id, Ht in Hb.
      split; [rewrite Hb, Hsb1, Hc1, Hclock; reflexivity|].
      split; [congruence|].
      split; [rewrite He', He1; simpl; now rewrite app_nil_r|].
      split; [congruence|].
      eapply streams_kept_trans; [exact Hk1 | eapply streams_kept_keeps; exact Hk'].
    + unfold bind. rewrite ws_result_overrun by auto. unfold ret.
      eexists _, _, _. split; [reflexivity|].
      split; [apply ws_inv_set_stderr; exact Hinv1|].
      split; [exact Hloc|].
      split; [rewrite sink_bytes_set_stderr, app_nil_r; exact Hsb1|].
      split; [rewrite off_sink_set_stderr; exact Hoff1|].
      split; [cbn [w_stderr set_stderr]; rewrite He1, app_nil_r; reflexivity|].
      split; [exact Hn1 | exact Hk1].
  - assert (p = []) as Hp by (destruct p; [reflexivity | simpl in Hzero; lia]).
    rewrite Hp in *. cbn [length] in *.
    change (40 <? BUFFERSIZE - Z.of_nat 0) with true. cbv iota.
    change (0 <? Z.of_nat 0) with false. cbv iota.
    destruct (ws_result_emit w1 out 0 BUFFERSIZE b1 Hsink1)
      as (w' & Hr & Hb & Hs' & He' & Hn' & Hfd' & Hoff' & Hk'); [unfold BUFFERSIZE; lia|].
    unfold bind. rewrite Hr.
    assert (ws_inv w' out timer ss1 c) as Hinv'
      by (eapply ws_inv_frame; eauto; eapply ws_result_serial; eauto).
    pose proof (proj1 Hinv') as Hok2. apply loop_ok_spec in Hok2 as (_ & Herr' & _).
    rewrite perror_stderr by assumption. unfold ret.
    eexists _, _, _. split; [reflexivity|].
    split; [apply ws_inv_set_stderr; exact Hinv'|].
    split; [exact Hloc|].
    split; [rewrite sink_bytes_set_stderr, Hb, Hsb1, Hc1, Hclock; reflexivity|].
    split; [rewrite off_sink_set_stderr; congruence|].
    split; [cbn [w_stderr set_stderr]; rewrite He', He1; reflexivity|].
    split; [cbn [w_names set_stderr]; congruence|].
    apply streams_kept_set_stderr.
    eapply streams_kept_trans; [exact Hk1 | eapply streams_kept_keeps; exact Hk'].
Qed.

(** One pass of the loop of wifistats_iterate. *)
Lemma ws_body_spec w out timer c ev ss buf ctr :
  ws_inv w out timer ss c ->
  exists ss' b' w',
    loop_body out timer c ev ss buf ctr w
    = Ret (ss', b', wrap_int (ctr + fired_of ev), 0) w'
    /\ ws_inv w' out timer ss' c
    /\ map locators ss' = map locators ss
    /\ sink_bytes w' out = sink_bytes w out ++ ws_record ev c ss
    /\ off_sink w' out = off_sink w out
    /\ w_stderr w' = w_stderr w ++ ws_diag ev c ss
    /\ w_names w' = w_names w
    /\ streams_kept w w'.
Proof.
  intros Hinv. unfold loop_body.
  unfold bind at 1. unfold bind at 1.
  assert (ws_inv (env_step ev w) out timer ss c) as Hinv0 by exact Hinv.
  pose proof (proj1 Hinv0) as Hok0'. apply loop_ok_spec in Hok0' as (_ & Herr & _ & Htimer).
  rewrite (read_timer_ok _ _ ev Htimer).
  unfold ws_diag, timer_diag.
  destruct (tk_timer ev) as [n|] eqn:Hev.
  - simpl (8 =? 8). unfold bind at 1. unfold ret at 1.
    destruct (ws_capture_emit (env_step ev w) out timer c ev ss buf
                (wrap_int (ctr + fired_of ev)) Hinv0 eq_refl eq_refl)
      as (ss' & b' & w' & Hrun & H1 & H2 & H3 & H4 & H5 & H6 & H7).
    exists ss', b', w'. split; [exact Hrun|]. auto 10.
  - simpl (-1 =? 8). unfold bind at 1.
    rewrite perror_stderr by exact Herr.
    set (w1 := set_stderr _ (env_step ev w)).
    assert (ws_inv w1 out timer ss c) as Hinv1 by (apply ws_inv_set_stderr; exact Hinv0).
    destruct (ws_capture_emit w1 out timer c ev ss buf
                (wrap_int (ctr + fired_of ev)) Hinv1 eq_refl eq_refl)
      as (ss' & b' & w' & Hrun & H1 & H2 & H3 & H4 & H5 & H6 & H7).
    exists ss', b', w'. split; [exact Hrun|].
    split; [exact H1|]. split; [exact H2|]. split; [exact H3|]. split; [exact H4|].
    split; [|split; [exact H6 | exact H7]].
    rewrite H5. subst w1. cbn [w_stderr set_stderr env_step].
    rewrite <- !app_assoc. reflexivity.
Qed.

End WsPass.

Section WsLoop.

Import WifiStats.

Lemma ws_record_locators ev c ss ss' :
  map locators ss' = map locators ss ->
  ws_record ev c ss' = ws_record ev c ss /\ ws_diag ev c ss' = ws_diag ev c ss.
Proof.
  intros H. unfold ws_record, ws_diag.
  rewrite (ws_payload_locators _ _ _ _ H). auto.
Qed.

(** The loop of wifistats_iterate: the passes are those the counter
    allows, and each appends its record. *)
Lemma ws_loop_spec w N out timer c evs ss buf ctr :
  ws_inv w out timer ss c ->
  exists ss' b' e w',
    sample_loop N out timer c evs ss buf ctr w
    = (if snd (passes N evs ctr)
       then Ret (ss', b', ctr_after (fst (passes N evs ctr)) ctr, e) w'
       else Blocked w')
    /\ ws_inv w' out timer ss' c
    /\ map locators ss' = map locators ss
    /\ sink_bytes w' out
       = sink_bytes w out
           ++ concat (map (fun ev => ws_record ev c ss) (fst (passes N evs ctr)))
    /\ off_sink w' out = off_sink w out
    /\ w_stderr w'
       = w_stderr w
           ++ concat (map (fun ev => ws_diag ev c ss) (fst (passes N evs ctr)))
    /\ w_names w' = w_names w
    /\ streams_kept w w'.
Proof.
  intros Hinv. unfold sample_loop.
  pose (P := fun (done : list tick) (w' : world)
                 (s : list station_stats * bytes * Z * Z) =>
    ws_inv w' out timer (fst (fst (fst s))) c
    /\ map locators (fst (fst (fst s))) = map locators ss
    /\ sink_bytes w' out
       = sink_bytes w out ++ concat (map (fun ev => ws_record ev c ss) done)
    /\ off_sink w' out = off_sink w out
    /\ w_stderr w' = w_stderr w ++ concat (map (fun ev => ws_diag ev c ss) done)
    /\ w_names w' = w_names w
    /\ streams_kept w w').
  destruct (do_while_passes
              (fun ev '(stations, buffer, ctr, _) =>
                 loop_body out timer c ev stations buffer ctr)
              (fun '(_, _, ctr, err) => negb (err <? 0) && (ctr <? N))
              (fun s => snd (fst s)) N P) with (evs := evs) (done := @nil tick)
              (s := (ss, buf, ctr, 0)) (w := w)
    as ([[[ss' b'] c'] e] & w' & Hrun & HP & Hctr).
  - intros done ev [[[ss1 b1] c1] e1] w1 (H1 & H2 & H3 & H4 & H5 & H6 & H7).
    cbn [fst snd] in *.
    destruct (ws_body_spec w1 out timer c ev ss1 b1 c1 H1)
      as (ss2 & b2 & w2 & Hrun & G1 & G2 & G3 & G4 & G5 & G6 & G7).
    destruct (ws_record_locators ev c ss ss1 H2) as (Er & Ed).
    exists (ss2, b2, wrap_int (c1 + fired_of ev), 0), w2.
    split; [exact Hrun|]. split; [reflexivity|]. split; [reflexivity|].
    unfold P. cbn [fst snd]. rewrite !concat_map_snoc, !app_assoc.
    split; [exact G1|]. split; [congruence|]. split; [congruence|].
    split; [congruence|]. split; [congruence|]. split; [congruence|].
    eapply streams_kept_trans; eauto.
  - unfold P. simpl. rewrite !app_nil_r. pose proof (streams_kept_refl w). auto 10.
  - cbn [fst snd] in *. destruct HP as (H1 & H2 & H3 & H4 & H5 & H6 & H7).
    exists ss', b', e, w'. rewrite <- Hctr.
    split; [exact Hrun|]. auto 10.
Qed.

End WsLoop.

(** ** wifistats_iterate.c: before and after the loop *)

Section WsSetup.

Import WifiStats.

Lemma serials_ok_open tg w fd w' :
  fd_open tg w = Ret fd w' -> serials_ok w -> serials_ok w'.
Proof.
  intros Hrun Hser.
  destruct (fd_open_spec tg w) as (fd0 & w0 & Hrun0 & _ & _ & Hnew & Hold & Hs & _).
  rewrite Hrun in Hrun0. injection Hrun0 as <- <-.
  intros fd' o Hget. rewrite Hs. destruct (Z.eq_dec fd' fd) as [->|Hne].
  - rewrite Hnew in Hget. injection Hget as <-. cbn. lia.
  - rewrite Hold in Hget by exact Hne. specialize (Hser _ _ Hget). lia.
Qed.

(** The output descriptor: standard output, or a scratch file that has no
    name any more. *)
Lemma ws_open_sink_spec (b : bool) w six :
  stdin_ok w = true -> stderr_ok w = true -> stdout_ok w = true ->
  serials_ok w -> w_tmpname w = Some six ->
  exists out w',
    open_sink b w = Ret out w'
    /\ stdin_ok w' = true /\ stderr_ok w' = true /\ stdout_ok w' = true
    /\ serials_ok w' /\ sink_ok w' out = true
    /\ (if b
        then (exists o, fd_get w' out = Some o /\ of_target o = TScratch)
             /\ w_scratch w' = []
        else out = 1)
    /\ w_stdout w' = w_stdout w /\ w_stderr w' = w_stderr w
    /\ w_dirs w' = w_dirs w.
Proof.
  intros Hin Herr Hout Hser Hsix. unfold open_sink. destruct b.
  - unfold bind at 1. unfold mkstemp. rewrite Hsix.
    change (substring 0 (String.length "/tmp/wifistats_iterateXXXXXX" - 6)
              "/tmp/wifistats_iterateXXXXXX" ++ six)%string
      with ("/tmp/wifistats_iterate" ++ six)%string.
    set (name := ("/tmp/wifistats_iterate" ++ six)%string).
    set (w0 := set_scratch [] (set_names ({[name]} ∪ w_names w) w)).
    destruct (fd_open_spec TScratch w0)
      as (fd & w1 & Hrun & _ & Hfree & Hnew & Hold & Hs & Hrest).
    unfold bind at 1. rewrite Hrun. unfold ret at 1.
    assert (fd <> 0) as Hne.
    { intros ->. unfold stdin_ok in Hin.
      change (fd_get w0 0) with (fd_get w 0) in Hfree. rewrite Hfree in Hin. discriminate. }
    apply Z.eqb_neq in Hne. rewrite Hne. cbn [andb].
    pose proof (fd_open_keep _ _ _ _ Hrun) as Hkeep.
    apply rest_fields in Hrest as (Hn & Hscr & Ho & He & _ & _).
    assert (w_dirs w1 = w_dirs w0) as Hd.
    { unfold fd_open in Hrun. destruct (fd_install _ _) in Hrun.
      injection Hrun as _ <-. reflexivity. }
    unfold bind at 1. unfold bind at 1. unfold unlink.
    assert (bool_decide (name ∈ w_names w1) = true) as ->.
    { apply bool_decide_eq_true. rewrite Hn. cbn. set_unfold. auto. }
    unfold ret at 1. unfold bind, ret.
    eexists _, _. split; [reflexivity|].
    split; [exact (stdin_ok_keep w0 _ Hkeep Hin)|].
    split; [exact (stderr_ok_keep w0 _ Hkeep Herr)|].
    split; [exact (stdout_ok_keep w0 _ Hkeep Hout)|].
    split; [exact (serials_ok_open _ w0 _ _ Hrun Hser)|].
    split.
    { unfold sink_ok. change (fd_get (set_names _ w1) fd) with (fd_get w1 fd).
      rewrite Hnew. cbn. rewrite Hscr. reflexivity. }
    split.
    { split; [eexists; split; [exact Hnew | reflexivity] | exact Hscr]. }
    cbn [w_stdout w_stderr w_dirs set_names]. auto.
  - unfold bind at 1. unfold ret at 1. cbn [andb].
    unfold bind at 1. unfold bind at 1. unfold unlink.
    assert (exists r w', (if bool_decide ("/tmp/wifistats_iterateXXXXXX"%string ∈ w_names w)
                          then Ret 0 (set_names (w_names w ∖ {["/tmp/wifistats_iterateXXXXXX"%string]}) w)
                          else Ret (-1) w) = Ret r w'
              /\ (forall fd, fd_get w' fd = fd_get w fd)
              /\ (w_serial w' = w_serial w /\ w_scratch w' = w_scratch w
                  /\ w_stdout w' = w_stdout w /\ w_stderr w' = w_stderr w
                  /\ w_dirs w' = w_dirs w)) as (r & w' & -> & Hfd & Hsame).
    { destruct (bool_decide _); eexists _, _; (split; [reflexivity|]);
        (split; [reflexivity|]); repeat split. }
    destruct Hsame as (Hser' & Hscr & Ho & He & Hd).
    unfold ret at 1. unfold bind, ret.
    exists 1, w'. split; [reflexivity|].
    unfold stdin_ok, stderr_ok, stdout_ok, sink_ok in *. rewrite !Hfd.
    split; [exact Hin|]. split; [exact Herr|]. split; [exact Hout|].
    split.
    { intros fd o Hget. rewrite Hfd in Hget. rewrite Hser'. eapply Hser, Hget. }
    split.
    { destruct (fd_get w 1) as [o|]; [|discriminate].
      destruct (of_target o); try discriminate. reflexivity. }
    auto.
Qed.

End WsSetup.

Section WsWhole.

Import WifiStats.

Lemma own1_idle h : h <= 0 -> own1 h = [].
Proof. unfold own1. intros H. destruct (Z.ltb_spec 0 h); [lia | reflexivity]. Qed.

Lemma owned_idle l : Forall idle l -> owned l = [].
Proof.
  induction 1 as [|s l (Hr & Ha) _ IH]; [reflexivity|].
  cbn [owned]. unfold owned_by. now rewrite (own1_idle _ Hr), (own1_idle _ Ha), IH.
Qed.

Lemma stations_ok_idle w l : Forall idle l -> stations_ok w l.
Proof.
  intros H. unfold stations_ok. rewrite (owned_idle _ H).
  split; [constructor|]. intros h Hh. now apply elem_of_nil in Hh.
Qed.

(** [setup], given how discovery ends for the directories at hand: it
    exits as discovery does, or leaves the loop its state. *)
Lemma ws_setup_spec a mem w six (r : sum (Z * list station_stats) Z) so se :
  stdin_ok w = true -> stderr_ok w = true -> stdout_ok w = true ->
  serials_ok w -> w_tmpname w = Some six ->
  match r with inl x => 1 <= fst x /\ Forall idle (snd x) | inr _ => True end ->
  (forall w0, w_dirs w0 = w_dirs w -> stderr_ok w0 = true -> stdout_ok w0 = true ->
     discover (dev a) mem w0
     = match r with
       | inl x => Ret x (emit so se w0)
       | inr s => Exit s (emit so se w0)
       end) ->
  match r with
  | inr s =>
      exists w', setup a mem w = Exit s w'
        /\ w_stdout w' = w_stdout w ++ so /\ w_stderr w' = w_stderr w ++ se
  | inl (c, ss) =>
      exists out timer w',
        setup a mem w = Ret (out, timer, c, ss) w'
        /\ ws_inv w' out timer ss c /\ stdout_ok w' = true
        /\ w_stdout w' = w_stdout w ++ so /\ w_stderr w' = w_stderr w ++ se
        /\ (if buffer a
            then (exists o, fd_get w' out = Some o /\ of_target o = TScratch)
                 /\ w_scratch w' = []
            else out = 1)
  end.
Proof.
  intros Hin Herr Hout Hser Hsix HP Hq.
  destruct (ws_open_sink_spec (buffer a) w six Hin Herr Hout Hser Hsix)
    as (out & w1 & Hopen & Hin1 & Herr1 & Hout1 & Hser1 & Hsink1 & Hmode & Ho1 & He1 & Hd1).
  specialize (Hq w1 Hd1 Herr1 Hout1).
  destruct r as [[c ss]|s].
  - unfold setup. unfold bind at 1. rewrite Hopen.
    unfold bind at 1. rewrite Hq.
    cbn [fst snd] in HP. destruct HP as (Hc & Hidle).
    set (w2 := emit so se w1).
    unfold timerfd_create.
    destruct (fd_open_spec TTimer w2)
      as (timer & w3 & Hrun & _ & Hfree & Hnew & Hold & Hs & Hrest).
    unfold bind. rewrite Hrun. unfold ret.
    pose proof (fd_open_keep _ _ _ _ Hrun) as Hkeep.
    pose proof (rest_fields _ _ Hrest) as (_ & Hscr & Ho3 & He3 & _).
    assert (timer <> out) as Hne.
    { intros ->. unfold sink_ok in Hsink1.
      change (fd_get w2 out) with (fd_get w1 out) in Hfree.
      rewrite Hfree in Hsink1. discriminate. }
    exists out, timer, w3. split; [reflexivity|].
    split.
    { split.
      - apply loop_ok_spec.
        split; [exact (stdin_ok_keep w2 _ Hkeep Hin1)|].
        split; [exact (stderr_ok_keep w2 _ Hkeep Herr1)|].
        split.
        + unfold sink_ok in *. rewrite Hold by auto.
          change (fd_get w2 out) with (fd_get w1 out). rewrite Hscr. exact Hsink1.
        + unfold timer_ok. rewrite Hnew. reflexivity.
      - split; [exact (serials_ok_open _ w2 _ _ Hrun Hser1)|].
        apply stations_ok_idle. now apply Forall_take. }
    split; [exact (stdout_ok_keep w2 _ Hkeep Hout1)|].
    split; [rewrite Ho3; cbn; now rewrite Ho1|].
    split; [rewrite He3; cbn; now rewrite He1|].
    destruct (buffer a).
    + destruct Hmode as ((o & Hget & Ht) & Hs1). split.
      * exists o. split; [|exact Ht]. apply Hkeep. exact Hget.
      * rewrite Hscr. exact Hs1.
    + exact Hmode.
  - unfold setup. unfold bind at 1. rewrite Hopen.
    unfold bind at 1. rewrite Hq.
    eexists. split; [reflexivity|]. cbn. now rewrite Ho1, He1.
Qed.

Lemma close_loop_rest cnt : forall ss w,
  exists w', close_loop cnt ss w = Ret tt w' /\ rest w' = rest w.
Proof.
  induction cnt as [|cnt IH]; intros ss w; cbn [close_loop].
  - destruct ss; eexists; split; reflexivity.
  - destruct ss as [|s ss]; [eexists; split; reflexivity|].
    destruct (sys_close_spec w (rc_stats s)) as (r1 & w1 & H1 & R1).
    destruct (sys_close_spec w1 (airtime s)) as (r2 & w2 & H2 & R2).
    destruct (IH ss w2) as (w3 & H3 & R3).
    unfold bind. rewrite H1, H2, H3. exists w3. split; [reflexivity | congruence].
Qed.

(** The end of [run]: the descriptors are closed; in buffered mode the
    scratch file goes to standard output first. *)
Lemma ws_finish_spec (b : bool) out timer ss c buf w :
  stdout_ok w = true ->
  (if b then exists o, fd_get w out = Some o /\ of_target o = TScratch else True) ->
  exists w',
    ((if b then
        sys_rewind out ;;
        FileIterate.copy_back out buf ;;
        ret tt
      else ret tt) ;;
     sys_close out ;;
     sys_close timer ;;
     stations_close ss c ;;
     ret 0) w = Ret 0 w'
    /\ w_stdout w' = (if b then w_stdout w ++ w_scratch w else w_stdout w)
    /\ w_stderr w' = w_stderr w.
Proof.
  intros Hout Hmode.
  assert (forall w1, exists w',
            (sys_close out ;; sys_close timer ;; stations_close ss c ;; ret 0) w1 = Ret 0 w'
            /\ rest w' = rest w1) as Htail.
  { intros w1.
    destruct (sys_close_spec w1 out) as (r1 & w2 & H1 & R1).
    destruct (sys_close_spec w2 timer) as (r2 & w3 & H2 & R2).
    destruct (close_loop_rest (Z.to_nat c) ss w3) as (w4 & H3 & R3).
    unfold stations_close, bind. rewrite H1, H2, H3. unfold ret.
    exists w4. split; [reflexivity | congruence]. }
  destruct b.
  - destruct Hmode as (o & Hget & Htg).
    unfold bind at 1. unfold bind at 1. unfold sys_rewind. rewrite Hget, Htg.
    set (w1 := fd_seek out o 0 w).
    pose proof (fd_get_nonneg _ _ _ Hget) as Hnn.
    assert (out <> 1) as Hne.
    { intros ->. unfold stdout_ok in Hout. rewrite Hget, Htg in Hout. discriminate. }
    assert (stdout_ok w1 = true) as Hout1.
    { unfold stdout_ok, w1. rewrite fd_get_seek_ne by auto. exact Hout. }
    pose proof (fd_get_seek_eq w out o 0%nat Hget) as Hget1. fold w1 in Hget1.
    unfold bind at 1. unfold FileIterate.copy_back.
    destruct (copy_loop_spec (S (length (w_scratch w1))) w1 out buf _ Hget1 Htg Hout1)
      as (b' & w2 & Hrun & H1 & H2 & _).
    { cbn [of_pos]. rewrite drop_0. lia. }
    rewrite Hrun. cbn [of_pos] in H1. rewrite drop_0 in H1.
    unfold ret at 1.
    destruct (Htail w2) as (w' & Hrun' & Hrest).
    rewrite Hrun'. exists w'. split; [reflexivity|].
    apply rest_fields in Hrest as (_ & _ & -> & -> & _). auto.
  - unfold bind at 1. unfold ret at 1.
    destruct (Htail w) as (w' & Hrun' & Hrest).
    rewrite Hrun'. exists w'. split; [reflexivity|].
    apply rest_fields in Hrest as (_ & _ & -> & -> & _). auto.
Qed.

End WsWhole.

Section WsObserve.

Import WifiStats.

(** wifistats_iterate as a whole, started with the three standard
    streams: what it shows is [ws_behaviour]. *)
Lemma ws_run_observe a mem files dirs clock six evs
    (r : sum (Z * list station_stats) Z) so se :
  match r with inl x => 1 <= fst x /\ Forall idle (snd x) | inr _ => True end ->
  (forall w0, w_dirs w0 = dirs -> stderr_ok w0 = true -> stdout_ok w0 = true ->
     discover (dev a) mem w0
     = match r with
       | inl x => Ret x (emit so se w0)
       | inr s => Exit s (emit so se w0)
       end) ->
  observe (run a mem evs (init_world files dirs clock (Some six)))
  = ws_behaviour (buffer a) r so se (count a) evs.
Proof.
  intros HP Hq.
  set (wi := init_world files dirs clock (Some six)).
  assert (serials_ok wi) as Hser by (apply serials_okb_sound; reflexivity).
  pose proof (ws_setup_spec a mem wi six r so se eq_refl eq_refl eq_refl Hser eq_refl HP Hq)
    as Hsetup.
  unfold ws_behaviour, run.
  destruct r as [[c ss]|s].
  - destruct Hsetup as (out & timer & w1 & Hrun & Hinv & Hout1 & Ho1 & He1 & Hmode).
    cbn [w_stdout w_stderr wi init_world app] in Ho1, He1.
    unfold bind at 1. rewrite Hrun.
    destruct (ws_loop_spec w1 (count a) out timer c evs ss [] 0 Hinv)
      as (ss' & b' & e & w2 & Hloop & Hinv2 & Hloc & Hsink & Hoff & Herr2 & _ & Hkept).
    unfold bind at 1. rewrite Hloop.
    set (recs := concat (map (fun ev => ws_record ev c ss) (fst (passes (count a) evs 0)))) in *.
    set (diags := concat (map (fun ev => ws_diag ev c ss) (fst (passes (count a) evs 0)))) in *.
    pose proof (stdout_ok_streams _ _ Hkept Hout1) as Hout2.
    assert (w_stdout w2 = (if buffer a then so else so ++ recs)
            /\ (if buffer a
                then (exists o, fd_get w2 out = Some o /\ of_target o = TScratch)
                     /\ w_scratch w2 = recs
                else True)) as (Ho2 & Hmode2).
    { destruct (buffer a).
      - destruct Hmode as ((o & Hget & Htg) & Hscr).
        destruct (Hkept out o Hget) as (o' & Hget' & Htg'); [now rewrite Htg|].
        rewrite Htg in Htg'.
        destruct (scratch_sink _ _ _ Hget Htg) as (S1 & O1).
        destruct (scratch_sink _ _ _ Hget' Htg') as (S2 & O2).
        rewrite S1, S2, Hscr in Hsink. rewrite O1, O2 in Hoff.
        split; [congruence|]. split; [eauto | exact Hsink].
      - subst out. rewrite !stdout_sink in Hsink by assumption.
        split; [congruence | exact I]. }
    destruct (snd (passes (count a) evs 0)).
    + destruct (ws_finish_spec (buffer a) out timer ss' c b' w2 Hout2)
        as (w3 & Hfin & Ho3 & He3).
      { destruct (buffer a); [tauto | exact I]. }
      rewrite Hfin. unfold observe. rewrite Ho3, He3, Herr2, He1, Ho2.
      destruct (buffer a); [|reflexivity].
      destruct Hmode2 as (_ & ->). reflexivity.
    + unfold observe. rewrite Herr2, He1, Ho2. reflexivity.
  - destruct Hsetup as (w1 & Hrun & Ho1 & He1).
    unfold bind. rewrite Hrun. unfold observe. rewrite Ho1, He1. reflexivity.
Qed.

End WsObserve.

(** ** tc_iterate.c as a whole *)

Section TcObserve.

Import TcIterate.




End TcObserve.

(** * Further properties of the three programs *)

(** ** Buffered and direct runs *)

Section RoundTrip.






End RoundTrip.

(** ** What a whole run shows *)

Section WholeRuns.





(** X7: the loop is a [do ... while]: when the first timer read already
    brings the counter to the target (as with [-c 0], or a negative
    count), file_iterate still makes one pass and writes one record, and
    then returns without looking at a further tick. *)
Theorem file_iterate_makes_one_pass (cnt : Z) (f : string) (b : bool)
    (files : gmap string bytes) (dirs : gmap string (list string))
    (clock : timespec) (six : string) (ev : tick) (evs : list tick)
    (c : byte) (l : bytes) :
  files !! f = Some (c :: l) ->
  cnt <= wrap_int (fired_of ev) ->
  observe (FileIterate.run
             {| FileIterate.count := cnt; FileIterate.filename := Some f;
                FileIterate.buffer := b |}
             (ev :: evs) (init_world files dirs clock (Some six)))
  = (Returned 0, fi_record ev f, fi_diag ev f).
Proof.
  intros Hf Hc. rewrite fi_run_observe.
  cbn [FileIterate.buffer FileIterate.count FileIterate.filename].
  unfold fi_behaviour. rewrite Hf. cbn [passes]. rewrite Z.add_0_l.
  destruct (Z.ltb_spec (wrap_int (fired_of ev)) cnt) as [|_]; [lia|].
  cbn [fst snd map concat]. now rewrite !app_nil_r.
Qed.

Lemma file_iterate_makes_one_pass_witness :
  scenario_files (lit "X") !! "/x"%string = Some ("4"%byte :: lit "2" ++ [NL])
  /\ 0 <= wrap_int (fired_of (ev_scenario (lit "X")))
  /\ observe (FileIterate.run
                {| FileIterate.count := 0; FileIterate.filename := Some "/x"%string;
                   FileIterate.buffer := true |}
                [ev_scenario (lit "X"); ev_scenario (lit "X")] (w_scenario (lit "X")))
     = (Returned 0, fi_record (ev_scenario (lit "X")) "/x",
        fi_diag (ev_scenario (lit "X")) "/x").
Proof.
  assert (scenario_files (lit "X") !! "/x"%string = Some ("4"%byte :: lit "2" ++ [NL]))
    as H1 by (vm_compute; reflexivity).
  assert (0 <= wrap_int (fired_of (ev_scenario (lit "X")))) as H2
    by (vm_compute; discriminate).
  split; [exact H1|]. split; [exact H2|].
  exact (file_iterate_makes_one_pass 0 "/x" true (scenario_files (lit "X")) scenario_dirs
           {| tv_sec := 100; tv_nsec := 5 |} "abcdef" (ev_scenario (lit "X"))
           [ev_scenario (lit "X")] "4"%byte (lit "2" ++ [NL]) H1 H2).
Defined.

End WholeRuns.

(** ** Edges of the emitter *)

Section EmitterEdges.

(** X8: a file of more than [BUFFERSIZE - 41] bytes never gives a record:
    in each pass file_iterate reads it (up to [BUFFERSIZE] bytes), finds no
    room for the time line, writes nothing to its output and leaves the
    16 bytes of "Buffer Overrun\n" on descriptor 2; the pass still counts
    and the loop goes on. *)
Theorem oversized_file_gives_no_snapshot (w : world) (fname : string)
    (out timer : Z) (ev : tick) (buffer data : bytes) (ctr : Z) :
  loop_ok w out timer = true ->
  tk_files ev !! fname = Some data ->
  FileIterate.BUFFERSIZE - 40 <= Z.of_nat (length data) ->
  exists b' w',
    FileIterate.loop_body fname out timer ev buffer ctr w
    = Ret (b', wrap_int (ctr + fired_of ev)) w'
    /\ sink_bytes w' out = sink_bytes w out
    /\ w_stderr w' = w_stderr w ++ timer_diag ev ++ [DBytes overrun_warning]
    /\ loop_ok w' out timer = true.
Proof.
  intros Hok Hf Hlen.
  destruct (fi_body_spec w fname out timer ev buffer ctr Hok)
    as (b' & w' & Hrun & Hok' & Hsink & _ & Herr & _).
  exists b', w'. split; [exact Hrun|].
  unfold fi_record, fi_diag, fi_payload in *. rewrite Hf in *.
  assert (FileIterate.BUFFERSIZE - 40
          <= Z.of_nat (length (take (Z.to_nat FileIterate.BUFFERSIZE) data))) as Hp.
  { rewrite length_take. unfold FileIterate.BUFFERSIZE in *. lia. }
  destruct (Z.ltb_spec 40 (FileIterate.BUFFERSIZE
                           - Z.of_nat (length (take (Z.to_nat FileIterate.BUFFERSIZE) data))))
    as [|_]; [lia|].
  destruct (Z.ltb_spec 0 (Z.of_nat (length (take (Z.to_nat FileIterate.BUFFERSIZE) data))))
    as [_|]; [|unfold FileIterate.BUFFERSIZE in *; lia].
  rewrite app_nil_r in Hsink, Herr. auto.
Qed.

Lemma oversized_file_gives_no_snapshot_witness :
  let data := repeat "x"%byte (Z.to_nat 1048536) in
  let ev := {| tk_timer := Some 1; tk_junk := 0;
               tk_files := <["/x"%string := data]> ∅;
               tk_clock := {| tv_sec := 100; tv_nsec := 5 |}; tk_pipe := None |} in
  loop_ok w_timer 1 3 = true
  /\ tk_files ev !! "/x"%string = Some data
  /\ FileIterate.BUFFERSIZE - 40 <= Z.of_nat (length data)
  /\ exists b' w',
       FileIterate.loop_body "/x" 1 3 ev [] 0 w_timer
       = Ret (b', wrap_int (0 + fired_of ev)) w'
       /\ sink_bytes w' 1 = sink_bytes w_timer 1
       /\ w_stderr w' = w_stderr w_timer ++ timer_diag ev ++ [DBytes overrun_warning].
Proof.
  intros data ev.
  assert (tk_files ev !! "/x"%string = Some data) as H2 by apply lookup_insert_eq.
  assert (FileIterate.BUFFERSIZE - 40 <= Z.of_nat (length data)) as H3.
  { unfold data. rewrite repeat_length. unfold FileIterate.BUFFERSIZE. lia. }
  split; [reflexivity|]. split; [exact H2|]. split; [exact H3|].
  destruct (oversized_file_gives_no_snapshot w_timer "/x" 1 3 ev [] data 0 eq_refl H2 H3)
    as (b' & w' & R1 & R2 & R3 & _).
  exists b', w'. auto.
Defined.

(** X9: the time line [result] of wifistats_iterate formats into
    [char mtime[40]] fits: for a clock reading with a non-negative count
    of seconds, the line and the NUL that ends it take at most 37 bytes. *)
Theorem time_line_fits_mtime (t : timespec) :
  sane_clock t -> (length (time_line t ++ [NUL]) <= 37)%nat.
Proof.
  intros H. rewrite length_app. pose proof (time_line_length t H). cbn [length]. lia.
Qed.

Lemma time_line_fits_mtime_witness :
  sane_clock {| tv_sec := 2 ^ 63 - 1; tv_nsec := 999999999 |}
  /\ (length (time_line {| tv_sec := 2 ^ 63 - 1; tv_nsec := 999999999 |} ++ [NUL]) <= 37)%nat.
Proof.
  assert (sane_clock {| tv_sec := 2 ^ 63 - 1; tv_nsec := 999999999 |}) as H
    by (unfold sane_clock; cbn [tv_sec tv_nsec]; lia).
  split; [exact H|]. exact (time_line_fits_mtime _ H).
Defined.

(** X10: [result] of wifistats_iterate returns 0 or 1 and nothing else,
    so the test [err < 0] after it in [run] never holds and the loop never
    ends by its [break].  When the output descriptor is not open (and
    there is room in the buffer) the value is 1 and the only trace is the
    line "Write failed - out of disk?". *)
Theorem write_error_never_breaks (out size bufsize : Z) (buffer : bytes)
    (w w' : world) (r : Z) :
  WifiStats.result out size bufsize buffer w = Ret r w' ->
  (r = 0 \/ r = 1) /\ (r <? 0) = false
  /\ (fd_get w out = None -> stderr_ok w = true -> 40 < bufsize - size ->
      r = 1
      /\ w' = set_stderr (w_stderr w ++ [DPerror "Write failed - out of disk?"]) w).
Proof.
  unfold WifiStats.result, bind, clock_gettime, WifiStats.sys_writev.
  intros Hrun.
  assert ((r = 0 \/ r = 1)
          /\ (fd_get w out = None -> stderr_ok w = true -> 40 < bufsize - size ->
              r = 1
              /\ w' = set_stderr (w_stderr w ++ [DPerror "Write failed - out of disk?"]) w))
    as (H1 & H2).
  { destruct (Z.ltb_spec 40 (bufsize - size)) as [Hroom|Hfull].
    - destruct (sys_write out _ w) as [r1 w1| | |] eqn:E; try discriminate.
      destruct (Z.eqb_spec r1 (-1)) as [->|Hne].
      + destruct (perror _ w1) as [u w2| | |] eqn:E2; try discriminate.
        unfold ret in Hrun. injection Hrun as <- <-.
        split; [auto|]. intros Hnone Herr _.
        unfold sys_write in E. rewrite Hnone in E. injection E as <-.
        rewrite (perror_stderr _ _ Herr) in E2. injection E2 as <-. auto.
      + unfold ret in Hrun. injection Hrun as <- <-.
        split; [auto|]. intros Hnone _ _.
        unfold sys_write in E. rewrite Hnone in E. injection E as E _. congruence.
    - destruct (sys_write 2 _ w) as [r1 w1| | |] eqn:E; try discriminate.
      unfold ret in Hrun. injection Hrun as <- <-.
      split; [auto|]. intros _ _ ?. lia. }
  split; [exact H1|]. split; [|exact H2]. destruct H1 as [-> | ->]; reflexivity.
Qed.

Lemma write_error_never_breaks_witness :
  WifiStats.result (-1) 0 WifiStats.BUFFERSIZE [] w_demo
  = Ret 1 (set_stderr (w_stderr w_demo ++ [DPerror "Write failed - out of disk?"]) w_demo)
  /\ (1 <? 0) = false.
Proof.
  assert (WifiStats.result (-1) 0 WifiStats.BUFFERSIZE [] w_demo
          = Ret 1 (set_stderr (w_stderr w_demo ++ [DPerror "Write failed - out of disk?"])
                              w_demo)) as H by reflexivity.
  split; [exact H|].
  exact (proj1 (proj2 (write_error_never_breaks _ _ _ _ _ _ _ H))).
Defined.

End EmitterEdges.

(** ** Looking for the device *)

Section DeviceLookup.

Import WifiStats.

Lemma set_stderr_nil w : set_stderr (w_stderr w ++ []) w = w.
Proof. destruct w. unfold set_stderr. cbn. now rewrite app_nil_r. Qed.

Lemma set_stderr_app w d1 d2 :
  set_stderr (w_stderr (set_stderr (w_stderr w ++ d1) w) ++ d2)
             (set_stderr (w_stderr w ++ d1) w)
  = set_stderr (w_stderr w ++ d1 ++ d2) w.
Proof. unfold set_stderr. cbn. now rewrite app_assoc. Qed.

Lemma dir_exists_none w dir :
  stderr_ok w = true -> w_dirs w !! dir = None ->
  dir_exists dir w = Ret None (set_stderr (w_stderr w ++ [failed_open]) w).
Proof.
  intros He Hd. unfold dir_exists. rewrite Hd. unfold bind.
  rewrite (perror_stderr _ _ He). reflexivity.
Qed.

Lemma dir_exists_some w dir entries :
  w_dirs w !! dir = Some entries -> dir_exists dir w = Ret (Some entries) w.
Proof. intros Hd. unfold dir_exists. now rewrite Hd. Qed.

Lemma wifi_where_from_found dev n : forall i w j,
  stderr_ok w = true ->
  i <= j < i + Z.of_nat n ->
  w_dirs w !! stations_dir j dev <> None ->
  (forall k, i <= k < j -> w_dirs w !! stations_dir k dev = None) ->
  wifi_where_from n i dev w
  = Ret j (set_stderr (w_stderr w ++ repeat failed_open (Z.to_nat (j - i))) w).
Proof.
  induction n as [|n IH]; intros i w j He Hj Hsome Hnone; [lia|].
  cbn [wifi_where_from]. unfold bind.
  destruct (Z.eq_dec i j) as [->|Hne].
  - destruct (w_dirs w !! stations_dir j dev) as [entries|] eqn:E; [|congruence].
    rewrite (dir_exists_some _ _ _ E). unfold ret.
    rewrite Z.sub_diag. cbn [Z.to_nat repeat]. now rewrite set_stderr_nil.
  - rewrite (dir_exists_none _ _ He) by (apply Hnone; lia).
    rewrite (IH (i + 1) (set_stderr (w_stderr w ++ [failed_open]) w) j He) by (try exact Hsome; try lia; intros k Hk; apply Hnone; lia).
    rewrite set_stderr_app. do 2 f_equal. f_equal.
    replace (Z.to_nat (j - i)) with (S (Z.to_nat (j - (i + 1)))) by lia.
    reflexivity.
Qed.

Lemma wifi_where_from_none dev n : forall i w,
  stderr_ok w = true ->
  (forall k, i <= k < i + Z.of_nat n -> w_dirs w !! stations_dir k dev = None) ->
  wifi_where_from n i dev w
  = Ret (-1) (set_stderr (w_stderr w ++ repeat failed_open n) w).
Proof.
  induction n as [|n IH]; intros i w He Hnone; cbn [wifi_where_from].
  - unfold ret. cbn [repeat]. now rewrite set_stderr_nil.
  - unfold bind. rewrite (dir_exists_none _ _ He) by (apply Hnone; lia).
    rewrite (IH (i + 1) (set_stderr (w_stderr w ++ [failed_open]) w) He) by (intros k Hk; apply Hnone; lia).
    rewrite set_stderr_app. reflexivity.
Qed.

(** X11: [wifi_where] returns the lowest of the numbers 0..9 whose
    phy has a stations directory for the device, after one "Failed to
    open stations directory" line for each lower number; when none of the
    ten has one, it returns -1 after ten such lines. *)
Theorem wifi_where_finds_first_phy (dev : string) (w : world) :
  stderr_ok w = true ->
  (forall j, 0 <= j < 10 ->
     w_dirs w !! stations_dir j dev <> None ->
     (forall k, 0 <= k < j -> w_dirs w !! stations_dir k dev = None) ->
     wifi_where dev w
     = Ret j (set_stderr (w_stderr w ++ repeat failed_open (Z.to_nat j)) w))
  /\ ((forall k, 0 <= k < 10 -> w_dirs w !! stations_dir k dev = None) ->
      wifi_where dev w
      = Ret (-1) (set_stderr (w_stderr w ++ repeat failed_open 10) w)).
Proof.
  intros He. unfold wifi_where. split.
  - intros j Hj Hsome Hnone.
    rewrite (wifi_where_from_found dev 10 0 w j He) by (try assumption; lia).
    now rewrite Z.sub_0_r.
  - intros Hnone. apply wifi_where_from_none; [exact He|].
    intros k Hk. apply Hnone. lia.
Qed.

Lemma wifi_where_finds_first_phy_witness :
  stderr_ok w_crowd = true
  /\ w_dirs w_crowd !! stations_dir 1 "wlan0" <> None
  /\ (forall k, 0 <= k < 1 -> w_dirs w_crowd !! stations_dir k "wlan0" = None)
  /\ wifi_where "wlan0" w_crowd
     = Ret 1 (set_stderr (w_stderr w_crowd ++ repeat failed_open (Z.to_nat 1)) w_crowd).
Proof.
  assert (w_dirs w_crowd !! stations_dir 1 "wlan0" <> None) as H2.
  { unfold w_crowd, init_world. cbn [w_dirs]. rewrite lookup_insert_eq. discriminate. }
  assert (forall k, 0 <= k < 1 -> w_dirs w_crowd !! stations_dir k "wlan0" = None) as H3.
  { intros k Hk. assert (k = 0) as -> by lia. vm_compute. reflexivity. }
  split; [reflexivity|]. split; [exact H2|]. split; [exact H3|].
  exact (proj1 (wifi_where_finds_first_phy "wlan0" w_crowd eq_refl) 1 ltac:(lia) H2 H3).
Defined.

Lemma usage_spec {A} e w :
  stderr_ok w = true -> stdout_ok w = true ->
  @usage A (Some e) w
  = Exit (-1) (emit (lit "wifistats_iterate [options]" ++ [NL] ++ usage_options)
                    [DBytes (lit e ++ [NL])] w).
Proof.
  intros He Ho. unfold usage, print_stderr, print_stdout, bind, STDOUT_FILENO.
  rewrite (sys_write_stderr _ _ He). unfold ret.
  rewrite (sys_write_stdout (set_stderr _ w) _ Ho).
  rewrite (sys_write_stdout (set_stdout _ (set_stderr _ w)) _ Ho).
  unfold exit, emit, set_stderr, set_stdout. cbn. f_equal.
  f_equal. now rewrite <- !app_assoc.
Qed.

Lemma emit_set_stderr so d1 d2 w :
  emit so d2 (set_stderr (w_stderr w ++ d1) w) = emit so (d1 ++ d2) w.
Proof. unfold emit, set_stderr, set_stdout. cbn. now rewrite app_assoc. Qed.

(** X12: wifistats_iterate without a device to sample.  With no [-i] it
    exits with -1 after "Must specify wifi device" and the usage text.
    With a device that has no stations directory under phy0..phy9 (nor
    under the name made with -1) it exits with -1 after eleven "Failed to
    open stations directory" lines, "No stations found" and the usage
    text.  With a directory that lists no station it exits the same way
    after one such line per lower phy.  In each case the ticks are not
    looked at and nothing else is written. *)
Theorem wifistats_exits_without_stations (a : args) (mem : list station_stats)
    (files : gmap string bytes) (dirs : gmap string (list string))
    (clock : timespec) (six : string) (evs : list tick) :
  (dev a = None ->
   observe (run a mem evs (init_world files dirs clock (Some six)))
   = (Exited (-1), lit "wifistats_iterate [options]" ++ [NL] ++ usage_options,
      [DBytes (lit "Must specify wifi device" ++ [NL])]))
  /\ (forall d, dev a = Some d ->
        (forall k, -1 <= k < 10 -> dirs !! stations_dir k d = None) ->
        observe (run a mem evs (init_world files dirs clock (Some six)))
        = (Exited (-1), lit "wifistats_iterate [options]" ++ [NL] ++ usage_options,
           repeat failed_open 11 ++ [DBytes (lit "No stations found" ++ [NL])]))
  /\ (forall d j entries, dev a = Some d ->
        0 <= j < 10 ->
        dirs !! stations_dir j d = Some entries ->
        (forall k, 0 <= k < j -> dirs !! stations_dir k d = None) ->
        count_loop entries 0 = 0 ->
        observe (run a mem evs (init_world files dirs clock (Some six)))
        = (Exited (-1), lit "wifistats_iterate [options]" ++ [NL] ++ usage_options,
           repeat failed_open (Z.to_nat j)
             ++ [DBytes (lit "No stations found" ++ [NL])])).
Proof.
  split; [|split].
  - intros Hdev.
    rewrite (ws_run_observe a mem files dirs clock six evs (inr (-1))
               (lit "wifistats_iterate [options]" ++ [NL] ++ usage_options)
               [DBytes (lit "Must specify wifi device" ++ [NL])] I); [reflexivity|].
    intros w0 _ He Ho. rewrite Hdev. unfold discover. unfold bind at 1.
    now rewrite (usage_spec _ _ He Ho).
  - intros d Hdev Hnone.
    rewrite (ws_run_observe a mem files dirs clock six evs (inr (-1))
               (lit "wifistats_iterate [options]" ++ [NL] ++ usage_options)
               (repeat failed_open 11 ++ [DBytes (lit "No stations found" ++ [NL])]) I);
      [reflexivity|].
    intros w0 Hd He Ho. rewrite Hdev. unfold discover.
    unfold bind at 1. unfold ret at 1. unfold bind at 1.
    unfold count_stations, wifi_where. unfold bind at 1.
    rewrite (wifi_where_from_none d 10 0 w0 He)
      by (intros k Hk; rewrite Hd; apply Hnone; lia).
    unfold bind at 1.
    rewrite (dir_exists_none (set_stderr _ w0) _ He)
      by (cbn [w_dirs set_stderr]; rewrite Hd; apply Hnone; lia).
    unfold ret at 1. rewrite set_stderr_app.
    change (0 <? -1) with false. cbv iota. unfold bind at 1.
    rewrite (usage_spec _ (set_stderr _ w0) He Ho). rewrite emit_set_stderr.
    replace (repeat failed_open 10 ++ [failed_open]) with (repeat failed_open 11)
      by reflexivity.
    reflexivity.
  - intros d j entries Hdev Hj Hsome Hnone Hcount.
    rewrite (ws_run_observe a mem files dirs clock six evs (inr (-1))
               (lit "wifistats_iterate [options]" ++ [NL] ++ usage_options)
               (repeat failed_open (Z.to_nat j)
                  ++ [DBytes (lit "No stations found" ++ [NL])]) I);
      [reflexivity|].
    intros w0 Hd He Ho. rewrite Hdev. unfold discover.
    unfold bind at 1. unfold ret at 1. unfold bind at 1.
    unfold count_stations, wifi_where. unfold bind at 1.
    rewrite (wifi_where_from_found d 10 0 w0 j He)
      by (first [lia | rewrite Hd; congruence | rewrite Hd; exact Hnone]).
    rewrite Z.sub_0_r. unfold bind at 1.
    rewrite (dir_exists_some _ _ entries) by (cbn [w_dirs set_stderr]; rewrite Hd; exact Hsome).
    unfold ret at 1. rewrite Hcount.
    change (0 <? 0) with false. cbv iota. unfold bind at 1.
    rewrite (usage_spec _ (set_stderr _ w0) He Ho). rewrite emit_set_stderr. reflexivity.
Qed.

Lemma wifistats_exits_without_stations_witness :
  observe (run {| count := 3; dev := None; buffer := true |} scenario_mem
               [ev_scenario (lit "X")] (w_scenario (lit "X")))
  = (Exited (-1), lit "wifistats_iterate [options]" ++ [NL] ++ usage_options,
     [DBytes (lit "Must specify wifi device" ++ [NL])]).
Proof.
  exact (proj1 (wifistats_exits_without_stations
                  {| count := 3; dev := None; buffer := true |} scenario_mem
                  (scenario_files (lit "X")) scenario_dirs
                  {| tv_sec := 100; tv_nsec := 5 |} "abcdef" [ev_scenario (lit "X")])
               eq_refl).
Defined.

End DeviceLookup.

(** ** The station array *)

Section StationArray.

Import WifiStats.

Lemma wifi_where_from_same dev n : forall i w w',
  stderr_ok w = true -> stderr_ok w' = true -> w_dirs w' = w_dirs w ->
  exists phy (k : nat),
    wifi_where_from n i dev w
    = Ret phy (set_stderr (w_stderr w ++ repeat failed_open k) w)
    /\ wifi_where_from n i dev w'
       = Ret phy (set_stderr (w_stderr w' ++ repeat failed_open k) w').
Proof.
  induction n as [|n IH]; intros i w w' He He' Hd; cbn [wifi_where_from].
  - exists (-1), 0%nat. unfold ret. cbn [repeat]. now rewrite !set_stderr_nil.
  - unfold bind. destruct (w_dirs w !! stations_dir i dev) as [entries|] eqn:E.
    + rewrite (dir_exists_some w _ _ E).
      rewrite (dir_exists_some w' _ entries) by (rewrite Hd; exact E).
      exists i, 0%nat. unfold ret. cbn [repeat]. now rewrite !set_stderr_nil.
    + rewrite (dir_exists_none w _ He E).
      rewrite (dir_exists_none w' _ He') by (rewrite Hd; exact E).
      destruct (IH (i + 1) (set_stderr (w_stderr w ++ [failed_open]) w)
                  (set_stderr (w_stderr w' ++ [failed_open]) w') He He' Hd)
        as (phy & k & H1 & H2).
      exists phy, (S k). rewrite H1, H2, !set_stderr_app. auto.
Qed.

(** X13: the array [run] allocates is large enough for [stations_open]:
    when [count_stations] returned [c] and the directories have not
    changed since, [stations_open] with the limit 512 returns at most [c]
    and at most 257, so that for [c > 0] the last record it writes, the
    one at the index it returns, lies within the [2 * c] records. *)
Theorem stations_open_within_allocation (dev : string)
    (stations : list station_stats) (w w1 w2 : world) (c r : Z)
    (ss' : list station_stats) :
  stderr_ok w = true ->
  count_stations dev w = Ret c w1 ->
  stations_open dev stations 512 w1 = Ret (r, ss') w2 ->
  r <= c /\ r <= 257 /\ (0 < c -> 0 <= r /\ r + 1 <= 2 * c).
Proof.
  intros He Hcount Hopen.
  assert (stderr_ok w1 = true /\ w_dirs w1 = w_dirs w
          /\ exists phy,
               (c = match w_dirs w !! stations_dir phy dev with
                    | Some entries => count_loop entries 0
                    | None => -1
                    end)
               /\ forall w', stderr_ok w' = true -> w_dirs w' = w_dirs w ->
                    exists k : nat,
                      wifi_where dev w'
                      = Ret phy (set_stderr (w_stderr w' ++ repeat failed_open k) w'))
    as (He1 & Hd1 & phy & Hc & Hphy).
  { unfold count_stations, wifi_where in Hcount. unfold bind at 1 in Hcount.
    destruct (wifi_where_from_same dev 10 0 w w He He eq_refl) as (phy & k & H1 & _).
    rewrite H1 in Hcount. unfold bind at 1 in Hcount.
    set (wa := set_stderr (w_stderr w ++ repeat failed_open k) w) in *.
    assert (exists phy0, phy0 = phy) as _ by eauto.
    destruct (w_dirs w !! stations_dir phy dev) as [entries|] eqn:E.
    - rewrite (dir_exists_some wa _ entries E) in Hcount.
      unfold ret in Hcount. injection Hcount as <- <-.
      split; [exact He|]. split; [reflexivity|]. exists phy. rewrite E.
      split; [reflexivity|]. intros w' He' Hd'.
      destruct (wifi_where_from_same dev 10 0 w w' He He' Hd') as (phy' & k' & H1' & H2').
      rewrite H1 in H1'. injection H1' as <- _. eauto.
    - rewrite (dir_exists_none wa _ He E) in Hcount.
      unfold ret in Hcount. injection Hcount as <- <-.
      split; [exact He|]. split; [reflexivity|]. exists phy. rewrite E.
      split; [reflexivity|]. intros w' He' Hd'.
      destruct (wifi_where_from_same dev 10 0 w w' He He' Hd') as (phy' & k' & H1' & H2').
      rewrite H1 in H1'. injection H1' as <- _. eauto. }
  destruct (Hphy w1 He1 Hd1) as (k & Hw).
  unfold stations_open in Hopen. cbv zeta in Hopen. unfold bind at 1 in Hopen.
  rewrite Hw in Hopen. unfold bind at 1 in Hopen.
  set (wb := set_stderr (w_stderr w1 ++ repeat failed_open k) w1) in *.
  change (512 `quot` 2) with 256 in Hopen.
  destruct (w_dirs w !! stations_dir phy dev) as [entries|] eqn:E.
  - rewrite (dir_exists_some wb _ entries) in Hopen by (cbn; rewrite Hd1; exact E).
    destruct (open_loop_spec (stations_dir phy dev) 256 entries
                (alter (set_handles (-1) (-1)) (Z.to_nat 0) stations) 0 wb He1 ltac:(lia))
      as (st' & cnt' & w' & Hloop & Hcnt & _).
    unfold bind in Hopen. rewrite Hloop in Hopen.
    unfold ret in Hopen. injection Hopen as <- _ _.
    pose proof (count_loop_nonneg entries). rewrite Z.add_0_l in Hcnt.
    destruct (Z.leb_spec (count_loop entries 0) 256); destruct Hcnt as (-> & _); lia.
  - rewrite (dir_exists_none wb _ He1) in Hopen by (cbn; rewrite Hd1; exact E).
    unfold ret in Hopen. injection Hopen as <- _ _. lia.
Qed.

Lemma stations_open_within_allocation_witness :
  let w := init_world ∅ scenario_dirs {| tv_sec := 100; tv_nsec := 5 |} None in
  stderr_ok w = true
  /\ count_stations "wlan0" w = Ret 2 w
  /\ exists r ss' w2,
       stations_open "wlan0" scenario_mem 512 w = Ret (r, ss') w2
       /\ r <= 2 /\ r <= 257 /\ (0 < 2 -> 0 <= r /\ r + 1 <= 2 * 2).
Proof.
  intros w.
  assert (count_stations "wlan0" w = Ret 2 w) as E1 by (vm_compute; reflexivity).
  destruct (stations_open "wlan0" scenario_mem 512 w) as [[r ss'] w2| | |] eqn:E2;
    try (exfalso; vm_compute in E2; discriminate E2).
  split; [reflexivity|]. split; [exact E1|].
  exists r, ss', w2. split; [reflexivity|].
  exact (stations_open_within_allocation "wlan0" scenario_mem w w w2 2 r ss'
           eq_refl E1 E2).
Defined.

End StationArray.

Section StationHandles.

Import WifiStats.

Lemma open_loop_handles dir limit entries : forall stations cnt w ss' c' w',
  open_loop dir limit entries stations cnt w = Ret (ss', c') w' ->
  (fun s => (rc_stats s, airtime s)) <$> ss'
  = (fun s => (rc_stats s, airtime s)) <$> stations.
Proof.
  assert (forall d (i : nat) (l : list station_stats),
            (fun s => (rc_stats s, airtime s)) <$> alter (set_names_of dir d) i l
            = (fun s => (rc_stats s, airtime s)) <$> l) as Halter.
  { intros d i l. revert i. induction l as [|x l IH]; intros [|i]; cbn; try reflexivity.
    f_equal. apply IH. }
  induction entries as [|d_name entries IH]; intros stations cnt w ss' c' w' Hrun;
    cbn [open_loop] in Hrun.
  - unfold ret in Hrun. injection Hrun as <- _ _. reflexivity.
  - destruct (String.eqb d_name "."); [eapply IH; eauto|].
    destruct (String.eqb d_name ".."); [eapply IH; eauto|].
    cbv zeta in Hrun. destruct (limit <? cnt + 1).
    + unfold bind in Hrun. destruct (perror _ w) as [u w1| | |]; try discriminate.
      unfold ret in Hrun. injection Hrun as <- _ _. apply Halter.
    + apply IH in Hrun. rewrite Hrun. apply Halter.
Qed.

(** X14: [stations_open] fills in names and never a handle, but for the
    two it sets to -1 in the first record and in the record at the index
    it returns: in every other record the two handles are afterwards what
    they were before, that is, what [malloc] left there. *)
Theorem stations_open_leaves_handles (dev : string) (stations : list station_stats)
    (L : Z) (w w' : world) (r : Z) (ss' : list station_stats) (i : nat)
    (s : station_stats) :
  stations_open dev stations L w = Ret (r, ss') w' ->
  (0 < i)%nat -> Z.of_nat i <> r ->
  stations !! i = Some s ->
  exists s', ss' !! i = Some s'
    /\ rc_stats s' = rc_stats s /\ airtime s' = airtime s.
Proof.
  intros Hrun Hi Hr Hs. unfold stations_open in Hrun. cbv zeta in Hrun.
  unfold bind at 1 in Hrun.
  destruct (wifi_where dev w) as [phy w1| | |]; try discriminate.
  unfold bind at 1 in Hrun.
  destruct (dir_exists _ w1) as [[entries|] w2| | |]; try discriminate.
  - unfold bind in Hrun.
    destruct (open_loop _ _ _ _ _ w2) as [[st cnt] w3| | |] eqn:Hloop; try discriminate.
    unfold ret in Hrun. injection Hrun as <- <- _.
    apply open_loop_handles in Hloop.
    assert (alter (set_handles (-1) (-1)) (Z.to_nat 0) stations !! i = Some s) as Hs0.
    { rewrite list_lookup_alter_ne by lia. exact Hs. }
    apply (f_equal (fun l => l !! i)) in Hloop.
    rewrite !list_lookup_fmap, Hs0 in Hloop.
    destruct (st !! i) as [s'|] eqn:Hs'; [|discriminate].
    cbn in Hloop. injection Hloop as H1 H2.
    exists s'. split; [|auto].
    rewrite list_lookup_alter_ne by lia. exact Hs'.
  - unfold ret in Hrun. injection Hrun as <- <- _.
    exists s. split; [|auto]. rewrite list_lookup_alter_ne by lia. exact Hs.
Qed.

Lemma stations_open_leaves_handles_witness :
  let junk := {| rc_stats := 1; airtime := 7; macaddr := ""; airtime_file := "";
                 rc_stats_file := "" |} in
  let w := init_world ∅ scenario_dirs {| tv_sec := 100; tv_nsec := 5 |} None in
  exists ss' w',
    stations_open "wlan0" [blank; junk; blank; blank] 512 w = Ret (2, ss') w'
    /\ (0 < 1)%nat /\ Z.of_nat 1 <> 2
    /\ [blank; junk; blank; blank] !! 1%nat = Some junk
    /\ exists s', ss' !! 1%nat = Some s' /\ rc_stats s' = 1 /\ airtime s' = 7.
Proof.
  intros junk w.
  destruct (stations_open "wlan0" [blank; junk; blank; blank] 512 w)
    as [[r ss'] w'| | |] eqn:E; try (exfalso; vm_compute in E; discriminate E).
  assert (r = 2) as -> by (vm_compute in E; injection E as <- _ _; reflexivity).
  exists ss', w'. split; [reflexivity|]. split; [lia|]. split; [discriminate|].
  split; [reflexivity|].
  exact (stations_open_leaves_handles "wlan0" [blank; junk; blank; blank] 512 w w' 2 ss'
           1 junk E ltac:(lia) ltac:(discriminate) eq_refl).
Defined.

(** X15: [stations_reset] closes whatever descriptor a record's positive
    handle names, whether or not the record opened it (the output or the
    timer included): after the call on the first record, what was open at
    that number is gone, and the number is free or taken by a stream file
    opened in this call. *)
Theorem reset_closes_named_descriptor (s : station_stats)
    (others : list station_stats) (w : world) (h : Z) (o : ofile) :
  stdin_ok w = true -> serials_ok w ->
  h ∈ owned_by s -> fd_get w h = Some o ->
  exists s' w',
    stations_reset (s :: others) 1 w = Ret (0, s' :: others) w'
    /\ fd_get w' h <> Some o
    /\ (forall o', fd_get w' h = Some o' ->
          (w_serial w <= of_serial o')%nat
          /\ exists path data, of_target o' = TFile path data).
Proof.
  intros Hin Hser Hh Hget.
  destruct (reset_one_spec w s Hin)
    as (s' & w' & Hrun & _ & _ & _ & Hrc & Hair & _ & _ & Hchar).
  exists s', w'. split.
  { unfold stations_reset. change (Z.to_nat 1) with 1%nat. cbn [reset_loop].
    unfold bind. rewrite Hrun. destruct others; reflexivity. }
  assert (forall o', fd_get w' h = Some o' ->
            (w_serial w <= of_serial o')%nat
            /\ exists path data, of_target o' = TFile path data) as Hnew.
  { intros o' Hget'. destruct (Hchar _ _ Hget') as [(Hn & Hin')|(_ & Hnot)]; [|contradiction].
    split; [lia|].
    destruct (fresh_owned _ _ _ _ Hrc Hair h Hin') as (o1 & p & d & G1 & G2 & _).
    assert (o1 = o') by congruence. subst. eauto. }
  split; [|exact Hnew].
  intros Hsame. destruct (Hnew _ Hsame) as (Hn & _).
  specialize (Hser _ _ Hget). lia.
Qed.

Lemma reset_closes_named_descriptor_witness :
  let s := {| rc_stats := 1; airtime := 0; macaddr := "AA:BB";
              airtime_file := "/none/airtime"; rc_stats_file := "/none/rc_stats_csv" |} in
  stdin_ok w_demo = true /\ serials_okb w_demo = true
  /\ 1 ∈ owned_by s
  /\ fd_get w_demo 1 = Some {| of_serial := 1; of_target := TStdout; of_pos := 0 |}
  /\ exists s' w',
       stations_reset [s] 1 w_demo = Ret (0, [s']) w'
       /\ fd_get w' 1 <> Some {| of_serial := 1; of_target := TStdout; of_pos := 0 |}.
Proof.
  intros s.
  assert (1 ∈ owned_by s) as H3 by (vm_compute; apply list_elem_of_here).
  split; [reflexivity|]. split; [reflexivity|]. split; [exact H3|].
  split; [reflexivity|].
  destruct (reset_closes_named_descriptor s [] w_demo 1 _ eq_refl
              (serials_okb_sound w_demo eq_refl) H3 eq_refl)
    as (s' & w' & R1 & R2 & _).
  exists s', w'. auto.
Defined.

End StationHandles.

(** ** Reading the file *)

Section ReadOnce.

Import FileIterate.

Lemma read_loop_table fuel : forall fp buffer bufsize len w r w',
  read_loop fuel fp buffer bufsize len w = Ret r w' ->
  same_table w w' /\ w_serial w' = w_serial w.
Proof.
  induction fuel as [|fuel IH]; intros fp buffer bufsize len w r w' Hrun;
    cbn [read_loop] in Hrun; [discriminate|].
  unfold bind in Hrun.
  destruct (sys_read_frame w fp (bufsize - len))
    as (t & data & w1 & Hrd & _ & _ & Hs & _ & Hst).
  rewrite Hrd in Hrun. destruct (0 <? t).
  - apply IH in Hrun as (H1 & H2). split; [eapply same_table_trans; eauto | congruence].
  - unfold ret in Hrun. injection Hrun as _ <-. auto.
Qed.

(** X16: [read_once] never closes the file it opens: after a call on a
    file that exists, the descriptor [open] gave, free before, is still
    open on that file, no descriptor that was open has been closed, and
    one more description exists than before.  Every pass of the loop of
    file_iterate so leaves one more descriptor open. *)
Theorem read_once_never_closes (w : world) (fname : string) (buffer data : bytes)
    (bufsize : Z) :
  stdin_ok w = true -> 0 <= bufsize ->
  w_files w !! fname = Some data ->
  exists (h : Z) (o : ofile) (w' : world),
    read_once fname buffer bufsize w
    = Ret (Z.of_nat (length (take (Z.to_nat bufsize) data)),
           poke buffer 0 (take (Z.to_nat bufsize) data)) w'
    /\ 0 < h /\ fd_get w h = None
    /\ fd_get w' h = Some o /\ of_target o = TFile fname data
    /\ w_serial w' = S (w_serial w)
    /\ (forall fd o0, fd_get w fd = Some o0 -> fd_get w' fd = Some o0).
Proof.
  intros Hin Hsize Hf.
  destruct (read_once_spec w fname buffer bufsize Hin Hsize) as (w' & Hrun & _ & Hkeep).
  cbv zeta in Hrun. rewrite Hf in Hrun.
  destruct (sys_open_fresh w fname Hin) as (h & w1 & Hopen & _ & _ & Hcase).
  rewrite Hf in Hcase. destruct Hcase as (Hpos & Hfree & Hnew & Hser & _).
  pose proof Hrun as Hrun'.
  unfold read_once, bind in Hrun'. rewrite Hopen in Hrun'.
  destruct (Z.eqb_spec h 0) as [->|_]; [lia|].
  apply read_loop_table in Hrun' as (Hst & Hs').
  specialize (Hst h). rewrite Hnew in Hst.
  destruct (fd_get w' h) as [o|] eqn:E; [|contradiction].
  destruct Hst as (_ & Htg). cbn in Htg.
  exists h, o, w'. split; [exact Hrun|]. split; [exact Hpos|]. split; [exact Hfree|].
  split; [exact E|]. split; [exact Htg|]. split; [congruence | exact Hkeep].
Qed.

Lemma read_once_never_closes_witness :
  let w := init_world (<["/x"%string := lit "42"]> ∅) ∅ {| tv_sec := 100; tv_nsec := 5 |} None in
  stdin_ok w = true /\ 0 <= BUFFERSIZE
  /\ w_files w !! "/x"%string = Some (lit "42")
  /\ exists (h : Z) (o : ofile) (w' : world),
       read_once "/x" [] BUFFERSIZE w
       = Ret (Z.of_nat (length (take (Z.to_nat BUFFERSIZE) (lit "42"))),
              poke [] 0 (take (Z.to_nat BUFFERSIZE) (lit "42"))) w'
       /\ fd_get w h = None /\ fd_get w' h = Some o
       /\ w_serial w' = S (w_serial w).
Proof.
  intros w.
  assert (0 <= BUFFERSIZE) as H2 by (unfold BUFFERSIZE; lia).
  assert (w_files w !! "/x"%string = Some (lit "42")) as H3 by apply lookup_insert_eq.
  split; [reflexivity|]. split; [exact H2|]. split; [exact H3|].
  destruct (read_once_never_closes w "/x" [] (lit "42") BUFFERSIZE eq_refl H2 H3)
    as (h & o & w' & R1 & _ & R2 & R3 & _ & R4 & _).
  exists h, o, w'. auto.
Defined.

(** X17: the test [!fp] in [read_once] is for the descriptor 0, not for a
    failed [open].  For a file that does not exist [read_once] returns 0,
    prints nothing and changes nothing: "Unable to open file" is not
    written.  That line is written, and -1 returned, exactly when [open]
    succeeds with descriptor 0, which it does when standard input is
    closed; the file then stays open there, unread. *)
Theorem read_once_open_test (w : world) (fname : string) (buffer : bytes)
    (bufsize : Z) :
  (w_files w !! fname = None ->
   read_once fname buffer bufsize w = Ret (0, buffer) w)
  /\ (forall data, w_files w !! fname = Some data ->
        fd_get w 0 = None -> stderr_ok w = true ->
        exists w',
          read_once fname buffer bufsize w = Ret (-1, buffer) w'
          /\ w_stderr w' = w_stderr w ++ [DPerror "Unable to open file"]
          /\ fd_get w' 0
             = Some {| of_serial := w_serial w; of_target := TFile fname data;
                       of_pos := 0 |}).
Proof.
  split.
  - intros Hf. unfold read_once, bind at 1, sys_open. rewrite Hf.
    simpl (-1 =? 0). cbn [read_loop]. unfold bind.
    rewrite sys_read_closed by reflexivity. reflexivity.
  - intros data Hf H0 Herr. unfold read_once, bind at 1, sys_open. rewrite Hf.
    unfold fd_open.
    assert (exists t, w_fds w = None :: t) as (t & Et).
    { unfold stderr_ok, fd_get in *. cbn in H0, Herr.
      destruct (w_fds w) as [|[o0|] t]; try discriminate. eauto. }
    rewrite Et. cbn [fd_install]. change (Z.of_nat 0 =? 0) with true. cbv iota.
    set (o := {| of_serial := w_serial w; of_target := TFile fname data; of_pos := 0 |}).
    set (w1 := set_fds (Some o :: t) (S (w_serial w)) w).
    assert (stderr_ok w1 = true) as Herr1.
    { unfold stderr_ok, fd_get in *. cbn in *. rewrite Et in Herr. exact Herr. }
    unfold bind. rewrite (perror_stderr _ _ Herr1). unfold ret.
    eexists. split; [reflexivity|]. split; reflexivity.
Qed.

Lemma read_once_open_test_witness :
  w_files w_demo !! "/x"%string = None
  /\ read_once "/x" [] BUFFERSIZE w_demo = Ret (0, []) w_demo.
Proof.
  assert (w_files w_demo !! "/x"%string = None) as H by reflexivity.
  split; [exact H|].
  exact (proj1 (read_once_open_test w_demo "/x" [] BUFFERSIZE) H).
Defined.

End ReadOnce.

(** ** A scratch file that cannot be made *)

Section DeadSink.

Import FileIterate.




End DeadSink.

Section DeadSinkRun.

Import FileIterate.




End DeadSinkRun.

(** ** Descriptors over the ticks of wifistats_iterate *)

Section TickDescriptors.

Import WifiStats.

Lemma length_owned l : (length (owned l) <= 2 * length l)%nat.
Proof.
  induction l as [|s l IH]; [simpl; lia|].
  cbn [owned length]. rewrite length_app. unfold owned_by, own1. rewrite length_app.
  destruct (0 <? rc_stats s), (0 <? airtime s); simpl; lia.
Qed.

(** X19: a tick of wifistats_iterate leaks no descriptor.  On records
    whose handles are in order, after the reset and the read every open
    descriptor is a handle of one of the [c] records, at most [2 * c] of
    them, or a descriptor that was open before the tick and that no record
    held, still on the same stream. *)
Theorem tick_leaves_no_descriptor_behind (ss : list station_stats) (buf : bytes)
    (c : Z) (w : world) :
  stdin_ok w = true -> serials_ok w -> stations_ok w (take (Z.to_nat c) ss) ->
  exists ss' size buf' w',
    capture ss buf c w = Ret (ss', size, buf') w'
    /\ (length (owned (take (Z.to_nat c) ss')) <= 2 * Z.to_nat c)%nat
    /\ forall fd o', fd_get w' fd = Some o' ->
         (fd ∈ owned (take (Z.to_nat c) ss'))
         \/ ((fd ∉ owned (take (Z.to_nat c) ss))
             /\ exists o, fd_get w fd = Some o
                  /\ of_serial o = of_serial o' /\ of_target o = of_target o').
Proof.
  intros Hin Hser Hok. unfold capture, stations_reset, stations_read.
  destruct (reset_loop_spec (Z.to_nat c) ss w Hin Hser Hok)
    as (ss1 & w1 & Hrun1 & _ & _ & _ & _ & _ & _ & Hnd & _ & Hchar).
  unfold bind at 1. unfold bind at 1. rewrite Hrun1. unfold ret at 1.
  destruct (read_loop_spec (Z.to_nat c) ss1 buf 0 w1 ltac:(lia) ltac:(simpl; lia) Hnd)
    as (size' & buf' & w' & Hrun & _ & _ & _ & _ & _ & _ & Hsame).
  unfold bind at 1. rewrite Hrun. unfold ret.
  exists ss1, size', buf', w'. split; [reflexivity|]. split.
  { etransitivity; [apply length_owned|]. rewrite length_take. lia. }
  intros fd o' Hget. specialize (Hsame fd). rewrite Hget in Hsame.
  destruct (fd_get w1 fd) as [o1|] eqn:E1; [|contradiction].
  destruct Hsame as (Hs & Ht).
  destruct (Hchar _ _ E1) as [(_ & Hown)|(Hold & Hnot)]; [left; exact Hown|].
  right. split; [exact Hnot|]. exists o1. auto.
Qed.

Lemma tick_leaves_no_descriptor_behind_witness :
  let ss := fst (fst (scenario_next (lit "X"))) in
  let c := snd (fst (scenario_next (lit "X"))) in
  let w := snd (scenario_next (lit "X")) in
  stdin_ok w = true /\ serials_okb w = true
  /\ stations_okb w (take (Z.to_nat c) ss) = true
  /\ exists ss' size buf' w',
       capture ss [] c w = Ret (ss', size, buf') w'
       /\ (length (owned (take (Z.to_nat c) ss')) <= 2 * Z.to_nat c)%nat.
Proof.
  intros ss c w.
  assert (stdin_ok w = true) as H1 by (vm_compute; reflexivity).
  assert (serials_okb w = true) as H2 by (vm_compute; reflexivity).
  assert (stations_okb w (take (Z.to_nat c) ss) = true) as H3 by (vm_compute; reflexivity).
  split; [exact H1|]. split; [exact H2|]. split; [exact H3|].
  destruct (tick_leaves_no_descriptor_behind ss [] c w H1 (serials_okb_sound w H2)
              (stations_okb_sound w _ H3))
    as (ss' & size & buf' & w' & R1 & R2 & _).
  exists ss', size, buf', w'. auto.
Defined.

End TickDescriptors.
